(** * Energy-Charts integration: acquisition and aggregation pipeline

    A shallow embedding of [models.py], [api.py], [coordinator.py] and the
    tables of [const.py], followed by the properties of the pipeline.

    Conventions of the embedding:
    - a Python [float] is a binary64 value of [PrimFloat];
    - a Python [str] is the [string] of the bytes of its UTF-8 encoding. The
      [str] methods the code calls with ASCII arguments ([replace], [in],
      [strip], [==]) act on the encoding as they act on the characters;
      [str.lower] does not, it follows the Unicode tables of the interpreter,
      and is a method of the [Runtime] the code runs on;
    - [datetime.fromtimestamp] raises on the timestamps the platform and its
      time zone give no local time to; which ones they are is the other
      method of the [Runtime];
    - a Python [dict] is an association list in insertion order, because the
      code iterates over [dict.items()] and floating-point sums depend on the
      order of the terms;
    - [async] code runs one suspending operation at a time, so it is a state
      transformer over a [world] that scripts the network and the clock;
      an exception is a [Raise] result;
    - library behaviour the code relies on is written out where it decides a
      result: [round], [int] to [float] conversion, [str] methods,
      [datetime.isocalendar]; pydantic's scalar coercions are the methods of
      a [Validator]. *)

From Stdlib Require Import ZArith String Ascii List Bool Lia.
From Stdlib Require Import Numbers.DecimalString.
From Stdlib Require Import Floats.PrimFloat Floats.FloatOps Floats.SpecFloat.
From Equations Require Import Equations.
Import ListNotations.

Set Warnings "-inexact-float".

Local Open Scope list_scope.
Local Open Scope string_scope.

(** ** Python strings *)

Module PyStr.

Definition is_upper (c : ascii) : bool :=
  let n := nat_of_ascii c in (65 <=? n)%nat && (n <=? 90)%nat.

Definition is_lower (c : ascii) : bool :=
  let n := nat_of_ascii c in (97 <=? n)%nat && (n <=? 122)%nat.

Definition is_digit (c : ascii) : bool :=
  let n := nat_of_ascii c in (48 <=? n)%nat && (n <=? 57)%nat.

(** [c.isalnum()] on ASCII. *)
Definition isalnum (c : ascii) : bool := is_upper c || is_lower c || is_digit c.

Definition lower_char (c : ascii) : ascii :=
  if is_upper c then ascii_of_nat (nat_of_ascii c + 32) else c.

(** [s.lower()] for a [str] of ASCII characters: the letters A to Z become
    a to z and every other character is kept. *)
Fixpoint lower_ascii (s : string) : string :=
  match s with
  | EmptyString => EmptyString
  | String c r => String (lower_char c) (lower_ascii r)
  end.

(** [s.isascii()]: every byte of the encoding is below 128. *)
Fixpoint isascii (s : string) : bool :=
  match s with
  | EmptyString => true
  | String c r => (nat_of_ascii c <? 128)%nat && isascii r
  end.

(** [s.replace(old, new)] for a one-character [old]. *)
Fixpoint replace_char (old : ascii) (new : string) (s : string) : string :=
  match s with
  | EmptyString => EmptyString
  | String c r =>
      if Ascii.eqb c old then new ++ replace_char old new r
      else String c (replace_char old new r)
  end.

(** [s.replace("__", "_")]: occurrences are found left to right and do not
    overlap. *)
Fixpoint replace_uu (s : string) : string :=
  match s with
  | EmptyString => EmptyString
  | String c r =>
      match r with
      | String d r' =>
          if Ascii.eqb c "_" && Ascii.eqb d "_"
          then String "_" (replace_uu r')
          else String c (replace_uu r)
      | EmptyString => String c EmptyString
      end
  end.

(** [s.startswith(p)] *)
Fixpoint startswith (p s : string) : bool :=
  match p, s with
  | EmptyString, _ => true
  | String a p', String b s' => Ascii.eqb b a && startswith p' s'
  | String _ _, EmptyString => false
  end.

(** [sub in s] *)
Fixpoint contains (sub s : string) : bool :=
  if startswith sub s then true
  else match s with
       | EmptyString => false
       | String _ r => contains sub r
       end.

(** [s.lstrip("_")] *)
Fixpoint lstrip_us (s : string) : string :=
  match s with
  | EmptyString => EmptyString
  | String c r => if Ascii.eqb c "_" then lstrip_us r else s
  end.

(** [s.rstrip("_")] *)
Fixpoint rstrip_us (s : string) : string :=
  match s with
  | EmptyString => EmptyString
  | String c r =>
      match rstrip_us r with
      | EmptyString => if Ascii.eqb c "_" then EmptyString else String c EmptyString
      | r' => String c r'
      end
  end.

(** [s.strip("_")] *)
Definition strip_us (s : string) : string := rstrip_us (lstrip_us s).

(** [str(n)] for an [int]. *)
Definition str_of_int (n : Z) : string := NilZero.string_of_int (Z.to_int n).

(** [f"{n:02d}"]: the decimal rendering, zero-filled to a width of 2, the
    sign counting in the width. *)
Definition format_02d (n : Z) : string :=
  let digits := NilZero.string_of_uint (N.to_uint (Z.to_N (Z.abs n))) in
  if (n <? 0)%Z then "-" ++ digits
  else if (String.length digits <? 2)%nat then "0" ++ digits
  else digits.

Lemma replace_uu_cons2 (c d : ascii) (r : string) :
  replace_uu (String c (String d r)) =
  if Ascii.eqb c "_" && Ascii.eqb d "_" then String "_" (replace_uu r)
  else String c (replace_uu (String d r)).
Proof. reflexivity. Qed.

Lemma contains_uu_cons2 (c d : ascii) (r : string) :
  contains "__" (String c (String d r)) =
  (Ascii.eqb c "_" && Ascii.eqb d "_") || contains "__" (String d r).
Proof.
  cbn [contains startswith].
  destruct (Ascii.eqb c "_"), (Ascii.eqb d "_"); reflexivity.
Qed.

(** One round of [replace("__", "_")] never lengthens the string, and shortens
    it when ["__"] occurs. *)
Lemma replace_uu_length (n : nat) :
  forall s, (String.length s <= n)%nat ->
    (String.length (replace_uu s) <= String.length s)%nat /\
    (contains "__" s = true -> (String.length (replace_uu s) < String.length s)%nat).
Proof.
  induction n as [|n IH]; intros s Hn.
  - destruct s; simpl in *; [split; [lia | discriminate] | lia].
  - destruct s as [|c [|d r]].
    + simpl. split; [lia | discriminate].
    + simpl. split; [lia | ]. destruct (Ascii.eqb c "_"); discriminate.
    + rewrite replace_uu_cons2, contains_uu_cons2.
      cbn [String.length] in Hn.
      destruct (Ascii.eqb c "_" && Ascii.eqb d "_"); cbn [orb String.length].
      * destruct (IH r ltac:(lia)) as [Hle _]. split; intros; lia.
      * destruct (IH (String d r) ltac:(cbn [String.length]; lia)) as [Hle Hlt].
        cbn [String.length] in Hle, Hlt.
        split; [lia | intros H; specialize (Hlt H); lia].
Qed.

(** A value together with the equation that names it, so that a [with]
    clause keeps the test it branches on. *)
Definition inspect {A : Type} (a : A) : {b : A | a = b} := exist _ a eq_refl.

(** The loop [while "__" in key: key = key.replace("__", "_")]. Each round
    shortens the string, which is the measure of the recursion. *)
Equations? collapse_underscores (key : string) : string
  by wf (String.length key) lt :=
  collapse_underscores key with inspect (contains "__" key) := {
    | exist _ true _ => collapse_underscores (replace_uu key)
    | exist _ false _ => key }.
Proof.
  apply (replace_uu_length (String.length key) key (le_n _)). assumption.
Qed.

End PyStr.

(** ** Python floats *)

Module PyFloat.

Definition prec : Z := 53.
Definition emax : Z := 1024.

(** [float(n)] for an [int]: the nearest binary64 value; [None] stands for
    the [OverflowError] of an [int] too large for a float. *)
Definition float_of_int (n : Z) : option float :=
  let f := SF2Prim (binary_normalize prec emax n 0 false) in
  if PrimFloat.is_infinity f then None else Some f.

(** The integer nearest to [num / den] ([den > 0]), ties to the even one. *)
Definition round_half_even (num den : Z) : Z :=
  let q := (num / den)%Z in
  let r := (num mod den)%Z in
  match (2 * r ?= den)%Z with
  | Lt => q
  | Gt => (q + 1)%Z
  | Eq => if Z.even q then q else (q + 1)%Z
  end.

(** The builtin [round(x, 2)] on a float, as CPython computes it: the exact
    binary value of [x] is rounded to two decimals (ties to even), and the
    decimal [n / 100] obtained is converted back to the nearest float. Zeros,
    infinities and NaN round to themselves. *)
Definition round2 (x : float) : float :=
  match Prim2SF x with
  | S754_finite s m e =>
      let n := if (0 <=? e)%Z
               then round_half_even (Zpos m * 2 ^ e * 100) 1
               else round_half_even (Zpos m * 100) (2 ^ (- e)) in
      match n with
      | Zpos p =>
          SF2Prim (SFdiv prec emax (S754_finite s p 0) (S754_finite false 100 0))
      | _ => if s then (-0)%float else 0%float
      end
  | _ => x
  end.

(** [x > 0] *)
Definition gt0 (x : float) : bool := PrimFloat.ltb 0 x.

(** [bool(x)]: a float is falsy exactly when it compares equal to zero. *)
Definition truthy (x : float) : bool := negb (PrimFloat.eqb x 0).

End PyFloat.

(** ** Exceptions and results *)

Inductive exn : Type :=
| EnergyChartsConnectionError
| EnergyChartsDataError
| EnergyChartsTimeoutError
| EnergyChartsNotFoundError
| UpdateFailed (message : string)
| ValidationError
| TypeError
| AttributeError
| KeyError
| OverflowError
| ValueError
| OSError.

Inductive result (A : Type) : Type :=
| Ok (a : A)
| Raise (e : exn).
Arguments Ok {A} a.
Arguments Raise {A} e.

Definition rbind {A B : Type} (r : result A) (k : A -> result B) : result B :=
  match r with
  | Ok a => k a
  | Raise e => Raise e
  end.

Declare Scope result_scope.
Delimit Scope result_scope with result.
Notation "'let?' x ':=' r 'in' k" := (rbind r (fun x => k))
  (at level 10, x pattern, r at level 100, k at level 200) : result_scope.

Definition of_option {A : Type} (e : exn) (o : option A) : result A :=
  match o with
  | Some a => Ok a
  | None => Raise e
  end.

(** Runs [f] over a list, left to right, and stops at the first exception. *)
Fixpoint traverse {A B : Type} (f : A -> result B) (l : list A) : result (list B) :=
  match l with
  | [] => Ok []
  | x :: r =>
      match f x with
      | Ok y => match traverse f r with
                | Ok ys => Ok (y :: ys)
                | Raise e => Raise e
                end
      | Raise e => Raise e
      end
  end.

(** ** Python dicts, in insertion order *)

Module PyDict.

Definition dict (V : Type) : Type := list (string * V).

(** [d.get(k)] *)
Fixpoint get {V : Type} (d : dict V) (k : string) : option V :=
  match d with
  | [] => None
  | (k', v) :: r => if String.eqb k' k then Some v else get r k
  end.

(** [d.get(k, default)] *)
Definition get_default {V : Type} (d : dict V) (k : string) (default : V) : V :=
  match get d k with
  | Some v => v
  | None => default
  end.

(** [k in d] *)
Definition has_key {V : Type} (d : dict V) (k : string) : bool :=
  match get d k with
  | Some _ => true
  | None => false
  end.

(** [d[k] = v]: an existing key keeps its place, a new one goes last. *)
Fixpoint set {V : Type} (d : dict V) (k : string) (v : V) : dict V :=
  match d with
  | [] => [(k, v)]
  | (k', v') :: r => if String.eqb k' k then (k', v) :: r else (k', v') :: set r k v
  end.

Definition keys {V : Type} (d : dict V) : list string := map fst d.

End PyDict.
Import PyDict.

(** ** Decoded JSON values *)

Unset Elimination Schemes.
Inductive json : Type :=
| JNull
| JBool (b : bool)
| JInt (n : Z)
| JFloat (f : float)
| JStr (s : string)
| JList (items : list json)
| JDict (fields : list (string * json)).
Set Elimination Schemes.

Module PyObj.

Definition is_str (k : string) (v : json) : bool :=
  match v with
  | JStr s => String.eqb s k
  | _ => false
  end.

(** [k in obj] for a string [k]: key membership in a dict, element
    membership in a list, substring test in a string; any other object is not
    iterable. *)
Definition contains (k : string) (obj : json) : result bool :=
  match obj with
  | JDict d => Ok (has_key d k)
  | JList l => Ok (existsb (is_str k) l)
  | JStr s => Ok (PyStr.contains k s)
  | _ => Raise TypeError
  end.

(** [obj[k]] for a string [k]. *)
Definition getitem (obj : json) (k : string) : result json :=
  match obj with
  | JDict d => of_option KeyError (get d k)
  | _ => Raise TypeError
  end.

(** [obj.get(k, default)]: only a dict has the method. *)
Definition get (obj : json) (k : string) (default : json) : result json :=
  match obj with
  | JDict d => Ok (get_default d k default)
  | _ => Raise AttributeError
  end.

End PyObj.

(** pydantic's lax-mode coercion of one decoded value to a scalar field type;
    [None] is a validation error. The code relies on these through its field
    annotations only, so the pipeline is stated for any such validator. *)
Class Validator : Type := {
  lax_str : json -> option string;
  lax_float : json -> option float;
  lax_int : json -> option Z;
  lax_bool : json -> option bool
}.

(** The coercions on the value kinds of the wire format: strings, numbers and
    booleans as they are, an integer where a float is expected converted. *)
Definition wire_validator : Validator := {|
  lax_str := fun v => match v with JStr s => Some s | _ => None end;
  lax_float := fun v => match v with
                        | JFloat f => Some f
                        | JInt n => PyFloat.float_of_int n
                        | _ => None
                        end;
  lax_int := fun v => match v with JInt n => Some n | _ => None end;
  lax_bool := fun v => match v with JBool b => Some b | _ => None end
|}.

(** ** const.py *)

Module Const.

Definition API_BASE_URL : string := "https://www.energy-charts.info/charts/power/data".
Definition API_TIMEOUT : Z := 30.

Definition CATEGORY_RENEWABLE : string := "renewable".
Definition CATEGORY_FOSSIL : string := "fossil".
Definition CATEGORY_NUCLEAR : string := "nuclear".
Definition CATEGORY_STORAGE : string := "storage".
Definition CATEGORY_TRADE : string := "trade".

Definition FOSSIL_SOURCES : list string :=
  [ "fossil_brown_coal_lignite";
    "fossil_brown_coal/lignite";
    "fossil_hard_coal";
    "fossil_coal-derived_gas";
    "fossil_gas";
    "fossil_oil" ].

Definition SOURCE_CATEGORIES : dict string :=
  [ ("hydro_run-of-river", CATEGORY_RENEWABLE);
    ("biomass", CATEGORY_RENEWABLE);
    ("wind_offshore", CATEGORY_RENEWABLE);
    ("wind_onshore", CATEGORY_RENEWABLE);
    ("photovoltaic", CATEGORY_RENEWABLE);
    ("solar", CATEGORY_RENEWABLE);
    ("hydro_water_reservoir", CATEGORY_RENEWABLE);
    ("geothermal", CATEGORY_RENEWABLE);
    ("fossil_brown_coal_lignite", CATEGORY_FOSSIL);
    ("fossil_brown_coal/lignite", CATEGORY_FOSSIL);
    ("fossil_hard_coal", CATEGORY_FOSSIL);
    ("fossil_coal-derived_gas", CATEGORY_FOSSIL);
    ("fossil_gas", CATEGORY_FOSSIL);
    ("fossil_oil", CATEGORY_FOSSIL);
    ("nuclear", CATEGORY_NUCLEAR);
    ("hydro_pumped_storage", CATEGORY_STORAGE);
    ("battery", CATEGORY_STORAGE);
    ("battery_storage", CATEGORY_STORAGE) ].

Definition SENSOR_TOTAL_PRODUCTION : string := "total_production".
Definition SENSOR_TOTAL_RENEWABLE : string := "total_renewable".
Definition SENSOR_RENEWABLE_SHARE : string := "renewable_share".
Definition SENSOR_TOTAL_FOSSIL : string := "total_fossil".
Definition SENSOR_TOTAL_NUCLEAR : string := "total_nuclear".

Definition SENSOR_SOLAR_TOTAL : string := "solar_total".
Definition SENSOR_WIND_TOTAL : string := "wind_total".
Definition SENSOR_HYDRO_TOTAL : string := "hydro_total".
Definition SENSOR_FOSSIL_TOTAL : string := "fossil_total".

Definition CONF_HISTORICAL_RANGE : string := "historical_data_range".
Definition HISTORICAL_RANGE_NONE : string := "none".

Definition SOURCE_ICONS : dict string :=
  [ ("solar", "mdi:solar-power");
    ("photovoltaic", "mdi:solar-panel");
    ("wind_onshore", "mdi:wind-turbine");
    ("wind_offshore", "mdi:wind-turbine");
    ("hydro", "mdi:water");
    ("hydro_run-of-river", "mdi:water");
    ("hydro_water_reservoir", "mdi:water");
    ("hydro_pumped_storage", "mdi:water-pump");
    ("biomass", "mdi:leaf");
    ("nuclear", "mdi:radioactive");
    ("fossil_gas", "mdi:fire");
    ("fossil_coal", "mdi:factory");
    ("fossil_hard_coal", "mdi:factory");
    ("fossil_brown_coal_lignite", "mdi:factory");
    ("fossil_brown_coal/lignite", "mdi:factory");
    ("fossil_oil", "mdi:oil");
    ("storage", "mdi:battery");
    ("battery", "mdi:battery");
    ("battery_storage", "mdi:battery");
    ("trade", "mdi:transit-connection-variant");
    ("geothermal", "mdi:fire") ].

End Const.

(** ** The runtime *)

(** The ways [datetime.fromtimestamp(ts / 1000)] fails: the local time falls
    outside the years 1 to 9999 ([ValueError]); the quotient is no float or
    lies outside the platform's [time_t] ([OverflowError]); the platform's
    [localtime] refuses it ([OSError]). *)
Inductive time_error : Type :=
| YearOutOfRange
| TimeOverflow
| LocaltimeFailure.

Definition exn_of_time_error (e : time_error) : exn :=
  match e with
  | YearOutOfRange => ValueError
  | TimeOverflow => OverflowError
  | LocaltimeFailure => OSError
  end.

(** What the code takes from the interpreter and the platform it runs on.
    [str_lower] is [str.lower]: it follows the interpreter's Unicode tables,
    and on ASCII text it is [PyStr.lower_ascii] everywhere.
    [fromtimestamp_error ts] tells how [datetime.fromtimestamp(ts / 1000)]
    fails for the epoch milliseconds [ts], [None] when it returns a
    [datetime]; the bounds depend on the platform's [time_t] and on the local
    time zone. The pipeline is stated for any runtime. *)
Class Runtime : Type := {
  str_lower : string -> string;
  str_lower_ascii :
    forall s, PyStr.isascii s = true -> str_lower s = PyStr.lower_ascii s;
  fromtimestamp_error : Z -> option time_error
}.

(** The runtime of the examples. Its text is ASCII: [str_lower] is the
    lowering every runtime has on ASCII text, and the examples hold no other
    character. Its clock is that of CPython 3.11 on x86-64 Linux (glibc) in
    the time zone UTC: a [datetime] exists from 0001-01-02 00:00:00 to the
    last millisecond of the year 9999, further out the year is refused, then
    [localtime], then the conversion to [time_t]. *)
Definition ascii_utc : Runtime := {|
  str_lower := PyStr.lower_ascii;
  str_lower_ascii := fun s _ => eq_refl;
  fromtimestamp_error := fun ts =>
    if (ts <? -9223372036854776832000)%Z then Some TimeOverflow
    else if (ts <? -67768040609740804000)%Z then Some LocaltimeFailure
    else if (ts <? -62135510400000)%Z then Some YearOutOfRange
    else if (ts <=? 253402300799999)%Z then None
    else if (ts <? 67768036191676796000)%Z then Some YearOutOfRange
    else if (ts <=? 9223372036854776832000)%Z then Some LocaltimeFailure
    else Some TimeOverflow
|}.

(** A [datetime] built by [datetime.fromtimestamp(ts / 1000)], identified
    with the epoch milliseconds [ts] it was built from. *)
Definition instant : Type := Z.

(** [datetime.fromtimestamp(ts / 1000)] *)
Definition fromtimestamp_ms {R : Runtime} (ts : Z) : result instant :=
  match fromtimestamp_error ts with
  | None => Ok ts
  | Some e => Raise (exn_of_time_error e)
  end.

(** ** models.py *)

Module Models.

Record EnergyDataSeries : Type := {
  name : dict string;
  color : string;
  data : list (option float);
  timestamps : list Z;
  visible : bool
}.

(** The [mode="before"] validator of [name]: it sees the raw value. *)
Definition normalize_name (v : json) : json :=
  match v with
  | JList (first :: _) => first
  | JList [] => JDict []
  | JDict _ => v
  | _ => JDict []
  end.

Section Validation.
Context {V : Validator}.

(** Validation of [name: dict[str, str]] after [normalize_name]. *)
Definition validate_name (v : json) : result (dict string) :=
  match normalize_name v with
  | JDict d =>
      traverse (fun kv => of_option ValidationError
                            (option_map (pair (fst kv)) (lax_str (snd kv)))) d
  | _ => Raise ValidationError
  end.

(** Validation of [data: list[float | None]]. *)
Definition validate_data (v : json) : result (list (option float)) :=
  match v with
  | JList l =>
      traverse (fun x => match x with
                         | JNull => Ok None
                         | _ => of_option ValidationError (option_map Some (lax_float x))
                         end) l
  | _ => Raise ValidationError
  end.

(** Validation of [timestamps: list[int]]. *)
Definition validate_timestamps (v : json) : result (list Z) :=
  match v with
  | JList l => traverse (fun x => of_option ValidationError (lax_int x)) l
  | _ => Raise ValidationError
  end.

(** The constructor call [EnergyDataSeries(name=..., color=..., data=...,
    timestamps=..., visible=...)]. *)
Definition new_EnergyDataSeries (name_ color_ data_ timestamps_ visible_ : json)
  : result EnergyDataSeries :=
  (let? n := validate_name name_ in
   let? c := of_option ValidationError (lax_str color_) in
   let? d := validate_data data_ in
   let? t := validate_timestamps timestamps_ in
   let? v := of_option ValidationError (lax_bool visible_) in
   Ok {| name := n; color := c; data := d; timestamps := t; visible := v |})%result.

End Validation.

Definition name_en (s : EnergyDataSeries) : string := get_default (name s) "en" "Unknown".

Definition name_de (s : EnergyDataSeries) : string := get_default (name s) "de" "Unbekannt".

(** The chain of [replace] calls of [key], on the lowercased name. *)
Definition replace_special (lowered : string) : string :=
  PyStr.replace_char "," ""
    (PyStr.replace_char ")" ""
      (PyStr.replace_char "(" ""
        (PyStr.replace_char "-" "_"
          (PyStr.replace_char "/" "_"
            (PyStr.replace_char " " "_" lowered))))).

Definition key {R : Runtime} (s : EnergyDataSeries) : string :=
  let lowered := str_lower (name_en s) in
  let k := replace_special lowered in
  let k := PyStr.collapse_underscores k in
  PyStr.strip_us k.

(** [for value in reversed(self.data): if value is not None: return value] *)
Fixpoint first_not_none (l : list (option float)) : option float :=
  match l with
  | [] => None
  | Some v :: _ => Some v
  | None :: r => first_not_none r
  end.

Definition latest_value (s : EnergyDataSeries) : option float :=
  first_not_none (rev (data s)).

(** The loop of [latest_timestamp] over [i = n-1, ..., 0]: the first index
    met that has a value and a timestamp ends it, with the [datetime] of that
    timestamp or with the exception of the conversion. *)
Fixpoint scan_timestamp {R : Runtime} (d : list (option float)) (ts : list Z) (n : nat)
  : result (option instant) :=
  match n with
  | O => Ok None
  | S i =>
      match nth_error d i, nth_error ts i with
      | Some (Some _), Some t =>
          (let? timestamp := fromtimestamp_ms t in Ok (Some timestamp))%result
      | _, _ => scan_timestamp d ts i
      end
  end.

Definition latest_timestamp {R : Runtime} (s : EnergyDataSeries) : result (option instant) :=
  match timestamps s, data s with
  | [], _ => Ok None
  | _, [] => Ok None
  | ts, d => scan_timestamp d ts (length d)
  end.

(** The loop of [get_data_points] over [enumerate(self.data)] from index [i];
    a conversion that raises ends it. *)
Fixpoint data_points_from {R : Runtime} (ts : list Z) (i : nat) (d : list (option float))
  : result (list (instant * float)) :=
  match d with
  | [] => Ok []
  | v :: r =>
      match v, nth_error ts i with
      | Some x, Some t =>
          (let? timestamp := fromtimestamp_ms t in
           let? points := data_points_from ts (S i) r in
           Ok ((timestamp, x) :: points))%result
      | _, _ => data_points_from ts (S i) r
      end
  end.

Definition get_data_points {R : Runtime} (s : EnergyDataSeries)
  : result (list (instant * float)) :=
  data_points_from (timestamps s) 0 (data s).

Record EnergyChartsResponse : Type := {
  data_series : list EnergyDataSeries
}.

Section FromApi.
Context {V : Validator}.

(** The body of the loop of [from_api_response] for one item: [None] when
    the item is skipped. *)
Definition parse_item (timestamps_ : json) (item : json) : result (option EnergyDataSeries) :=
  (let? has_name := PyObj.contains "name" item in
   if negb has_name then Ok None else
   let? has_data := PyObj.contains "data" item in
   if negb has_data then Ok None else
   let? name_ := PyObj.getitem item "name" in
   let? color_ := PyObj.get item "color" (JStr "#000000") in
   let? data_ := PyObj.get item "data" (JList []) in
   let? visible_ := PyObj.get item "visible" (JBool true) in
   let? series := new_EnergyDataSeries name_ color_ data_ timestamps_ visible_ in
   Ok (Some series))%result.

Fixpoint parse_items (timestamps_ : json) (items : list json) : result (list EnergyDataSeries) :=
  match items with
  | [] => Ok []
  | item :: rest =>
      (let? parsed := parse_item timestamps_ item in
       let? others := parse_items timestamps_ rest in
       Ok (match parsed with
           | Some series => series :: others
           | None => others
           end))%result
  end.

Definition from_api_response (response_data : list json) : result EnergyChartsResponse :=
  match response_data with
  | [] => Ok {| data_series := [] |}
  | first :: _ =>
      (let? timestamps_ := PyObj.get first "xAxisValues" (JList []) in
       let? series := parse_items timestamps_ response_data in
       Ok {| data_series := series |})%result
  end.

End FromApi.

(** [get_series_by_key]: the first series of the response with that key. *)
Definition get_series_by_key {R : Runtime} (r : EnergyChartsResponse) (k : string)
  : option EnergyDataSeries :=
  find (fun series => String.eqb (key series) k) (data_series r).

(** [get_series_by_name]: the first series whose name in [language],
    lowercased, is the lowercased [name_]. *)
Definition get_series_by_name {R : Runtime} (r : EnergyChartsResponse)
  (name_ language : string) : option EnergyDataSeries :=
  find (fun series =>
          String.eqb (str_lower (get_default (name series) language ""))
                     (str_lower name_))
       (data_series r).

Definition get_series_keys {R : Runtime} (r : EnergyChartsResponse) : list string :=
  map key (data_series r).

End Models.

(** ** The world an [async] operation runs in *)

(** A broken-down local time as [datetime.now()] returns it; only the date
    fields are read by the code. *)
Record datetime : Type := {
  year : Z;
  month : Z;
  day : Z
}.

(** What one [session.get(url, timeout=...)] block does, up to and including
    [response.json()]. *)
Inductive http_outcome : Type :=
| RaisesTimeout
| RaisesClientError
| RaisesOther
| Responds (status : Z) (body : json).

Inductive event : Type :=
| Get (url : string) (timeout : Z)
| Sleep (seconds : float).

(** [http n url] scripts the [n]-th GET issued, [clock n] the [n]-th reading
    of the wall clock; [trace] lists the requests and the sleeps done so far,
    oldest first. *)
Record world : Type := {
  http : nat -> string -> http_outcome;
  clock : nat -> datetime;
  gets : nat;
  nows : nat;
  trace : list event
}.

Definition M (A : Type) : Type := world -> result A * world.

Definition ret {A : Type} (a : A) : M A := fun w => (Ok a, w).

Definition raise {A : Type} (e : exn) : M A := fun w => (Raise e, w).

Definition bind {A B : Type} (m : M A) (k : A -> M B) : M B :=
  fun w => match m w with
           | (Ok a, w') => k a w'
           | (Raise e, w') => (Raise e, w')
           end.

Definition lift {A : Type} (r : result A) : M A := fun w => (r, w).

(** [try: m except Exception as e: handler(e)] *)
Definition try_except {A : Type} (m : M A) (handler : exn -> M A) : M A :=
  fun w => match m w with
           | (Ok a, w') => (Ok a, w')
           | (Raise e, w') => handler e w'
           end.

Declare Scope io_scope.
Delimit Scope io_scope with io.
Notation "x <- m ;; k" := (bind m (fun x => k))
  (at level 61, m at next level, right associativity) : io_scope.
Notation "m ;; k" := (bind m (fun _ => k))
  (at level 61, right associativity) : io_scope.

(** [datetime.now()] *)
Definition datetime_now : M datetime :=
  fun w => (Ok (clock w (nows w)),
            {| http := http w; clock := clock w; gets := gets w;
               nows := S (nows w); trace := trace w |}).

(** [async with session.get(url, timeout=timeout) as response: ...] *)
Definition session_get (url : string) (timeout : Z) : M http_outcome :=
  fun w => (Ok (http w (gets w) url),
            {| http := http w; clock := clock w; gets := S (gets w);
               nows := nows w; trace := (trace w ++ [Get url timeout])%list |}).

(** [await asyncio.sleep(seconds)] *)
Definition asyncio_sleep (seconds : float) : M unit :=
  fun w => (Ok tt,
            {| http := http w; clock := clock w; gets := gets w;
               nows := nows w; trace := (trace w ++ [Sleep seconds])%list |}).

(** ** [datetime.isocalendar], after CPython's [datetime] module *)

Module PyDatetime.

Local Open Scope Z_scope.

Definition _is_leap (y : Z) : bool :=
  (y mod 4 =? 0) && (negb (y mod 100 =? 0) || (y mod 400 =? 0)).

Definition _days_before_year (y : Z) : Z :=
  let y1 := y - 1 in y1 * 365 + y1 / 4 - y1 / 100 + y1 / 400.

Definition _DAYS_BEFORE_MONTH : list Z :=
  [-1; 0; 31; 59; 90; 120; 151; 181; 212; 243; 273; 304; 334].

Definition _days_before_month (y m : Z) : Z :=
  nth (Z.to_nat m) _DAYS_BEFORE_MONTH 0
  + (if (2 <? m) && _is_leap y then 1 else 0).

Definition _ymd2ord (y m d : Z) : Z :=
  _days_before_year y + _days_before_month y m + d.

Definition _isoweek1monday (y : Z) : Z :=
  let firstday := _ymd2ord y 1 1 in
  let firstweekday := (firstday + 6) mod 7 in
  let week1monday := firstday - firstweekday in
  if 3 <? firstweekday then week1monday + 7 else week1monday.

(** [(iso_year, iso_week, iso_weekday)] *)
Definition isocalendar (dt : datetime) : Z * Z * Z :=
  let y := year dt in
  let week1monday := _isoweek1monday y in
  let today := _ymd2ord (year dt) (month dt) (day dt) in
  let week := (today - week1monday) / 7 in
  let wday := (today - week1monday) mod 7 in
  if week <? 0 then
    let y' := y - 1 in
    let week1monday' := _isoweek1monday y' in
    (y', (today - week1monday') / 7 + 1, (today - week1monday') mod 7 + 1)
  else if (52 <=? week) && (_isoweek1monday (y + 1) <=? today) then
    (y + 1, 1, wday + 1)
  else (y, week + 1, wday + 1).

End PyDatetime.

(** ** api.py *)

Module Api.

Record EnergyChartsApiClient : Type := {
  _country : string;
  _base_url : string
}.

(** [EnergyChartsApiClient(session, country)] *)
Definition new_client {R : Runtime} (country : string) : EnergyChartsApiClient :=
  {| _country := str_lower country; _base_url := Const.API_BASE_URL |}.

(** How the [try] block of one attempt ends. *)
Inductive attempt_end : Type :=
| Returns (data : list json)
| Propagates (e : exn)
| Records (last_exception : exn).

(** The body of the [try] and its [except] clauses, in their order. *)
Definition classify (o : http_outcome) : attempt_end :=
  match o with
  | Responds status body =>
      if (status =? 404)%Z then Propagates EnergyChartsNotFoundError
      else if (400 <=? status)%Z then Records EnergyChartsConnectionError
      else match body with
           | JList data => Returns data
           | _ => Records EnergyChartsDataError
           end
  | RaisesTimeout => Records EnergyChartsTimeoutError
  | RaisesClientError => Records EnergyChartsConnectionError
  | RaisesOther => Records EnergyChartsDataError
  end.

(** [backoff_factor * (2**attempt)] *)
Definition wait_time (backoff_factor : float) (attempt : Z) : result float :=
  (let? p := of_option OverflowError (PyFloat.float_of_int (2 ^ attempt)) in
   Ok (PrimFloat.mul backoff_factor p))%result.

(** The [for attempt in range(retries)] loop with [remaining] rounds to go,
    and what follows it. *)
Fixpoint attempts (url : string) (retries : Z) (backoff_factor : float)
  (remaining : nat) (attempt : Z) (last_exception : option exn) : M (list json) :=
  match remaining with
  | O =>
      match last_exception with
      | Some e => raise e
      | None => raise EnergyChartsConnectionError
      end
  | S remaining' =>
      (o <- session_get url (Const.API_TIMEOUT * (attempt + 1)) ;;
       match classify o with
       | Returns data => ret data
       | Propagates e => raise e
       | Records e =>
           (if (attempt <? retries - 1)%Z
            then (t <- lift (wait_time backoff_factor attempt) ;; asyncio_sleep t)
            else ret tt) ;;
           attempts url retries backoff_factor remaining' (attempt + 1) (Some e)
       end)%io
  end.

Definition _make_request (self : EnergyChartsApiClient) (endpoint : string)
  (retries : Z) (backoff_factor : float) : M (list json) :=
  let url := _base_url self ++ "/" ++ _country self ++ "/" ++ endpoint in
  attempts url retries backoff_factor (Z.to_nat retries) 0 None.

Definition default_retries : Z := 3.
Definition default_backoff_factor : float := 1%float.

Section Client.
Context {V : Validator}.

Definition get_current_day (self : EnergyChartsApiClient) : M Models.EnergyChartsResponse :=
  (now <- datetime_now ;;
   let '(year, week, _) := PyDatetime.isocalendar now in
   data <- _make_request self
             ("week_" ++ PyStr.str_of_int year ++ "_" ++ PyStr.format_02d week ++ ".json")
             default_retries default_backoff_factor ;;
   lift (Models.from_api_response data))%io.

Definition get_current_week (self : EnergyChartsApiClient) : M Models.EnergyChartsResponse :=
  (now <- datetime_now ;;
   let '(year, week, _) := PyDatetime.isocalendar now in
   data <- _make_request self
             ("week_" ++ PyStr.str_of_int year ++ "_" ++ PyStr.format_02d week ++ ".json")
             default_retries default_backoff_factor ;;
   lift (Models.from_api_response data))%io.

Definition get_current_month (self : EnergyChartsApiClient) : M Models.EnergyChartsResponse :=
  (now <- datetime_now ;;
   let year := year now in
   let month := month now in
   data <- _make_request self
             ("month_" ++ PyStr.str_of_int year ++ "_" ++ PyStr.format_02d month ++ ".json")
             default_retries default_backoff_factor ;;
   lift (Models.from_api_response data))%io.

Definition get_specific_week (self : EnergyChartsApiClient) (year week : Z)
  : M Models.EnergyChartsResponse :=
  (data <- _make_request self
             ("week_" ++ PyStr.str_of_int year ++ "_" ++ PyStr.format_02d week ++ ".json")
             default_retries default_backoff_factor ;;
   lift (Models.from_api_response data))%io.

Definition get_specific_month (self : EnergyChartsApiClient) (year month : Z)
  : M Models.EnergyChartsResponse :=
  (data <- _make_request self
             ("month_" ++ PyStr.str_of_int year ++ "_" ++ PyStr.format_02d month ++ ".json")
             default_retries default_backoff_factor ;;
   lift (Models.from_api_response data))%io.

Definition test_connection (self : EnergyChartsApiClient) : M bool :=
  try_except (_ <- get_current_day self ;; ret true)%io (fun _ => ret false).

End Client.

End Api.

(** ** coordinator.py *)

(** The per-source dictionary built by [_process_response]. *)
Module SourceData.

Record t : Type := {
  value : option float;
  unit_ : string;
  timestamp : option instant;
  name_en : string;
  name_de : string;
  color : string;
  category : string;
  key : string
}.

End SourceData.

Module Coordinator.

Import Const.

Definition history_t : Type := dict (list (instant * float)).

(** The structured data dictionary a refresh returns. *)
Record structured_data : Type := {
  timestamp : datetime;
  raw_response : Models.EnergyChartsResponse;
  sources : dict SourceData.t;
  aggregated : dict float;
  categories : dict float;
  history : history_t;
  forecasts : history_t
}.

Definition set_history (d : structured_data) (h : history_t) : structured_data :=
  {| timestamp := timestamp d; raw_response := raw_response d; sources := sources d;
     aggregated := aggregated d; categories := categories d;
     history := h; forecasts := forecasts d |}.

Record EnergyChartsDataUpdateCoordinator : Type := {
  api_client : Api.EnergyChartsApiClient;
  entry_data : dict string
}.

(** The running totals of the loop of [_calculate_aggregated]. *)
Record totals : Type := {
  total_production : float;
  total_renewable : float;
  total_fossil : float;
  total_nuclear : float
}.

Definition totals_zero : totals :=
  {| total_production := 0; total_renewable := 0; total_fossil := 0; total_nuclear := 0 |}.

(** One round of the loop over [sources.items()]. *)
Definition accumulate (acc : totals) (item : string * SourceData.t) : totals :=
  match SourceData.value (snd item) with
  | None => acc
  | Some value =>
      let production :=
        if PyFloat.gt0 value then PrimFloat.add (total_production acc) value
        else total_production acc in
      let category := SourceData.category (snd item) in
      if String.eqb category CATEGORY_RENEWABLE then
        {| total_production := production;
           total_renewable := PrimFloat.add (total_renewable acc) value;
           total_fossil := total_fossil acc;
           total_nuclear := total_nuclear acc |}
      else if String.eqb category CATEGORY_FOSSIL then
        {| total_production := production;
           total_renewable := total_renewable acc;
           total_fossil := PrimFloat.add (total_fossil acc) value;
           total_nuclear := total_nuclear acc |}
      else if String.eqb category CATEGORY_NUCLEAR then
        {| total_production := production;
           total_renewable := total_renewable acc;
           total_fossil := total_fossil acc;
           total_nuclear := PrimFloat.add (total_nuclear acc) value |}
      else
        {| total_production := production;
           total_renewable := total_renewable acc;
           total_fossil := total_fossil acc;
           total_nuclear := total_nuclear acc |}
  end.

Definition accumulate_all (sources_ : dict SourceData.t) : totals :=
  fold_left accumulate sources_ totals_zero.

Definition _calculate_aggregated (sources_ : dict SourceData.t) : dict float :=
  let acc := accumulate_all sources_ in
  let aggregated_ : dict float := [] in
  let aggregated_ := set aggregated_ SENSOR_TOTAL_PRODUCTION (PyFloat.round2 (total_production acc)) in
  let aggregated_ := set aggregated_ SENSOR_TOTAL_RENEWABLE (PyFloat.round2 (total_renewable acc)) in
  let aggregated_ := set aggregated_ SENSOR_TOTAL_FOSSIL (PyFloat.round2 (total_fossil acc)) in
  let aggregated_ := set aggregated_ SENSOR_TOTAL_NUCLEAR (PyFloat.round2 (total_nuclear acc)) in
  if PyFloat.gt0 (total_production acc) then
    let renewable_share :=
      PrimFloat.mul (PrimFloat.div (total_renewable acc) (total_production acc)) 100 in
    set aggregated_ SENSOR_RENEWABLE_SHARE (PyFloat.round2 renewable_share)
  else
    set aggregated_ SENSOR_RENEWABLE_SHARE 0%float.

(** One round of [for key in [...]: if key in sources and
    sources[key].get("value"): total += sources[key]["value"]]. *)
Definition add_member (sources_ : dict SourceData.t) (total : float) (k : string) : float :=
  match get sources_ k with
  | Some source =>
      match SourceData.value source with
      | Some v => if PyFloat.truthy v then PrimFloat.add total v else total
      | None => total
      end
  | None => total
  end.

Definition sum_members (sources_ : dict SourceData.t) (members : list string) : float :=
  fold_left (add_member sources_) members 0%float.

Definition _calculate_categories (sources_ : dict SourceData.t) : dict float :=
  let categories_ : dict float := [] in
  let solar_total := sum_members sources_ ["photovoltaic"; "solar"] in
  let categories_ := set categories_ SENSOR_SOLAR_TOTAL (PyFloat.round2 solar_total) in
  let wind_total := sum_members sources_ ["wind_onshore"; "wind_offshore"] in
  let categories_ := set categories_ SENSOR_WIND_TOTAL (PyFloat.round2 wind_total) in
  let hydro_total :=
    sum_members sources_
      ["hydro_run-of-river"; "hydro_water_reservoir"; "hydro_pumped_storage"] in
  let categories_ := set categories_ SENSOR_HYDRO_TOTAL (PyFloat.round2 hydro_total) in
  let fossil_total := sum_members sources_ FOSSIL_SOURCES in
  set categories_ SENSOR_FOSSIL_TOTAL (PyFloat.round2 fossil_total).

Section Process.
Context {R : Runtime}.

(** One round of the loop of [_process_response] over
    [response.data_series]: the entry is built, [latest_timestamp] raising
    or not, before anything is stored. *)
Definition add_source (sources_ : dict SourceData.t) (series : Models.EnergyDataSeries)
  : result (dict SourceData.t) :=
  let source_key := str_lower (Models.key series) in
  if PyStr.contains "_planned" source_key || PyStr.contains "forecast" source_key
  then Ok sources_
  else
    (let? latest_timestamp := Models.latest_timestamp series in
     Ok (set sources_ source_key
           {| SourceData.value := Models.latest_value series;
              SourceData.unit_ := "MW";
              SourceData.timestamp := latest_timestamp;
              SourceData.name_en := Models.name_en series;
              SourceData.name_de := Models.name_de series;
              SourceData.color := Models.color series;
              SourceData.category := get_default SOURCE_CATEGORIES source_key "other";
              SourceData.key := source_key |}))%result.

(** The loop over [response.data_series]; the first exception ends it. *)
Fixpoint add_sources (sources_ : dict SourceData.t) (l : list Models.EnergyDataSeries)
  : result (dict SourceData.t) :=
  match l with
  | [] => Ok sources_
  | series :: rest =>
      (let? sources_ := add_source sources_ series in add_sources sources_ rest)%result
  end.

Definition _process_response (response : Models.EnergyChartsResponse) : M structured_data :=
  (now <- datetime_now ;;
   sources_ <- lift (add_sources [] (Models.data_series response)) ;;
   ret {| timestamp := now;
          raw_response := response;
          sources := sources_;
          aggregated := _calculate_aggregated sources_;
          categories := _calculate_categories sources_;
          history := [];
          forecasts := [] |})%io.

(** The target list [ts, val] of the comprehension in
    [_fetch_historical_data]: it unpacks one element of [series.data], and a
    float or [None] cannot be unpacked. *)
Definition unpack_pair (x : option float) : result (Z * option float) :=
  Raise TypeError.

(** [[(datetime.fromtimestamp(ts / 1000), float(val)) for ts, val in
    series.data if val is not None]] *)
Fixpoint history_points (d : list (option float)) : result (list (instant * float)) :=
  match d with
  | [] => Ok []
  | x :: r =>
      (let? (ts, val) := unpack_pair x in
       match val with
       | Some v =>
           let? timestamp := fromtimestamp_ms ts in
           let? points := history_points r in
           Ok ((timestamp, v) :: points)
       | None => history_points r
       end)%result
  end.

(** The loop that fills [history] in place: the dict as it stands when the
    loop ends, and the exception that ended it, if any. *)
Fixpoint convert_series (history_ : history_t) (l : list Models.EnergyDataSeries)
  : history_t * option exn :=
  match l with
  | [] => (history_, None)
  | series :: rest =>
      let source_key := str_lower (Models.key series) in
      match history_points (Models.data series) with
      | Ok points => convert_series (set history_ source_key points) rest
      | Raise e => (history_, Some e)
      end
  end.

End Process.

Section Refresh.
Context {V : Validator} {R : Runtime}.

Definition _fetch_historical_data (self : EnergyChartsDataUpdateCoordinator)
  (historical_range : string) : M history_t :=
  let history_ : history_t := [] in
  let fetch :=
    if String.eqb historical_range "day" then Some (Api.get_current_day (api_client self))
    else if String.eqb historical_range "week" then Some (Api.get_current_week (api_client self))
    else if String.eqb historical_range "month" then Some (Api.get_current_month (api_client self))
    else None in
  match fetch with
  | None => ret history_
  | Some get_response =>
      try_except
        (response <- get_response ;;
         match convert_series history_ (Models.data_series response) with
         | (h, None) => ret h
         | (h, Some e) =>
             (* raised inside the [try]: the clause logs it, and the dict
                filled so far is what [return history] returns *)
             try_except (raise e) (fun _ => ret h)
         end)%io
        (fun _ =>
           (* the fetch raised: nothing was stored yet *)
           ret history_)
  end.

(** The [except] clauses of [_async_update_data], in their order. *)
Definition to_update_failed (e : exn) : exn :=
  match e with
  | EnergyChartsConnectionError => UpdateFailed "Connection error"
  | EnergyChartsTimeoutError => UpdateFailed "Timeout error"
  | EnergyChartsDataError => UpdateFailed "Data error"
  | _ => UpdateFailed "Unexpected error"
  end.

Definition _async_update_data (self : EnergyChartsDataUpdateCoordinator) : M structured_data :=
  try_except
    (response <- Api.get_current_day (api_client self) ;;
     structured <- _process_response response ;;
     let historical_range :=
       get_default (entry_data self) CONF_HISTORICAL_RANGE HISTORICAL_RANGE_NONE in
     if negb (String.eqb historical_range HISTORICAL_RANGE_NONE) then
       (h <- _fetch_historical_data self historical_range ;;
        ret (set_history structured h))
     else ret structured)%io
    (fun e => raise (to_update_failed e)).

End Refresh.

End Coordinator.

(** ** sensor.py: what the entities read from the snapshot *)

Module Sensor.

(** [EnergyChartsSourceSensor.native_value] *)
Definition native_value (data_ : Coordinator.structured_data) (source_key : string)
  : option float :=
  match get (Coordinator.sources data_) source_key with
  | Some source_data => option_map PyFloat.round2 (SourceData.value source_data)
  | None => None
  end.

(** [s.get("value", 0) > 0] on a source dictionary: the key is present in
    every dictionary the coordinator builds, so the default is not used, and
    comparing [None] with a number raises. *)
Definition value_positive (source_data : SourceData.t) : result bool :=
  match SourceData.value source_data with
  | Some v => Ok (PyFloat.gt0 v)
  | None => Raise TypeError
  end.

(** [len([s for s in sources.values() if s.get("value", 0) > 0])], the
    [source_count] attribute of the total production sensor. *)
Definition source_count (sources_ : dict SourceData.t) : result nat :=
  (let? flags := traverse (fun item => value_positive (snd item)) sources_ in
   Ok (length (filter (fun b : bool => b) flags)))%result.

(** The icon chosen in [EnergyChartsSourceSensor.__init__]: that of the first
    key of the table, in its order, that occurs in the source key. *)
Definition icon (source_key : string) : string :=
  let icon_key :=
    match find (fun k => PyStr.contains k source_key) (keys Const.SOURCE_ICONS) with
    | Some k => k
    | None => source_key
    end in
  get_default Const.SOURCE_ICONS icon_key "mdi:flash".

End Sensor.

(** ** Reference definitions, written after the specification's words *)

Module Reference.

(** Every run of underscores becomes a single one, in one pass. *)
Fixpoint squeeze_us (s : string) : string :=
  match s with
  | EmptyString => EmptyString
  | String c r =>
      if Ascii.eqb c "_" && PyStr.startswith "_" r then squeeze_us r
      else String c (squeeze_us r)
  end.

Fixpoint map_chars (f : ascii -> ascii) (s : string) : string :=
  match s with
  | EmptyString => EmptyString
  | String c r => String (f c) (map_chars f r)
  end.

(** The key as the claim words it: the lowercased name with every run of
    non-alphanumeric characters collapsed to a single underscore, and the
    underscores at both ends trimmed. *)
Definition key_as_claimed {R : Runtime} (s : Models.EnergyDataSeries) : string :=
  PyStr.strip_us
    (squeeze_us
       (map_chars (fun c => if PyStr.isalnum c then c else "_"%char)
          (str_lower (Models.name_en s)))).

Fixpoint all_chars (p : ascii -> bool) (s : string) : bool :=
  match s with
  | EmptyString => true
  | String c r => p c && all_chars p r
  end.

Fixpoint ends_with_us (s : string) : bool :=
  match s with
  | EmptyString => false
  | String c EmptyString => Ascii.eqb c "_"
  | String _ r => ends_with_us r
  end.

(** The characters [key] replaces or deletes. *)
Definition is_separator (c : ascii) : bool :=
  Ascii.eqb c " " || Ascii.eqb c "/" || Ascii.eqb c "-"
  || Ascii.eqb c "(" || Ascii.eqb c ")" || Ascii.eqb c ",".

(** What becomes of one character of the lowercased name: a space, a slash
    and a hyphen become an underscore, a parenthesis and a comma disappear,
    and any other character stays. *)
Definition rewritten (c : ascii) : string :=
  if Ascii.eqb c " " || Ascii.eqb c "/" || Ascii.eqb c "-" then "_"
  else if Ascii.eqb c "(" || Ascii.eqb c ")" || Ascii.eqb c "," then ""
  else String c "".

(** The name rewritten character by character. *)
Fixpoint rewrite_chars (s : string) : string :=
  match s with
  | EmptyString => EmptyString
  | String c r => rewritten c ++ rewrite_chars r
  end.

(** The normalization of a raw [name] as the claim words it. *)
Definition normalize_name_as_claimed (v : json) : json :=
  match v with
  | JList [JDict d] => JDict d
  | JDict d => JDict d
  | _ => JDict []
  end.

(** The pairs of [zip(timestamps, data)] whose value is present. *)
Definition pairs (ts : list Z) (d : list (option float)) : list (instant * float) :=
  flat_map (fun p : Z * option float =>
              match snd p with
              | Some v => [(fst p, v)]
              | None => []
              end) (combine ts d).

(** The (timestamp, value) pairs of a series, in order, absent values
    dropped. *)
Definition points (series : Models.EnergyDataSeries) : list (instant * float) :=
  pairs (Models.timestamps series) (Models.data series).

(** The history as the claim words it: each series' source key mapped to
    its (timestamp, value) pairs in order, absent values dropped. *)
Definition history_as_claimed {R : Runtime} (response : Models.EnergyChartsResponse)
  : Coordinator.history_t :=
  fold_left (fun h series => set h (str_lower (Models.key series)) (points series))
    (Models.data_series response) [].

End Reference.

(** ** Auxiliary definitions and example inputs *)

(** The value of a computation of the examples that returns. *)
Definition returned {A : Type} (default : A) (r : result A) : A :=
  match r with
  | Ok a => a
  | Raise _ => default
  end.

(** A series whose English name holds a full stop. *)
Definition load_series : Models.EnergyDataSeries :=
  {| Models.name := [("en", "Load (incl. self-consumption)")];
     Models.color := "#000000";
     Models.data := [];
     Models.timestamps := [];
     Models.visible := true |}.

(** A raw [name] that is a sequence of two mappings. *)
Definition two_names : json :=
  JList [JDict [("en", JStr "Solar")]; JDict [("en", JStr "Wind onshore")]].

(** A response whose only object has two values and a one-entry time axis,
    and the series it is parsed into. *)
Definition short_axis_response : list json :=
  [JDict [("name", JDict [("en", JStr "Solar")]);
          ("color", JStr "#ffd700");
          ("data", JList [JFloat 1; JFloat 2]);
          ("xAxisValues", JList [JInt 1700000000000])]].

Definition short_axis_series : Models.EnergyDataSeries :=
  {| Models.name := [("en", "Solar")];
     Models.color := "#ffd700";
     Models.data := [Some 1%float; Some 2%float];
     Models.timestamps := [1700000000000%Z];
     Models.visible := true |}.

Module Sums.

(** The values of the sources that have one and pass the test [p], in the
    order of the mapping. *)
Definition values_where (p : SourceData.t -> float -> bool) (sources_ : dict SourceData.t)
  : list float :=
  flat_map (fun item : string * SourceData.t =>
              match SourceData.value (snd item) with
              | Some v => if p (snd item) v then [v] else []
              | None => []
              end) sources_.

(** The floating-point sum of a list, added left to right from [0.0]. *)
Definition fsum (l : list float) : float := fold_left PrimFloat.add l 0%float.

Definition in_category (c : string) (d : SourceData.t) (_ : float) : bool :=
  String.eqb (SourceData.category d) c.

Definition is_positive (_ : SourceData.t) (v : float) : bool := PyFloat.gt0 v.


Definition source (v : option float) (category_ : string) (k : string) : string * SourceData.t :=
  (k, {| SourceData.value := v;
         SourceData.unit_ := "MW";
         SourceData.timestamp := None;
         SourceData.name_en := k;
         SourceData.name_de := k;
         SourceData.color := "#000000";
         SourceData.category := category_;
         SourceData.key := k |}).

End Sums.

Module Example3.

Definition series (n : string) (values : list (option float)) : Models.EnergyDataSeries :=
  {| Models.name := [("en", n)];
     Models.color := "#000000";
     Models.data := values;
     Models.timestamps := [];
     Models.visible := true |}.

(** Three series whose latest values are 10, 5 and 20. *)
Definition response : Models.EnergyChartsResponse :=
  {| Models.data_series :=
       [ series "Solar" [Some 9%float; Some 10%float];
         series "Wind onshore" [Some 5%float; None];
         series "Fossil gas" [Some 20%float] ] |}.

Definition sources : dict SourceData.t :=
  returned [] (@Coordinator.add_sources ascii_utc [] (Models.data_series response)).

(** A source mapping without any positive value. *)
Definition idle : dict SourceData.t :=
  [ Sums.source (Some (-3)%float) Const.CATEGORY_RENEWABLE "biomass";
    Sums.source None Const.CATEGORY_FOSSIL "fossil_gas" ].

(** A renewable source with a negative value next to a fossil one. *)
Definition negative_renewable : dict SourceData.t :=
  [ Sums.source (Some (-5)%float) Const.CATEGORY_RENEWABLE "solar";
    Sums.source (Some 10%float) Const.CATEGORY_FOSSIL "fossil_gas" ].

End Example3.

(** The member keys of the four category groups. *)
Definition category_members : list string :=
  ["photovoltaic"; "solar"; "wind_onshore"; "wind_offshore";
   "hydro_run-of-river"; "hydro_water_reservoir"; "hydro_pumped_storage"]
  ++ Const.FOSSIL_SOURCES.

(** The world [w] after [n] more requests and the events [evs]. *)
Definition after (w : world) (n : nat) (evs : list event) : world :=
  {| http := http w; clock := clock w; gets := n + gets w; nows := nows w;
     trace := trace w ++ evs |}.

(** The world after one reading of the clock. *)
Definition after_now (w : world) : world :=
  {| http := http w; clock := clock w; gets := gets w;
     nows := S (nows w); trace := trace w |}.

(** The event is a backoff sleep. *)
Definition is_sleep (e : event) : bool :=
  match e with
  | Sleep _ => true
  | Get _ _ => false
  end.

(** The URL [_make_request] builds for an endpoint. *)
Definition url_of (self : Api.EnergyChartsApiClient) (endpoint : string) : string :=
  Api._base_url self ++ "/" ++ Api._country self ++ "/" ++ endpoint.

Module Example2.

(** The endpoint answers 404. *)
Definition missing : world :=
  {| http := fun _ _ => Responds 404 (JStr "not found");
     clock := fun _ => {| year := 2026; month := 11; day := 3 |};
     gets := 0; nows := 0; trace := [] |}.

(** The first two requests time out and the third is answered with an empty
    list. *)
Definition flaky : world :=
  {| http := fun n _ => if (n <? 2)%nat then RaisesTimeout else Responds 200 (JList []);
     clock := fun _ => {| year := 2026; month := 11; day := 3 |};
     gets := 0; nows := 0; trace := [] |}.

Definition client : Api.EnergyChartsApiClient := @Api.new_client ascii_utc "DE".

End Example2.

(** The endpoint of the ISO week of a date. *)
Definition week_endpoint (now : datetime) : string :=
  let '(iso_year, iso_week, _) := PyDatetime.isocalendar now in
  "week_" ++ PyStr.str_of_int iso_year ++ "_" ++ PyStr.format_02d iso_week ++ ".json".

(** Every list of the history is empty. *)
Definition no_points (h : Coordinator.history_t) : Prop :=
  forall k pts, In (k, pts) h -> pts = [].

Module Example1.

Definition solar_body : json :=
  JList [JDict [("name", JList [JDict [("en", JStr "Solar"); ("de", JStr "Solar")]]);
                ("color", JStr "#ffd700");
                ("data", JList [JFloat 1; JNull; JFloat 2]);
                ("xAxisValues",
                  JList [JInt 1700000000000; JInt 1700000900000; JInt 1700001800000])]].

Definition solar_series : Models.EnergyDataSeries :=
  {| Models.name := [("en", "Solar"); ("de", "Solar")];
     Models.color := "#ffd700";
     Models.data := [Some 1%float; None; Some 2%float];
     Models.timestamps := [1700000000000; 1700000900000; 1700001800000]%Z;
     Models.visible := true |}.

Definition solar_response : Models.EnergyChartsResponse :=
  {| Models.data_series := [solar_series] |}.

Definition today : datetime := {| year := 2026; month := 11; day := 3 |}.

(** Every request is answered with the one-series body. *)
Definition serving : world :=
  {| http := fun _ _ => Responds 200 solar_body;
     clock := fun _ => today;
     gets := 0; nows := 0; trace := [] |}.

(** Every request is answered with one series whose only timestamp lies in
    the year 31690708. *)
Definition far_body : json :=
  JList [JDict [("name", JDict [("en", JStr "Solar")]);
                ("color", JStr "#ffd700");
                ("data", JList [JFloat 1]);
                ("xAxisValues", JList [JInt 1000000000000000000])]].

Definition serving_far : world :=
  {| http := fun _ _ => Responds 200 far_body;
     clock := fun _ => today;
     gets := 0; nows := 0; trace := [] |}.

(** The first request is answered, every later one meets a 404. *)
Definition serving_once : world :=
  {| http := fun n _ => match n with
                        | O => Responds 200 solar_body
                        | S _ => Responds 404 JNull
                        end;
     clock := fun _ => today;
     gets := 0; nows := 0; trace := [] |}.

Definition coordinator (range : string) : Coordinator.EnergyChartsDataUpdateCoordinator :=
  {| Coordinator.api_client := @Api.new_client ascii_utc "de";
     Coordinator.entry_data := [("country", "de"); (Const.CONF_HISTORICAL_RANGE, range)] |}.

Definition week_url : string :=
  "https://www.energy-charts.info/charts/power/data/de/week_2026_45.json".

Definition after_day (w : world) : world :=
  {| http := http w; clock := clock w; gets := 1; nows := 1;
     trace := [Get week_url 30] |}.

Definition base : Coordinator.structured_data :=
  let sources_ := returned [] (@Coordinator.add_sources ascii_utc [] [solar_series]) in
  {| Coordinator.timestamp := today;
     Coordinator.raw_response := solar_response;
     Coordinator.sources := sources_;
     Coordinator.aggregated := Coordinator._calculate_aggregated sources_;
     Coordinator.categories := Coordinator._calculate_categories sources_;
     Coordinator.history := [];
     Coordinator.forecasts := [] |}.

Definition after_process (w : world) : world :=
  {| http := http w; clock := clock w; gets := 1; nows := 2;
     trace := [Get week_url 30] |}.

End Example1.

(** The conversion [get_data_points] applies to one pair. *)
Definition convert_pair {R : Runtime} (p : Z * float) : result (instant * float) :=
  (let? timestamp := fromtimestamp_ms (fst p) in Ok (timestamp, snd p))%result.

(** A series whose only timestamp lies in the year 31690708, and a response
    that holds it. *)
Definition far_series : Models.EnergyDataSeries :=
  {| Models.name := [("en", "Solar")];
     Models.color := "#ffd700";
     Models.data := [Some 1%float];
     Models.timestamps := [1000000000000000000%Z];
     Models.visible := true |}.

Definition far_response : Models.EnergyChartsResponse :=
  {| Models.data_series := [far_series] |}.

(** The raw object carries a series: it has a ["name"] and a ["data"]
    member. *)
Definition carries_series (item : json) : bool :=
  match PyObj.contains "name" item, PyObj.contains "data" item with
  | Ok true, Ok true => true
  | _, _ => false
  end.

(** A response of two objects with three and two values over a time axis of
    two entries. *)
Definition uneven_response : list json :=
  [JDict [("name", JDict [("en", JStr "Solar")]);
          ("color", JStr "#ffd700");
          ("data", JList [JFloat 1; JFloat 2; JFloat 3]);
          ("xAxisValues", JList [JInt 1700000000000; JInt 1700000900000])];
   JDict [("unit", JStr "MW")];
   JDict [("name", JDict [("en", JStr "Wind onshore")]);
          ("color", JStr "#0000ff");
          ("data", JList [JFloat 4; JNull])]].

(** The two series it is parsed into: both with the two timestamps of the
    first object, the first with three values and the second with two. *)
Definition uneven_parsed : Models.EnergyChartsResponse :=
  {| Models.data_series :=
       [ {| Models.name := [("en", "Solar")];
            Models.color := "#ffd700";
            Models.data := [Some 1%float; Some 2%float; Some 3%float];
            Models.timestamps := [1700000000000; 1700000900000]%Z;
            Models.visible := true |};
         {| Models.name := [("en", "Wind onshore")];
            Models.color := "#0000ff";
            Models.data := [Some 4%float; None];
            Models.timestamps := [1700000000000; 1700000900000]%Z;
            Models.visible := true |} ] |}.

(** A raw object without a ["name"] or without a ["data"] field. *)
Definition is_metadata (fields : list (string * json)) : bool :=
  negb (has_key fields "name" && has_key fields "data").

(** The series is skipped by [_process_response] as a forecast. *)
Definition is_forecast {R : Runtime} (series : Models.EnergyDataSeries) : bool :=
  let source_key := str_lower (Models.key series) in
  PyStr.contains "_planned" source_key || PyStr.contains "forecast" source_key.

(** The series whose values a source key shows: the last one of the
    response, forecasts apart, whose key is the source key. *)
Definition shown_series {R : Runtime} (response : Models.EnergyChartsResponse) (k : string)
  : option Models.EnergyDataSeries :=
  find (fun series =>
          String.eqb (str_lower (Models.key series)) k && negb (is_forecast series))
       (rev (Models.data_series response)).

(** The entry [_process_response] stores for a series whose latest timestamp
    is [latest_timestamp]. *)
Definition source_of {R : Runtime} (series : Models.EnergyDataSeries)
  (latest_timestamp : option instant) : SourceData.t :=
  let source_key := str_lower (Models.key series) in
  {| SourceData.value := Models.latest_value series;
     SourceData.unit_ := "MW";
     SourceData.timestamp := latest_timestamp;
     SourceData.name_en := Models.name_en series;
     SourceData.name_de := Models.name_de series;
     SourceData.color := Models.color series;
     SourceData.category := get_default Const.SOURCE_CATEGORIES source_key "other";
     SourceData.key := source_key |}.

(** A response with one series, named as the API names run-of-river hydro. *)
Definition run_of_river_response : Models.EnergyChartsResponse :=
  {| Models.data_series := [Example3.series "Hydro Run-of-River" [Some 7%float]] |}.

(** The failures an attempt records for a later retry. *)
Definition recordable (e : exn) : Prop :=
  e = EnergyChartsConnectionError \/ e = EnergyChartsTimeoutError
  \/ e = EnergyChartsDataError.

(** From [w] to [w']: the same network and clock, at most [g] more requests
    and at most [s] sleeps added to the trace. *)
Definition within (g s : nat) (w w' : world) : Prop :=
  http w' = http w /\ clock w' = clock w
  /\ (gets w <= gets w' <= g + gets w)%nat
  /\ exists evs, trace w' = (trace w ++ evs)%list
                 /\ (length (filter is_sleep evs) <= s)%nat.

(** The endpoint of a month. *)
Definition month_endpoint (y m : Z) : string :=
  "month_" ++ PyStr.str_of_int y ++ "_" ++ PyStr.format_02d m ++ ".json".

(** A response in which one series has no measurement at all. *)
Definition silent_response : Models.EnergyChartsResponse :=
  {| Models.data_series :=
       [Example3.series "Solar" [Some 4%float]; Example3.series "Biomass" [None; None]] |}.

(** A response whose second object has a name sequence holding a number. *)
Definition numbered_name_response : list json :=
  short_axis_response
  ++ [JDict [("name", JList [JInt 5]); ("data", JList [JFloat 3])]].

(** * Properties *)

(** ** Strings *)

Lemma startswith_us_replace_uu (s : string) :
  PyStr.startswith "_" (PyStr.replace_uu s) = PyStr.startswith "_" s.
Proof.
  destruct s as [|c [|d r]]; try reflexivity.
  rewrite PyStr.replace_uu_cons2.
  destruct (Ascii.eqb c "_") eqn:Ec; destruct (Ascii.eqb d "_"); cbn; rewrite ?Ec; reflexivity.
Qed.

Lemma squeeze_us_cons (c : ascii) (r : string) :
  Reference.squeeze_us (String c r) =
  if Ascii.eqb c "_" && PyStr.startswith "_" r then Reference.squeeze_us r
  else String c (Reference.squeeze_us r).
Proof. reflexivity. Qed.

Lemma squeeze_us_replace_uu_bounded (n : nat) :
  forall s, (String.length s <= n)%nat ->
    Reference.squeeze_us (PyStr.replace_uu s) = Reference.squeeze_us s.
Proof.
  induction n as [|n IH]; intros s Hn.
  - destruct s; [reflexivity | simpl in Hn; lia].
  - destruct s as [|c [|d r]]; try reflexivity.
    cbn [String.length] in Hn.
    rewrite PyStr.replace_uu_cons2.
    destruct (Ascii.eqb c "_" && Ascii.eqb d "_") eqn:E.
    + apply andb_prop in E as [Ec Ed].
      apply Ascii.eqb_eq in Ec, Ed. subst c d.
      rewrite squeeze_us_cons, startswith_us_replace_uu, (IH r) by lia.
      reflexivity.
    + rewrite squeeze_us_cons, startswith_us_replace_uu.
      rewrite (IH (String d r)) by (cbn [String.length]; lia).
      rewrite (squeeze_us_cons c). reflexivity.
Qed.

Lemma squeeze_us_replace_uu (s : string) :
  Reference.squeeze_us (PyStr.replace_uu s) = Reference.squeeze_us s.
Proof. exact (squeeze_us_replace_uu_bounded (String.length s) s (le_n _)). Qed.

Lemma contains_uu_cons (c : ascii) (r : string) :
  PyStr.contains "__" (String c r) =
  (Ascii.eqb c "_" && PyStr.startswith "_" r) || PyStr.contains "__" r.
Proof.
  cbn [PyStr.contains PyStr.startswith].
  destruct (Ascii.eqb c "_" && PyStr.startswith "_" r); reflexivity.
Qed.

Lemma squeeze_us_fixed (s : string) :
  PyStr.contains "__" s = false -> Reference.squeeze_us s = s.
Proof.
  induction s as [|c r IH]; [reflexivity|].
  rewrite contains_uu_cons, squeeze_us_cons. intros H.
  apply orb_false_elim in H as [H1 H2]. rewrite H1, IH by assumption. reflexivity.
Qed.

(** The [while] loop computes the one-pass squeeze. *)
Lemma collapse_underscores_squeeze (k : string) :
  PyStr.collapse_underscores k = Reference.squeeze_us k.
Proof.
  funelim (PyStr.collapse_underscores k).
  - match goal with IH : PyStr.collapse_underscores _ = Reference.squeeze_us _ |- _ =>
      rewrite IH end.
    apply squeeze_us_replace_uu.
  - symmetry. apply squeeze_us_fixed. assumption.
Qed.

Lemma all_chars_app (p : ascii -> bool) (s t : string) :
  Reference.all_chars p (s ++ t) = Reference.all_chars p s && Reference.all_chars p t.
Proof.
  induction s as [|c r IH]; [reflexivity|].
  cbn. rewrite IH. apply andb_assoc.
Qed.

(** [replace_char old new] leaves only characters that were there or that
    [new] brings, and none equal to [old] unless [new] has it. *)
Lemma all_chars_replace_char (p : ascii -> bool) (old : ascii) (new s : string) :
  Reference.all_chars p new = true ->
  Reference.all_chars (fun c => p c || Ascii.eqb c old) s = true ->
  Reference.all_chars p (PyStr.replace_char old new s) = true.
Proof.
  intros Hnew. induction s as [|c r IH]; [reflexivity|].
  cbn. intros H. apply andb_prop in H as [Hc Hr].
  destruct (Ascii.eqb c old) eqn:E.
  - rewrite all_chars_app, Hnew, IH by assumption. reflexivity.
  - cbn. rewrite orb_false_r in Hc. rewrite Hc, IH by assumption. reflexivity.
Qed.

Lemma all_chars_squeeze_us (p : ascii -> bool) (s : string) :
  Reference.all_chars p s = true -> Reference.all_chars p (Reference.squeeze_us s) = true.
Proof.
  induction s as [|c r IH]; [reflexivity|].
  rewrite squeeze_us_cons. cbn [Reference.all_chars]. intros H.
  apply andb_prop in H as [Hc Hr].
  destruct (Ascii.eqb c "_" && PyStr.startswith "_" r); cbn; rewrite ?Hc; auto.
Qed.

Lemma all_chars_lstrip_us (p : ascii -> bool) (s : string) :
  Reference.all_chars p s = true -> Reference.all_chars p (PyStr.lstrip_us s) = true.
Proof.
  induction s as [|c r IH]; [reflexivity|].
  intros H. cbn [PyStr.lstrip_us]. destruct (Ascii.eqb c "_"); [|exact H].
  cbn in H. apply andb_prop in H as [_ Hr]. auto.
Qed.

Lemma rstrip_us_cons (c : ascii) (r : string) :
  PyStr.rstrip_us (String c r) =
  match PyStr.rstrip_us r with
  | EmptyString => if Ascii.eqb c "_" then EmptyString else String c EmptyString
  | String d r' => String c (String d r')
  end.
Proof. cbn. destruct (PyStr.rstrip_us r); reflexivity. Qed.

Lemma all_chars_rstrip_us (p : ascii -> bool) (s : string) :
  Reference.all_chars p s = true -> Reference.all_chars p (PyStr.rstrip_us s) = true.
Proof.
  induction s as [|c r IH]; [reflexivity|].
  intros H. cbn [Reference.all_chars] in H. apply andb_prop in H as [Hc Hr].
  rewrite rstrip_us_cons. specialize (IH Hr).
  destruct (PyStr.rstrip_us r) as [|d r'].
  - destruct (Ascii.eqb c "_"); cbn; rewrite ?Hc; reflexivity.
  - cbn [Reference.all_chars] in *. rewrite Hc. exact IH.
Qed.

Lemma all_chars_weaken (p q : ascii -> bool) (s : string) :
  (forall c, p c = true -> q c = true) ->
  Reference.all_chars p s = true -> Reference.all_chars q s = true.
Proof.
  intros Hpq. induction s as [|c r IH]; [reflexivity|].
  cbn. intros H. apply andb_prop in H as [Hc Hr]. rewrite (Hpq _ Hc), IH; auto.
Qed.

Lemma all_chars_true (s : string) : Reference.all_chars (fun _ => true) s = true.
Proof. induction s; cbn; auto. Qed.

(** After the chain of [replace] calls no separator is left. *)
Lemma replace_special_no_separator (s : string) :
  Reference.all_chars (fun c => negb (Reference.is_separator c))
    (Models.replace_special s) = true.
Proof.
  unfold Models.replace_special.
  set (ok (l : list ascii) := fun c : ascii => negb (existsb (Ascii.eqb c) l)).
  assert (step : forall l old new t,
             Reference.all_chars (ok (old :: l)) new = true ->
             Reference.all_chars (ok l) t = true ->
             Reference.all_chars (ok (old :: l)) (PyStr.replace_char old new t) = true).
  { intros l old new t Hnew Ht. apply all_chars_replace_char; [exact Hnew|].
    revert Ht. apply all_chars_weaken. intros c. unfold ok. cbn [existsb].
    destruct (Ascii.eqb c old); cbn; [reflexivity|].
    intros ->. reflexivity. }
  apply (all_chars_weaken (ok ["," ; ")"; "("; "-"; "/"; " "]%char)).
  { intros c. unfold ok, Reference.is_separator. cbn [existsb].
    destruct (Ascii.eqb c " "), (Ascii.eqb c "/"), (Ascii.eqb c "-"),
      (Ascii.eqb c "("), (Ascii.eqb c ")"), (Ascii.eqb c ","); cbn; congruence. }
  repeat (apply step; [reflexivity|]).
  unfold ok. cbn. apply all_chars_true.
Qed.

Lemma startswith_us_cons (c : ascii) (r : string) :
  PyStr.startswith "_" (String c r) = Ascii.eqb c "_".
Proof. cbn. apply andb_true_r. Qed.

Lemma startswith_us_squeeze_us (s : string) :
  PyStr.startswith "_" (Reference.squeeze_us s) = PyStr.startswith "_" s.
Proof.
  induction s as [|c r IH]; [reflexivity|].
  rewrite squeeze_us_cons, (startswith_us_cons c r).
  destruct (Ascii.eqb c "_") eqn:Ec; cbn [andb].
  - destruct (PyStr.startswith "_" r) eqn:Er.
    + rewrite IH. reflexivity.
    + rewrite startswith_us_cons. exact Ec.
  - rewrite startswith_us_cons. exact Ec.
Qed.

Lemma squeeze_us_no_uu (s : string) :
  PyStr.contains "__" (Reference.squeeze_us s) = false.
Proof.
  induction s as [|c r IH]; [reflexivity|].
  rewrite squeeze_us_cons.
  destruct (Ascii.eqb c "_" && PyStr.startswith "_" r) eqn:E; [exact IH|].
  rewrite contains_uu_cons, startswith_us_squeeze_us, E, IH. reflexivity.
Qed.

Lemma lstrip_us_no_uu (s : string) :
  PyStr.contains "__" s = false -> PyStr.contains "__" (PyStr.lstrip_us s) = false.
Proof.
  induction s as [|c r IH]; [reflexivity|].
  intros H. cbn [PyStr.lstrip_us]. destruct (Ascii.eqb c "_"); [|exact H].
  rewrite contains_uu_cons in H. apply orb_false_elim in H as [_ H]. auto.
Qed.

Lemma startswith_us_rstrip_us (s : string) :
  PyStr.startswith "_" (PyStr.rstrip_us s) = true -> PyStr.startswith "_" s = true.
Proof.
  destruct s as [|c r]; [discriminate|].
  rewrite rstrip_us_cons, (startswith_us_cons c r).
  destruct (PyStr.rstrip_us r) as [|d r'].
  - destruct (Ascii.eqb c "_") eqn:E; [reflexivity|].
    rewrite startswith_us_cons, E. auto.
  - rewrite startswith_us_cons. auto.
Qed.

Lemma rstrip_us_no_uu (s : string) :
  PyStr.contains "__" s = false -> PyStr.contains "__" (PyStr.rstrip_us s) = false.
Proof.
  induction s as [|c r IH]; [reflexivity|].
  rewrite contains_uu_cons, rstrip_us_cons. intros H.
  apply orb_false_elim in H as [Hc Hr]. specialize (IH Hr).
  destruct (PyStr.rstrip_us r) as [|d r'] eqn:E.
  - destruct (Ascii.eqb c "_") eqn:Ec; [reflexivity|].
    rewrite contains_uu_cons, Ec. reflexivity.
  - rewrite contains_uu_cons, IH, orb_false_r.
    destruct (Ascii.eqb c "_"); [|reflexivity]. cbn [andb] in *.
    destruct (PyStr.startswith "_" (String d r')) eqn:Ed; [|reflexivity].
    rewrite <- E in Ed. apply startswith_us_rstrip_us in Ed. congruence.
Qed.

Lemma lstrip_us_head (s : string) :
  PyStr.startswith "_" (PyStr.lstrip_us s) = false.
Proof.
  induction s as [|c r IH]; [reflexivity|].
  cbn [PyStr.lstrip_us]. destruct (Ascii.eqb c "_") eqn:E; [exact IH|].
  rewrite startswith_us_cons. exact E.
Qed.

Lemma rstrip_us_tail (s : string) :
  Reference.ends_with_us (PyStr.rstrip_us s) = false.
Proof.
  induction s as [|c r IH]; [reflexivity|].
  rewrite rstrip_us_cons.
  destruct (PyStr.rstrip_us r) as [|d r'].
  - destruct (Ascii.eqb c "_") eqn:E; [reflexivity|]. cbn. exact E.
  - exact IH.
Qed.

(** ** C4: the source key *)

Lemma replace_char_cons (old : ascii) (new : string) (c : ascii) (r : string) :
  PyStr.replace_char old new (String c r) =
  if Ascii.eqb c old then new ++ PyStr.replace_char old new r
  else String c (PyStr.replace_char old new r).
Proof. reflexivity. Qed.

(** The chain of [replace] calls rewrites the name character by character:
    the six calls do not interfere, since none produces a character that a
    later one looks for. *)
Lemma replace_special_rewrite_chars (s : string) :
  Models.replace_special s = Reference.rewrite_chars s.
Proof.
  unfold Models.replace_special.
  induction s as [|c r IH]; [reflexivity|].
  cbn [Reference.rewrite_chars]. rewrite <- IH. clear IH.
  unfold Reference.rewritten.
  rewrite (replace_char_cons " ").
  destruct (Ascii.eqb c " ") eqn:E1; [reflexivity|].
  rewrite (replace_char_cons "/").
  destruct (Ascii.eqb c "/") eqn:E2; [reflexivity|].
  rewrite (replace_char_cons "-").
  destruct (Ascii.eqb c "-") eqn:E3; [reflexivity|].
  rewrite (replace_char_cons "(").
  destruct (Ascii.eqb c "(") eqn:E4; [reflexivity|].
  rewrite (replace_char_cons ")").
  destruct (Ascii.eqb c ")") eqn:E5; [reflexivity|].
  rewrite (replace_char_cons ",").
  destruct (Ascii.eqb c ",") eqn:E6; reflexivity.
Qed.

Lemma rewrite_chars_plain (s : string) :
  Reference.all_chars (fun c => negb (Reference.is_separator c)) s = true ->
  Reference.rewrite_chars s = s.
Proof.
  induction s as [|c r IH]; [reflexivity|].
  cbn [Reference.all_chars Reference.rewrite_chars]. intros H.
  apply andb_prop in H as [Hc Hr]. rewrite (IH Hr).
  unfold Reference.rewritten. unfold Reference.is_separator in Hc.
  destruct (Ascii.eqb c " "), (Ascii.eqb c "/"), (Ascii.eqb c "-"),
    (Ascii.eqb c "("), (Ascii.eqb c ")"), (Ascii.eqb c ","); try discriminate Hc.
  reflexivity.
Qed.

Lemma contains_uu_without_us (s : string) :
  Reference.all_chars (fun c => negb (Ascii.eqb c "_")) s = true ->
  PyStr.contains "__" s = false.
Proof.
  induction s as [|c r IH]; [reflexivity|].
  cbn [Reference.all_chars]. intros H. apply andb_prop in H as [Hc Hr].
  rewrite contains_uu_cons, (IH Hr). apply negb_true_iff in Hc. rewrite Hc. reflexivity.
Qed.

Lemma rstrip_us_without_us (s : string) :
  Reference.all_chars (fun c => negb (Ascii.eqb c "_")) s = true ->
  PyStr.rstrip_us s = s.
Proof.
  induction s as [|c r IH]; [reflexivity|].
  cbn [Reference.all_chars]. intros H. apply andb_prop in H as [Hc Hr].
  rewrite rstrip_us_cons, (IH Hr). apply negb_true_iff in Hc. rewrite Hc.
  destruct r; reflexivity.
Qed.

Lemma strip_us_without_us (s : string) :
  Reference.all_chars (fun c => negb (Ascii.eqb c "_")) s = true ->
  PyStr.strip_us s = s.
Proof.
  intros H. unfold PyStr.strip_us.
  assert (Hl : PyStr.lstrip_us s = s).
  { destruct s as [|c r]; [reflexivity|]. cbn [Reference.all_chars] in H.
    apply andb_prop in H as [Hc _]. apply negb_true_iff in Hc.
    cbn [PyStr.lstrip_us]. rewrite Hc. reflexivity. }
  rewrite Hl. apply rstrip_us_without_us. exact H.
Qed.

(** The key as a function of the lowercased name. *)
Lemma key_rewrite_chars {R : Runtime} (s : Models.EnergyDataSeries) :
  Models.key s =
    PyStr.strip_us
      (Reference.squeeze_us (Reference.rewrite_chars (str_lower (Models.name_en s)))).
Proof.
  unfold Models.key. cbv zeta.
  rewrite collapse_underscores_squeeze, replace_special_rewrite_chars. reflexivity.
Qed.

(** On an ASCII name every runtime computes the same key. *)
Lemma key_ascii_name {R : Runtime} (s : Models.EnergyDataSeries) :
  PyStr.isascii (Models.name_en s) = true ->
  Models.key s = @Models.key ascii_utc s.
Proof.
  intros H. unfold Models.key. cbv zeta.
  rewrite (str_lower_ascii _ H). reflexivity.
Qed.

(** Names beyond ASCII go through the runtime's lowering as any other: in
    a runtime that lowers "Öl und Müll" to "öl und müll" the key of that
    name is [öl_und_müll]. *)
Lemma key_follows_runtime_lowering {R : Runtime} :
  str_lower "Öl und Müll" = "öl und müll" ->
  Models.key (Example3.series "Öl und Müll" []) = "öl_und_müll".
Proof.
  intros H. rewrite key_rewrite_chars.
  change (Models.name_en (Example3.series "Öl und Müll" [])) with "Öl und Müll".
  rewrite H. vm_compute. reflexivity.
Qed.

(** C4, as the code has it: for every series the key is the lowercased
    English name ([str.lower] of the runtime) rewritten character by
    character, a space, a slash and a hyphen each becoming an underscore, a
    parenthesis and a comma disappearing and every other character staying as
    it is; then every run of underscores is collapsed to one and the
    underscores at both ends are trimmed. So the key holds no space, slash,
    hyphen, parenthesis or comma, no two adjacent underscores, and neither
    starts nor ends with an underscore; and a lowercased name that holds none
    of these characters and no underscore is the key as it stands. *)
Theorem C4_key_normal_form {R : Runtime} (s : Models.EnergyDataSeries) :
  Models.key s =
    PyStr.strip_us
      (Reference.squeeze_us
         (Reference.rewrite_chars (str_lower (Models.name_en s))))
  /\ Reference.all_chars (fun c => negb (Reference.is_separator c)) (Models.key s) = true
  /\ PyStr.contains "__" (Models.key s) = false
  /\ PyStr.startswith "_" (Models.key s) = false
  /\ Reference.ends_with_us (Models.key s) = false
  /\ (Reference.all_chars
        (fun c => negb (Reference.is_separator c) && negb (Ascii.eqb c "_"))
        (str_lower (Models.name_en s)) = true ->
      Models.key s = str_lower (Models.name_en s)).
Proof.
  split; [apply key_rewrite_chars|].
  unfold Models.key. cbv zeta. rewrite collapse_underscores_squeeze.
  set (k := Reference.squeeze_us _). unfold PyStr.strip_us.
  split; [|split; [|split; [|split]]].
  - apply all_chars_rstrip_us, all_chars_lstrip_us. subst k.
    apply all_chars_squeeze_us, replace_special_no_separator.
  - apply rstrip_us_no_uu, lstrip_us_no_uu. subst k. apply squeeze_us_no_uu.
  - destruct (PyStr.startswith "_" (PyStr.rstrip_us (PyStr.lstrip_us k))) eqn:E; [|reflexivity].
    apply startswith_us_rstrip_us in E. rewrite lstrip_us_head in E. discriminate.
  - apply rstrip_us_tail.
  - intros H. subst k. rewrite replace_special_rewrite_chars.
    assert (Hsep : Reference.all_chars (fun c => negb (Reference.is_separator c))
                     (str_lower (Models.name_en s)) = true).
    { revert H. apply all_chars_weaken. intros c Hc. apply andb_prop in Hc as [Hc _]. exact Hc. }
    assert (Hus : Reference.all_chars (fun c => negb (Ascii.eqb c "_"))
                    (str_lower (Models.name_en s)) = true).
    { revert H. apply all_chars_weaken. intros c Hc. apply andb_prop in Hc as [_ Hc]. exact Hc. }
    rewrite (rewrite_chars_plain _ Hsep).
    rewrite (squeeze_us_fixed _ (contains_uu_without_us _ Hus)).
    apply (strip_us_without_us _ Hus).
Qed.

Lemma C4_key_normal_form_witness :
  @Models.key ascii_utc Example1.solar_series = "solar".
Proof.
  destruct (@C4_key_normal_form ascii_utc Example1.solar_series) as (_ & _ & _ & _ & _ & H).
  rewrite H; reflexivity.
Defined.

(** C4, counterexample: for the name "Load (incl. self-consumption)" the key
    is [load_incl._self_consumption]; it is not the key the claim describes
    ([load_incl_self_consumption]) and it holds a full stop. *)
Lemma C4_key_keeps_other_characters :
  @Models.key ascii_utc load_series = "load_incl._self_consumption"
  /\ @Reference.key_as_claimed ascii_utc load_series = "load_incl_self_consumption"
  /\ @Models.key ascii_utc load_series <> @Reference.key_as_claimed ascii_utc load_series
  /\ Reference.all_chars (fun c => PyStr.isalnum c || Ascii.eqb c "_")
       (@Models.key ascii_utc load_series) = false.
Proof.
  assert (Hk : @Models.key ascii_utc load_series = "load_incl._self_consumption")
    by (vm_compute; reflexivity).
  assert (Hc : @Reference.key_as_claimed ascii_utc load_series = "load_incl_self_consumption")
    by (vm_compute; reflexivity).
  split; [exact Hk|]. split; [exact Hc|]. split.
  - rewrite Hk, Hc. discriminate.
  - rewrite Hk. vm_compute. reflexivity.
Qed.

(** ** Results *)

Lemma rbind_ok {A B : Type} (r : result A) (k : A -> result B) (b : B) :
  rbind r k = Ok b -> exists a, r = Ok a /\ k a = Ok b.
Proof. destruct r as [a|e]; cbn; [eauto | discriminate]. Qed.

Ltac invert_rbind H :=
  let a := fresh "a" in
  let Ha := fresh "Ha" in
  apply rbind_ok in H; destruct H as (a & Ha & H).

Lemma traverse_length {A B : Type} (f : A -> result B) (l : list A) (l' : list B) :
  traverse f l = Ok l' -> length l' = length l.
Proof.
  revert l'. induction l as [|x r IH]; intros l'; cbn.
  - intros [= <-]. reflexivity.
  - destruct (f x) as [y|]; [|discriminate].
    destruct (traverse f r) as [ys|]; [|discriminate].
    intros [= <-]. cbn. f_equal. apply IH. reflexivity.
Qed.

(** ** C6: normalization of the raw name *)

(** C6, as the code has it: a mapping yields itself; a sequence that starts
    with a mapping yields that mapping, however many elements follow, so in
    particular a one-element sequence holding a mapping yields it; an empty
    sequence and every value that is neither a sequence nor a mapping yield
    the empty mapping. Every raw value is of one of these shapes or is a
    sequence that starts with something else than a mapping, about which
    nothing is said; and the result is the one the claim words except for a
    sequence of two or more elements that starts with a mapping. *)
Theorem C6_normalize_name_shapes :
  (forall d, Models.normalize_name (JList [JDict d]) = JDict d)
  /\ (forall d, Models.normalize_name (JDict d) = JDict d)
  /\ (forall d rest, Models.normalize_name (JList (JDict d :: rest)) = JDict d)
  /\ Models.normalize_name (JList []) = JDict []
  /\ Models.normalize_name JNull = JDict []
  /\ (forall b, Models.normalize_name (JBool b) = JDict [])
  /\ (forall n, Models.normalize_name (JInt n) = JDict [])
  /\ (forall f, Models.normalize_name (JFloat f) = JDict [])
  /\ (forall s, Models.normalize_name (JStr s) = JDict [])
  /\ (forall v,
        Models.normalize_name v = Reference.normalize_name_as_claimed v
        \/ (exists d other rest,
              v = JList (JDict d :: other :: rest) /\ Models.normalize_name v = JDict d)
        \/ (exists first rest, v = JList (first :: rest) /\ forall d, first <> JDict d)).
Proof.
  repeat split.
  intros v. destruct v as [| | | | | [|first rest] |]; try (left; reflexivity).
  destruct first as [| | | | | |d];
    try (right; right; eexists; eexists; split; [reflexivity | discriminate]).
  destruct rest as [|other rest]; [left; reflexivity|].
  right; left. exists d, other, rest. split; reflexivity.
Qed.

(** C6, counterexample: a sequence of two mappings is neither a one-element
    sequence holding a mapping nor a mapping, so the claim sends it to the
    empty mapping; the code yields its first mapping. *)
Lemma C6_longer_sequence_keeps_first :
  Reference.normalize_name_as_claimed two_names = JDict []
  /\ Models.normalize_name two_names = JDict [("en", JStr "Solar")]
  /\ Models.normalize_name two_names <> Reference.normalize_name_as_claimed two_names.
Proof. repeat split. cbn. discriminate. Qed.

(** ** C5: lengths of the two sequences of a series *)

Lemma validate_data_length {V : Validator} (v : json) (d : list (option float)) :
  Models.validate_data v = Ok d ->
  exists values, v = JList values /\ length d = length values.
Proof.
  destruct v; cbn; try discriminate.
  intros H. eexists. split; [reflexivity|]. eapply traverse_length. exact H.
Qed.

Lemma validate_timestamps_length {V : Validator} (v : json) (t : list Z) :
  Models.validate_timestamps v = Ok t ->
  exists axis, v = JList axis /\ length t = length axis.
Proof.
  destruct v; cbn; try discriminate.
  intros H. eexists. split; [reflexivity|]. eapply traverse_length. exact H.
Qed.

Lemma new_EnergyDataSeries_lengths {V : Validator}
  (name_ color_ data_ timestamps_ visible_ : json) (s : Models.EnergyDataSeries) :
  Models.new_EnergyDataSeries name_ color_ data_ timestamps_ visible_ = Ok s ->
  exists values axis,
    data_ = JList values /\ timestamps_ = JList axis
    /\ Models.validate_name name_ = Ok (Models.name s)
    /\ length (Models.data s) = length values
    /\ length (Models.timestamps s) = length axis.
Proof.
  unfold Models.new_EnergyDataSeries. intros H.
  invert_rbind H. invert_rbind H. invert_rbind H. invert_rbind H. invert_rbind H.
  injection H as <-. cbn.
  match goal with Hd : Models.validate_data _ = Ok _ |- _ =>
    apply validate_data_length in Hd; destruct Hd as (values & -> & Hd) end.
  match goal with Ht : Models.validate_timestamps _ = Ok _ |- _ =>
    apply validate_timestamps_length in Ht; destruct Ht as (axis & -> & Ht) end.
  eauto 10.
Qed.

(** An object that yields a series has both members; the series has the
    name its ["name"] validates to, as many values as its ["data"] list and
    as many timestamps as the time axis. *)
Lemma parse_item_series {V : Validator} (timestamps_ item : json)
  (s : Models.EnergyDataSeries) :
  Models.parse_item timestamps_ item = Ok (Some s) ->
  carries_series item = true
  /\ exists name_ values axis,
       PyObj.getitem item "name" = Ok name_
       /\ Models.validate_name name_ = Ok (Models.name s)
       /\ PyObj.get item "data" (JList []) = Ok (JList values)
       /\ timestamps_ = JList axis
       /\ length (Models.data s) = length values
       /\ length (Models.timestamps s) = length axis.
Proof.
  unfold Models.parse_item, carries_series. intros H.
  invert_rbind H. rewrite Ha. destruct a; [|discriminate]. cbn [negb] in H.
  invert_rbind H. rewrite Ha0. destruct a; [|discriminate]. cbn [negb] in H.
  split; [reflexivity|].
  invert_rbind H. invert_rbind H. invert_rbind H. invert_rbind H. invert_rbind H.
  injection H as <-.
  match goal with Hs : Models.new_EnergyDataSeries _ _ _ _ _ = Ok _ |- _ =>
    apply new_EnergyDataSeries_lengths in Hs;
    destruct Hs as (values & axis & -> & -> & Hn & Hd & Ht) end.
  eauto 12.
Qed.

(** An object that is skipped lacks one of the two members. *)
Lemma parse_item_skipped {V : Validator} (timestamps_ item : json) :
  Models.parse_item timestamps_ item = Ok None -> carries_series item = false.
Proof.
  unfold Models.parse_item, carries_series. intros H.
  invert_rbind H. rewrite Ha. destruct a; [|reflexivity]. cbn [negb] in H.
  invert_rbind H. rewrite Ha0. destruct a; [|reflexivity]. cbn [negb] in H.
  invert_rbind H. invert_rbind H. invert_rbind H. invert_rbind H. invert_rbind H.
  discriminate.
Qed.

(** The series are, in order, those of the objects that carry one. *)
Lemma parse_items_series {V : Validator} (timestamps_ : json) (items : list json) :
  forall series,
    Models.parse_items timestamps_ items = Ok series ->
    Forall2 (fun item s => Models.parse_item timestamps_ item = Ok (Some s))
      (filter carries_series items) series.
Proof.
  induction items as [|item rest IH]; intros series; cbn [Models.parse_items filter].
  - intros [= <-]. constructor.
  - intros H. invert_rbind H. invert_rbind H. injection H as <-.
    destruct a as [s|].
    + destruct (parse_item_series _ _ _ Ha) as (-> & _).
      constructor; [exact Ha | apply IH; exact Ha0].
    + rewrite (parse_item_skipped _ _ Ha). apply IH. exact Ha0.
Qed.

(** C5, as the code has it: the series the normalizer produces are, in
    order, those of the raw objects that have a name and a data member. Each
    takes its timestamps from the [xAxisValues] list of the first raw object
    of the response (the empty list when the field is absent) and its name
    and values from its own raw object, each sequence with the length of its
    raw list. So the two lengths of a series are equal exactly when the time
    axis and the data list of its own object have equal lengths; the
    normalizer does not check it. *)
Theorem C5_series_lengths_follow_raw {V : Validator}
  (response_data : list json) (r : Models.EnergyChartsResponse) :
  Models.from_api_response response_data = Ok r ->
  Forall2
    (fun item s =>
       exists first rest axis name_ values,
         response_data = first :: rest
         /\ PyObj.get first "xAxisValues" (JList []) = Ok (JList axis)
         /\ PyObj.getitem item "name" = Ok name_
         /\ Models.validate_name name_ = Ok (Models.name s)
         /\ PyObj.get item "data" (JList []) = Ok (JList values)
         /\ length (Models.timestamps s) = length axis
         /\ length (Models.data s) = length values
         /\ (length (Models.timestamps s) = length (Models.data s)
             <-> length axis = length values))
    (filter carries_series response_data) (Models.data_series r).
Proof.
  unfold Models.from_api_response.
  destruct response_data as [|first rest]; [intros [= <-]; constructor|].
  intros H. invert_rbind H. invert_rbind H. injection H as <-.
  cbn [Models.data_series].
  apply parse_items_series in Ha0.
  revert Ha0. apply Forall2_impl. intros item s Hparse.
  apply parse_item_series in Hparse.
  destruct Hparse as (_ & name_ & values & axis & Hname & Hvalid & Hdata & -> & Hd & Ht).
  exists first, rest, axis, name_, values.
  rewrite Hd, Ht. intuition.
Qed.

(** C5, counterexample: a response whose only object carries two values and
    a one-entry time axis is accepted, and the series produced has one
    timestamp and two values. *)
Lemma C5_lengths_can_differ :
  @Models.from_api_response wire_validator short_axis_response
    = Ok {| Models.data_series := [short_axis_series] |}
  /\ length (Models.timestamps short_axis_series)
     <> length (Models.data short_axis_series).
Proof. split; [vm_compute; reflexivity | cbn; discriminate]. Qed.

Lemma C5_series_lengths_witness :
  Forall2
    (fun item s =>
       exists first rest axis name_ values,
         uneven_response = first :: rest
         /\ PyObj.get first "xAxisValues" (JList []) = Ok (JList axis)
         /\ PyObj.getitem item "name" = Ok name_
         /\ @Models.validate_name wire_validator name_ = Ok (Models.name s)
         /\ PyObj.get item "data" (JList []) = Ok (JList values)
         /\ length (Models.timestamps s) = length axis
         /\ length (Models.data s) = length values
         /\ (length (Models.timestamps s) = length (Models.data s)
             <-> length axis = length values))
    (filter carries_series uneven_response) (Models.data_series uneven_parsed).
Proof.
  apply (@C5_series_lengths_follow_raw wire_validator uneven_response uneven_parsed).
  vm_compute. reflexivity.
Defined.

(** ** Aggregation *)

Lemma accumulate_fold (sources_ : dict SourceData.t) :
  forall acc,
    let r := fold_left Coordinator.accumulate sources_ acc in
    Coordinator.total_production r
      = fold_left PrimFloat.add (Sums.values_where Sums.is_positive sources_)
          (Coordinator.total_production acc)
    /\ Coordinator.total_renewable r
      = fold_left PrimFloat.add
          (Sums.values_where (Sums.in_category Const.CATEGORY_RENEWABLE) sources_)
          (Coordinator.total_renewable acc)
    /\ Coordinator.total_fossil r
      = fold_left PrimFloat.add
          (Sums.values_where (Sums.in_category Const.CATEGORY_FOSSIL) sources_)
          (Coordinator.total_fossil acc)
    /\ Coordinator.total_nuclear r
      = fold_left PrimFloat.add
          (Sums.values_where (Sums.in_category Const.CATEGORY_NUCLEAR) sources_)
          (Coordinator.total_nuclear acc).
Proof.
  induction sources_ as [|[k d] rest IH]; intros acc; cbn zeta.
  - cbn. auto.
  - cbn [fold_left]. specialize (IH (Coordinator.accumulate acc (k, d))).
    cbn zeta in IH. destruct IH as (Hp & Hr & Hf & Hn).
    rewrite Hp, Hr, Hf, Hn. clear Hp Hr Hf Hn.
    unfold Sums.values_where. cbn [flat_map]. rewrite !fold_left_app.
    unfold Coordinator.accumulate, Sums.in_category, Sums.is_positive. cbn [snd].
    destruct (SourceData.value d) as [v|]; [|cbn; auto].
    destruct (String.eqb (SourceData.category d) Const.CATEGORY_RENEWABLE) eqn:Er.
    { apply String.eqb_eq in Er. rewrite Er. cbn [String.eqb Ascii.eqb Bool.eqb].
      destruct (PyFloat.gt0 v); cbn; auto. }
    destruct (String.eqb (SourceData.category d) Const.CATEGORY_FOSSIL) eqn:Ef.
    { apply String.eqb_eq in Ef. rewrite Ef. cbn [String.eqb Ascii.eqb Bool.eqb].
      destruct (PyFloat.gt0 v); cbn; auto. }
    destruct (String.eqb (SourceData.category d) Const.CATEGORY_NUCLEAR) eqn:En;
      destruct (PyFloat.gt0 v); cbn; auto.
Qed.

(** The reported totals are the sums over the sources that have a value:
    production over the strictly positive ones, the three others over their
    category alone. *)
Lemma accumulate_all_sums (sources_ : dict SourceData.t) :
  let r := Coordinator.accumulate_all sources_ in
  Coordinator.total_production r = Sums.fsum (Sums.values_where Sums.is_positive sources_)
  /\ Coordinator.total_renewable r
     = Sums.fsum (Sums.values_where (Sums.in_category Const.CATEGORY_RENEWABLE) sources_)
  /\ Coordinator.total_fossil r
     = Sums.fsum (Sums.values_where (Sums.in_category Const.CATEGORY_FOSSIL) sources_)
  /\ Coordinator.total_nuclear r
     = Sums.fsum (Sums.values_where (Sums.in_category Const.CATEGORY_NUCLEAR) sources_).
Proof. exact (accumulate_fold sources_ Coordinator.totals_zero). Qed.

(** The result dictionary of [_calculate_aggregated], read back key by key. *)
Lemma aggregated_entries (sources_ : dict SourceData.t) :
  let acc := Coordinator.accumulate_all sources_ in
  Coordinator._calculate_aggregated sources_ =
    [ (Const.SENSOR_TOTAL_PRODUCTION, PyFloat.round2 (Coordinator.total_production acc));
      (Const.SENSOR_TOTAL_RENEWABLE, PyFloat.round2 (Coordinator.total_renewable acc));
      (Const.SENSOR_TOTAL_FOSSIL, PyFloat.round2 (Coordinator.total_fossil acc));
      (Const.SENSOR_TOTAL_NUCLEAR, PyFloat.round2 (Coordinator.total_nuclear acc));
      (Const.SENSOR_RENEWABLE_SHARE,
        if PyFloat.gt0 (Coordinator.total_production acc)
        then PyFloat.round2
               (PrimFloat.mul
                  (PrimFloat.div (Coordinator.total_renewable acc)
                     (Coordinator.total_production acc)) 100)
        else 0%float) ].
Proof.
  cbn zeta. unfold Coordinator._calculate_aggregated. cbv zeta.
  destruct (PyFloat.gt0 _); reflexivity.
Qed.

(** ** C3: totals and renewable share *)

(** C3: the sources solar = 10, wind_onshore = 5 (both renewable by the
    category table) and fossil_gas = 20 (fossil) give total_production 35,
    total_renewable 15, total_fossil 20 and renewable_share 42.86. For every
    input, each reported total is the two-decimal rounding of a sum that was
    accumulated unrounded, the share is the two-decimal rounding of
    renewable / production * 100 computed from the unrounded sums, and the
    share is 0 whenever the production total is not positive. *)
Theorem C3_totals_and_share :
  map (fun item => (fst item, SourceData.value (snd item), SourceData.category (snd item)))
      Example3.sources
    = [ ("solar", Some 10%float, "renewable");
        ("wind_onshore", Some 5%float, "renewable");
        ("fossil_gas", Some 20%float, "fossil") ]
  /\ Coordinator._calculate_aggregated Example3.sources
    = [ ("total_production", 35%float); ("total_renewable", 15%float);
        ("total_fossil", 20%float); ("total_nuclear", 0%float);
        ("renewable_share", 42.86%float) ]
  /\ (forall sources_ : dict SourceData.t,
        let production := Sums.fsum (Sums.values_where Sums.is_positive sources_) in
        let renewable :=
          Sums.fsum (Sums.values_where (Sums.in_category Const.CATEGORY_RENEWABLE) sources_) in
        let fossil :=
          Sums.fsum (Sums.values_where (Sums.in_category Const.CATEGORY_FOSSIL) sources_) in
        let nuclear :=
          Sums.fsum (Sums.values_where (Sums.in_category Const.CATEGORY_NUCLEAR) sources_) in
        let aggregated_ := Coordinator._calculate_aggregated sources_ in
        get aggregated_ "total_production" = Some (PyFloat.round2 production)
        /\ get aggregated_ "total_renewable" = Some (PyFloat.round2 renewable)
        /\ get aggregated_ "total_fossil" = Some (PyFloat.round2 fossil)
        /\ get aggregated_ "total_nuclear" = Some (PyFloat.round2 nuclear)
        /\ (PyFloat.gt0 production = true ->
            get aggregated_ "renewable_share"
              = Some (PyFloat.round2
                        (PrimFloat.mul (PrimFloat.div renewable production) 100)))
        /\ (PyFloat.gt0 production = false ->
            get aggregated_ "renewable_share" = Some 0%float)).
Proof.
  split; [vm_compute; reflexivity|]. split; [vm_compute; reflexivity|].
  intros sources_. cbv zeta.
  rewrite aggregated_entries. cbv zeta.
  destruct (accumulate_all_sums sources_) as (Hp & Hr & Hf & Hn).
  rewrite Hp, Hr, Hf, Hn.
  repeat split; try reflexivity.
  - intros H. cbn [get]. cbn [String.eqb Ascii.eqb Bool.eqb Const.SENSOR_TOTAL_PRODUCTION
      Const.SENSOR_TOTAL_RENEWABLE Const.SENSOR_TOTAL_FOSSIL Const.SENSOR_TOTAL_NUCLEAR
      Const.SENSOR_RENEWABLE_SHARE]. rewrite H. reflexivity.
  - intros H. cbn [get]. cbn [String.eqb Ascii.eqb Bool.eqb Const.SENSOR_TOTAL_PRODUCTION
      Const.SENSOR_TOTAL_RENEWABLE Const.SENSOR_TOTAL_FOSSIL Const.SENSOR_TOTAL_NUCLEAR
      Const.SENSOR_RENEWABLE_SHARE]. rewrite H. reflexivity.
Qed.

Lemma C3_totals_and_share_witness :
  get (Coordinator._calculate_aggregated Example3.sources) "renewable_share"
    = Some 42.86%float
  /\ get (Coordinator._calculate_aggregated Example3.idle) "renewable_share"
    = Some 0%float.
Proof.
  destruct C3_totals_and_share as (_ & _ & H). split.
  - destruct (H Example3.sources) as (_ & _ & _ & _ & Hpos & _).
    etransitivity; [apply Hpos|]; vm_compute; reflexivity.
  - destruct (H Example3.idle) as (_ & _ & _ & _ & _ & Hzero).
    apply Hzero. vm_compute. reflexivity.
Defined.

(** ** C8: only the production total looks at the sign *)

(** C8: for every input the production total adds the strictly positive
    values only, while the renewable, fossil and nuclear totals add every
    value of their category, whatever its sign. With solar = -5 (renewable)
    and fossil_gas = 10 the renewable total is -5, the production total is 10
    and the reported renewable_share is -50. *)
Theorem C8_only_production_filters_sign :
  (forall sources_ : dict SourceData.t,
     let acc := Coordinator.accumulate_all sources_ in
     Coordinator.total_production acc
       = Sums.fsum (Sums.values_where (fun _ v => PrimFloat.ltb 0 v) sources_)
     /\ Coordinator.total_renewable acc
       = Sums.fsum (Sums.values_where
                      (fun d _ => String.eqb (SourceData.category d) "renewable") sources_)
     /\ Coordinator.total_fossil acc
       = Sums.fsum (Sums.values_where
                      (fun d _ => String.eqb (SourceData.category d) "fossil") sources_)
     /\ Coordinator.total_nuclear acc
       = Sums.fsum (Sums.values_where
                      (fun d _ => String.eqb (SourceData.category d) "nuclear") sources_))
  /\ (exists (sources_ : dict SourceData.t) (k : string) (d : SourceData.t)
             (v share : float),
        In (k, d) sources_
        /\ SourceData.category d = "renewable"
        /\ SourceData.value d = Some v
        /\ PrimFloat.ltb v 0 = true
        /\ get (Coordinator._calculate_aggregated sources_) "total_renewable"
             = Some (-5)%float
        /\ get (Coordinator._calculate_aggregated sources_) "total_production"
             = Some 10%float
        /\ get (Coordinator._calculate_aggregated sources_) "renewable_share" = Some share
        /\ (PrimFloat.ltb share 0 = true \/ PrimFloat.ltb 100 share = true)).
Proof.
  split.
  - intros sources_. exact (accumulate_all_sums sources_).
  - exists Example3.negative_renewable, "solar",
      (snd (Sums.source (Some (-5)%float) Const.CATEGORY_RENEWABLE "solar")),
      (-5)%float, (-50)%float.
    repeat split; try (vm_compute; reflexivity).
    + left. reflexivity.
    + left. vm_compute. reflexivity.
Qed.

(** ** C9: shape of the two result dictionaries *)





(** ** The fetch client *)

Lemma after_after (w : world) (n m : nat) (evs evs' : list event) :
  after (after w n evs) m evs' = after w (m + n) (evs ++ evs').
Proof.
  unfold after. cbn. f_equal; [apply Nat.add_assoc | symmetry; apply app_assoc].
Qed.

Lemma after_0_nil (w : world) : after w 0 [] = w.
Proof. destruct w. unfold after. cbn. rewrite app_nil_r. reflexivity. Qed.

(** One round of the retry loop. *)
Lemma attempts_step (url : string) (retries : Z) (b : float) (k : nat)
  (attempt : Z) (last : option exn) (w : world) :
  let g := Get url (Const.API_TIMEOUT * (attempt + 1)) in
  Api.attempts url retries b (S k) attempt last w =
  match Api.classify (http w (gets w) url) with
  | Api.Returns data => (Ok data, after w 1 [g])
  | Api.Propagates e => (Raise e, after w 1 [g])
  | Api.Records e =>
      if (attempt <? retries - 1)%Z then
        match Api.wait_time b attempt with
        | Ok t => Api.attempts url retries b k (attempt + 1) (Some e)
                    (after w 1 [g; Sleep t])
        | Raise e' => (Raise e', after w 1 [g])
        end
      else Api.attempts url retries b k (attempt + 1) (Some e) (after w 1 [g])
  end.
Proof.
  cbn zeta. cbn [Api.attempts]. unfold bind at 1. unfold session_get at 1.
  fold (after w 1 [Get url (Const.API_TIMEOUT * (attempt + 1))]).
  destruct (Api.classify (http w (gets w) url)) as [data|e|e]; try reflexivity.
  destruct (attempt <? retries - 1)%Z.
  - unfold bind at 1. unfold bind at 1. unfold lift.
    destruct (Api.wait_time b attempt) as [t|e']; [|reflexivity].
    unfold asyncio_sleep.
    match goal with |- Api.attempts _ _ _ _ _ _ ?w1 = Api.attempts _ _ _ _ _ _ ?w2 =>
      replace w1 with w2; [reflexivity|] end.
    unfold after. cbn. rewrite <- app_assoc. reflexivity.
  - unfold bind at 1. unfold ret. reflexivity.
Qed.

(** What a run of the retry loop adds to the trace: requests to the one URL
    and sleeps; the run never ends on a sleep, and with [k] rounds to go it
    sleeps at most [k - 1] times. *)
Lemma attempts_trace (url : string) (retries : Z) (b : float) :
  forall (k : nat) (attempt : Z) (last : option exn) (w : world),
    (Z.of_nat k + attempt = retries)%Z ->
    exists n evs,
      snd (Api.attempts url retries b k attempt last w) = after w n evs
      /\ (n <= k)%nat
      /\ (forall e, In e evs -> is_sleep e = true \/ exists t, e = Get url t)
      /\ match k with
         | O => evs = []
         | S k' => (exists evs' t, evs = (evs' ++ [Get url t])%list)
                   /\ (length (filter is_sleep evs) <= k')%nat
         end.
Proof.
  induction k as [|k IH]; intros attempt last w Hinv.
  - exists 0%nat, []. cbn [Api.attempts].
    split; [destruct last; cbn; now rewrite after_0_nil|].
    split; [lia|]. split; [intros e []|reflexivity].
  - rewrite attempts_step. cbv zeta.
    set (g := Get url (Const.API_TIMEOUT * (attempt + 1))).
    assert (Hg : forall e, In e [g] -> is_sleep e = true \/ exists t, e = Get url t).
    { intros e [<-|[]]. right. eexists. reflexivity. }
    assert (Hone : exists n evs,
               after w 1 [g] = after w n evs /\ (n <= S k)%nat
               /\ (forall e, In e evs -> is_sleep e = true \/ exists t, e = Get url t)
               /\ (exists evs' t, evs = (evs' ++ [Get url t])%list)
               /\ (length (filter is_sleep evs) <= k)%nat).
    { exists 1%nat, [g]. repeat split; [lia | exact Hg | | cbn; lia].
      exists [], (Const.API_TIMEOUT * (attempt + 1))%Z. reflexivity. }
    destruct (Api.classify (http w (gets w) url)) as [data|e|e]; try exact Hone.
    destruct (attempt <? retries - 1)%Z eqn:Hlt.
    + destruct (Api.wait_time b attempt) as [t|e']; [|exact Hone].
      apply Z.ltb_lt in Hlt.
      destruct k as [|k']; [lia|].
      destruct (IH (attempt + 1)%Z (Some e) (after w 1 [g; Sleep t]) ltac:(lia))
        as (n & evs & Hsnd & Hn & Hev & (evs' & t' & ->) & Hsl).
      exists (n + 1)%nat, ([g; Sleep t] ++ evs' ++ [Get url t'])%list.
      rewrite Hsnd, after_after. split; [reflexivity|]. split; [lia|].
      split; [|split].
      * intros e0 Hin. apply in_app_or in Hin as [[<-|[<-|[]]]|Hin]; auto.
        right. eexists. reflexivity.
      * exists ([g; Sleep t] ++ evs')%list, t'. rewrite <- app_assoc. reflexivity.
      * rewrite filter_app, length_app. cbn [filter is_sleep g length app]. lia.
    + destruct (IH (attempt + 1)%Z (Some e) (after w 1 [g]) ltac:(lia))
        as (n & evs & Hsnd & Hn & Hev & Hshape).
      exists (n + 1)%nat, ([g] ++ evs)%list.
      rewrite Hsnd, after_after. split; [reflexivity|]. split; [lia|].
      split; [|split].
      * intros e0 Hin. apply in_app_or in Hin as [Hin|Hin]; auto.
      * destruct k as [|k'].
        -- subst evs. exists [], (Const.API_TIMEOUT * (attempt + 1))%Z. reflexivity.
        -- destruct Hshape as ((evs' & t' & ->) & _).
           exists ([g] ++ evs')%list, t'. rewrite <- app_assoc. reflexivity.
      * rewrite filter_app, length_app. cbn [filter is_sleep g length app].
        destruct k as [|k']; [subst evs; cbn; lia|]. destruct Hshape as (_ & Hsl). lia.
Qed.

Lemma wait_time_0 (b : float) : Api.wait_time b 0 = Ok (PrimFloat.mul b 1).
Proof.
  unfold Api.wait_time.
  replace (PyFloat.float_of_int (2 ^ 0)) with (Some 1%float) by (vm_compute; reflexivity).
  reflexivity.
Qed.

Lemma wait_time_1 (b : float) : Api.wait_time b 1 = Ok (PrimFloat.mul b 2).
Proof.
  unfold Api.wait_time.
  replace (PyFloat.float_of_int (2 ^ 1)) with (Some 2%float) by (vm_compute; reflexivity).
  reflexivity.
Qed.

Lemma make_request_not_found (self : Api.EnergyChartsApiClient) (endpoint : string)
  (retries : Z) (b : float) (w : world) (body : json) :
  (0 < retries)%Z ->
  http w (gets w) (url_of self endpoint) = Responds 404 body ->
  Api._make_request self endpoint retries b w
    = (Raise EnergyChartsNotFoundError, after w 1 [Get (url_of self endpoint) 30]).
Proof.
  intros Hr H. unfold Api._make_request. fold (url_of self endpoint).
  destruct (Z.to_nat retries) as [|k] eqn:Ek; [lia|].
  rewrite attempts_step. cbv zeta. rewrite H. reflexivity.
Qed.

Lemma make_request_third_time (self : Api.EnergyChartsApiClient) (endpoint : string)
  (retries : Z) (b : float) (w : world) (status : Z) (data : list json) :
  let url := url_of self endpoint in
  (3 <= retries)%Z ->
  http w (gets w) url = RaisesTimeout ->
  http w (S (gets w)) url = RaisesTimeout ->
  http w (S (S (gets w))) url = Responds status (JList data) ->
  (status < 400)%Z ->
  Api._make_request self endpoint retries b w
    = (Ok data,
       after w 3 [Get url 30; Sleep (PrimFloat.mul b 1);
                  Get url 60; Sleep (PrimFloat.mul b 2);
                  Get url 90]).
Proof.
  intros url Hr H1 H2 H3 Hs. unfold Api._make_request. fold (url_of self endpoint). fold url.
  destruct (Z.to_nat retries) as [|[|[|k]]] eqn:Ek; try lia.
  rewrite attempts_step. cbv zeta. rewrite H1. cbn [Api.classify].
  replace (0 <? retries - 1)%Z with true by (symmetry; apply Z.ltb_lt; lia).
  rewrite wait_time_0.
  rewrite attempts_step. cbv zeta. cbn [http gets after Nat.add]. rewrite H2. cbn [Api.classify].
  replace (0 + 1 <? retries - 1)%Z with true by (symmetry; apply Z.ltb_lt; lia).
  change (0 + 1)%Z with 1%Z. rewrite wait_time_1.
  rewrite attempts_step. cbv zeta. cbn [http gets after Nat.add]. rewrite H3. cbn [Api.classify].
  replace (status =? 404)%Z with false by (symmetry; apply Z.eqb_neq; lia).
  replace (400 <=? status)%Z with false by (symmetry; apply Z.leb_gt; lia).
  f_equal. unfold after. cbn. rewrite <- !app_assoc. reflexivity.
Qed.

(** ** C2: 404 is final, timeouts are retried with backoff *)

(** C2: for every request, with at least one attempt allowed a 404 answer to
    the first attempt raises the not-found failure after that single request
    and without any sleep; with at least three attempts allowed, a timeout on
    attempts 1 and 2 followed by a list body on attempt 3 returns that body
    after exactly two sleeps, of [backoff_factor * 2^0] and
    [backoff_factor * 2^1] seconds, between three requests whose timeouts are
    30, 60 and 90 seconds. The fetch of a given week, built on it with three
    attempts and a backoff factor of 1, raises the not-found failure in the
    first case and returns the normalized body (the ApiSnapshot) after sleeps
    of 1 and 2 seconds in the second. Whatever the network does, a run never ends on a sleep and
    sleeps at most [retries - 1] times. *)
Theorem C2_retry_policy {V : Validator} (self : Api.EnergyChartsApiClient)
  (endpoint : string) (retries : Z) (b : float) (w : world) :
  let url := url_of self endpoint in
  (forall body,
     (0 < retries)%Z ->
     http w (gets w) url = Responds 404 body ->
     Api._make_request self endpoint retries b w
       = (Raise EnergyChartsNotFoundError, after w 1 [Get url 30]))
  /\ (forall status data,
        (3 <= retries)%Z ->
        http w (gets w) url = RaisesTimeout ->
        http w (S (gets w)) url = RaisesTimeout ->
        http w (S (S (gets w))) url = Responds status (JList data) ->
        (status < 400)%Z ->
        Api._make_request self endpoint retries b w
          = (Ok data,
             after w 3 [Get url 30; Sleep (PrimFloat.mul b 1);
                        Get url 60; Sleep (PrimFloat.mul b 2);
                        Get url 90]))
  /\ (forall year week body,
        let week_url :=
          url_of self ("week_" ++ PyStr.str_of_int year ++ "_"
                         ++ PyStr.format_02d week ++ ".json") in
        http w (gets w) week_url = Responds 404 body ->
        Api.get_specific_week self year week w
          = (Raise EnergyChartsNotFoundError, after w 1 [Get week_url 30]))
  /\ (forall year week status data,
        let week_url :=
          url_of self ("week_" ++ PyStr.str_of_int year ++ "_"
                         ++ PyStr.format_02d week ++ ".json") in
        http w (gets w) week_url = RaisesTimeout ->
        http w (S (gets w)) week_url = RaisesTimeout ->
        http w (S (S (gets w))) week_url = Responds status (JList data) ->
        (status < 400)%Z ->
        Api.get_specific_week self year week w
          = (Models.from_api_response data,
             after w 3 [Get week_url 30; Sleep 1%float;
                        Get week_url 60; Sleep 2%float;
                        Get week_url 90]))
  /\ (exists n evs,
        snd (Api._make_request self endpoint retries b w) = after w n evs
        /\ (n <= Z.to_nat retries)%nat
        /\ (evs = [] \/ exists evs' t, evs = (evs' ++ [Get url t])%list)
        /\ (length (filter is_sleep evs) <= Z.to_nat retries - 1)%nat).
Proof.
  cbv zeta. split; [|split; [|split; [|split]]].
  - intros body. apply make_request_not_found.
  - intros status data. apply make_request_third_time.
  - intros year week body H.
    unfold Api.get_specific_week. unfold bind at 1.
    rewrite (make_request_not_found self _ Api.default_retries
               Api.default_backoff_factor w body) by (assumption || reflexivity).
    reflexivity.
  - intros year week status data H1 H2 H3 Hs.
    unfold Api.get_specific_week. unfold bind at 1.
    rewrite (make_request_third_time self _ Api.default_retries
               Api.default_backoff_factor w status data) by (assumption || reflexivity).
    reflexivity.
  - unfold Api._make_request. fold (url_of self endpoint).
    destruct (Z.le_gt_cases retries 0) as [Hle|Hgt].
    + replace (Z.to_nat retries) with 0%nat by lia.
      exists 0%nat, []. cbn. rewrite after_0_nil. auto.
    + destruct (attempts_trace (url_of self endpoint) retries b (Z.to_nat retries) 0 None w
                  ltac:(lia)) as (n & evs & Hsnd & Hn & _ & Hshape).
      exists n, evs. split; [exact Hsnd|]. split; [exact Hn|].
      destruct (Z.to_nat retries) as [|k] eqn:Ek; [lia|].
      destruct Hshape as (Hlast & Hsl). split; [right; exact Hlast | lia].
Qed.

Lemma C2_retry_policy_witness :
  Api._make_request Example2.client "week_2026_45.json" 3 1%float Example2.missing
    = (Raise EnergyChartsNotFoundError,
       after Example2.missing 1
         [Get "https://www.energy-charts.info/charts/power/data/de/week_2026_45.json" 30])
  /\ fst (Api._make_request Example2.client "week_2026_45.json" 3 1%float Example2.flaky)
     = Ok []
  /\ fst (@Api.get_specific_week wire_validator Example2.client 2026 45 Example2.flaky)
     = Ok {| Models.data_series := [] |}.
Proof.
  destruct (@C2_retry_policy wire_validator Example2.client "week_2026_45.json" 3 1%float
              Example2.missing) as (H404 & _).
  destruct (@C2_retry_policy wire_validator Example2.client "week_2026_45.json" 3 1%float
              Example2.flaky) as (_ & Hretry & _ & Hweek & _).
  split; [|split].
  - apply (H404 (JStr "not found")); [lia | reflexivity].
  - rewrite (Hretry 200%Z []); [reflexivity | lia | reflexivity | reflexivity | reflexivity | lia].
  - rewrite (Hweek 2026%Z 45%Z 200%Z []); [reflexivity | reflexivity | reflexivity | reflexivity | lia].
Defined.

(** ** C7: the day window is the current ISO week *)

Lemma bind_datetime_now {A : Type} (k : datetime -> M A) (w : world) :
  bind datetime_now k w
    = k (clock w (nows w))
        {| http := http w; clock := clock w; gets := gets w;
           nows := S (nows w); trace := trace w |}.
Proof. reflexivity. Qed.

(** C7: run from the same world (the same clock reading and the same
    network), the day-window fetch and the week-window fetch are the same
    operation: same result, same requests, same final state. Each requests
    the path [week_<ISO year>_<ISO week, two digits>.json] of the instant
    read, its first request going there with the base timeout, and every
    request of the run going to that one URL. On 30 December 2024 that path
    is [week_2025_01.json]. *)
Theorem C7_day_is_current_week {V : Validator} (self : Api.EnergyChartsApiClient)
  (w : world) :
  Api.get_current_day self w = Api.get_current_week self w
  /\ (exists evs,
        trace (snd (Api.get_current_day self w))
          = (trace w ++ Get (url_of self (week_endpoint (clock w (nows w)))) 30 :: evs)%list
        /\ trace (snd (Api.get_current_week self w))
          = (trace w ++ Get (url_of self (week_endpoint (clock w (nows w)))) 30 :: evs)%list
        /\ forall url t, In (Get url t) evs ->
             url = url_of self (week_endpoint (clock w (nows w))))
  /\ week_endpoint {| year := 2024; month := 12; day := 30 |} = "week_2025_01.json".
Proof.
  split; [reflexivity|]. split; [|vm_compute; reflexivity].
  assert (Hsame : Api.get_current_week self w = Api.get_current_day self w) by reflexivity.
  rewrite Hsame. clear Hsame.
  unfold Api.get_current_day. rewrite bind_datetime_now.
  unfold week_endpoint.
  destruct (PyDatetime.isocalendar (clock w (nows w))) as [[iso_year iso_week] wd].
  set (endpoint := "week_" ++ PyStr.str_of_int iso_year ++ "_"
                     ++ PyStr.format_02d iso_week ++ ".json").
  set (w1 := {| http := http w; clock := clock w; gets := gets w;
                nows := S (nows w); trace := trace w |}).
  assert (Htrace : exists evs,
            trace (snd (Api._make_request self endpoint Api.default_retries
                          Api.default_backoff_factor w1))
              = (trace w ++ Get (url_of self endpoint) 30 :: evs)%list
            /\ forall url t, In (Get url t) evs -> url = url_of self endpoint).
  { unfold Api._make_request. fold (url_of self endpoint).
    change (Z.to_nat Api.default_retries) with 3%nat.
    rewrite attempts_step. cbv zeta.
    change (Const.API_TIMEOUT * (0 + 1))%Z with 30%Z.
    set (url := url_of self endpoint).
    assert (Hrest : forall k attempt last ev0,
               (Z.of_nat k + attempt = Api.default_retries)%Z ->
               (forall u t, In (Get u t) ev0 -> u = url) ->
               exists evs,
                 trace (snd (Api.attempts url Api.default_retries
                               Api.default_backoff_factor k attempt last
                               (after w1 1 (Get url 30 :: ev0))))
                   = (trace w ++ Get url 30 :: evs)%list
                 /\ forall u t, In (Get u t) evs -> u = url).
    { intros k attempt last ev0 Hinv Hev0.
      destruct (attempts_trace url Api.default_retries Api.default_backoff_factor
                  k attempt last (after w1 1 (Get url 30 :: ev0)) Hinv)
        as (n & evs & Hsnd & _ & Hev & _).
      rewrite Hsnd. exists (ev0 ++ evs)%list.
      split; [cbn; rewrite <- app_assoc; reflexivity|].
      intros u t Hin. apply in_app_or in Hin as [Hin|Hin]; [eauto|].
      destruct (Hev _ Hin) as [Hs|(t' & [= -> _])]; [discriminate | reflexivity]. }
    assert (Hdone : exists evs : list event,
               trace (after w1 1 [Get url 30]) = (trace w ++ Get url 30 :: evs)%list
               /\ forall u t, In (Get u t) evs -> u = url).
    { exists []. split; [reflexivity | intros u t []]. }
    destruct (Api.classify (http w1 (gets w1) url)) as [data|e|e]; try exact Hdone.
    change (0 <? Api.default_retries - 1)%Z with true. cbv iota.
    rewrite wait_time_0.
    apply (Hrest 2%nat (0 + 1)%Z (Some e) [Sleep (PrimFloat.mul Api.default_backoff_factor 1)]).
    - reflexivity.
    - intros u t [[=]|[]]. }
  destruct Htrace as (evs & Htr & Hev).
  exists evs. unfold bind.
  destruct (Api._make_request self endpoint Api.default_retries
              Api.default_backoff_factor w1) as [[data|e] w2]; cbn in *; auto.
Qed.

(** ** The historical window *)

Lemma history_points_cons {R : Runtime} (x : option float) (r : list (option float)) :
  Coordinator.history_points (x :: r) = Raise TypeError.
Proof. reflexivity. Qed.

Lemma In_set {A : Type} (d : dict A) (k : string) (v : A) (k' : string) (v' : A) :
  In (k', v') (set d k v) -> (k', v') = (k, v) \/ In (k', v') d.
Proof.
  induction d as [|[k0 v0] r IH]; cbn.
  - intros [H|[]]; auto.
  - destruct (String.eqb k0 k) eqn:E; cbn.
    + apply String.eqb_eq in E. subst k0. intros [H|H]; auto.
    + intros [H|H]; auto. destruct (IH H); auto.
Qed.

Lemma convert_series_no_points {R : Runtime} (l : list Models.EnergyDataSeries) :
  forall h, no_points h -> no_points (fst (Coordinator.convert_series h l)).
Proof.
  induction l as [|series rest IH]; intros h Hh; [exact Hh|].
  cbn [Coordinator.convert_series].
  destruct (Models.data series) as [|x r].
  - cbn [Coordinator.history_points]. apply IH.
    intros k pts Hin. apply In_set in Hin as [[= _ ->]|Hin]; [reflexivity | eauto].
  - rewrite history_points_cons. exact Hh.
Qed.

(** The historical fetch always returns a dictionary: the empty one when the
    range is not a window or the window's fetch raised, and otherwise what the
    conversion loop had stored when it ended. *)
Lemma fetch_historical_data_total {V : Validator} {R : Runtime}
  (self : Coordinator.EnergyChartsDataUpdateCoordinator) (range : string) (w : world) :
  exists h w',
    Coordinator._fetch_historical_data self range w = (Ok h, w')
    /\ no_points h
    /\ (range <> "day" -> range <> "week" -> range <> "month" -> h = [] /\ w' = w).
Proof.
  unfold Coordinator._fetch_historical_data. cbv zeta.
  assert (Hrun : forall get_response : M Models.EnergyChartsResponse,
             exists h w',
               try_except
                 (bind get_response (fun response =>
                    match Coordinator.convert_series [] (Models.data_series response) with
                    | (h, None) => ret h
                    | (h, Some e) => try_except (raise e) (fun _ => ret h)
                    end))
                 (fun _ => ret []) w = (Ok h, w')
               /\ no_points h).
  { intros get_response. unfold try_except at 1, bind.
    destruct (get_response w) as [[response|e] w1].
    - pose proof (convert_series_no_points (Models.data_series response) []
                    ltac:(intros k pts [])) as Hnp.
      destruct (Coordinator.convert_series [] (Models.data_series response)) as [h [e|]];
        cbn in *; eauto.
    - cbn. exists [], w1. split; [reflexivity | intros k pts []]. }
  destruct (String.eqb range "day") eqn:Ed.
  { destruct (Hrun (Api.get_current_day (Coordinator.api_client self))) as (h & w' & H & Hnp).
    exists h, w'. apply String.eqb_eq in Ed. repeat split; auto; congruence. }
  destruct (String.eqb range "week") eqn:Ew.
  { destruct (Hrun (Api.get_current_week (Coordinator.api_client self))) as (h & w' & H & Hnp).
    exists h, w'. apply String.eqb_eq in Ew. repeat split; auto; congruence. }
  destruct (String.eqb range "month") eqn:Em.
  { destruct (Hrun (Api.get_current_month (Coordinator.api_client self))) as (h & w' & H & Hnp).
    exists h, w'. apply String.eqb_eq in Em. repeat split; auto; congruence. }
  exists [], w. repeat split. intros k pts [].
Qed.

Lemma set_history_same (d : Coordinator.structured_data) :
  Coordinator.set_history d (Coordinator.history d) = d.
Proof. destruct d. reflexivity. Qed.

(** ** C10: the historical window cannot fail a refresh *)

(** C10: for every range and every behaviour of the network the historical
    fetch returns a history and raises nothing; a fetch of the window that
    raises leaves the empty history, and one that returns a response leaves
    what the conversion loop had stored when it ended. Hence a refresh whose
    day-window fetch returned a response publishes a snapshot: it is the
    snapshot built from that response with, at most, its history replaced,
    so its timestamp, raw response, sources, aggregated values, categories
    and forecasts do not depend on what the historical fetch met. *)
Theorem C10_historical_fetch_never_raises {V : Validator} {R : Runtime}
  (self : Coordinator.EnergyChartsDataUpdateCoordinator) (w : world) :
  (forall range w0, exists h w',
      Coordinator._fetch_historical_data self range w0 = (Ok h, w'))
  /\ (forall e w0 w1,
        Api.get_current_day (Coordinator.api_client self) w0 = (Raise e, w1) ->
        Coordinator._fetch_historical_data self "day" w0 = (Ok [], w1))
  /\ (forall response w0 w1,
        Api.get_current_day (Coordinator.api_client self) w0 = (Ok response, w1) ->
        Coordinator._fetch_historical_data self "day" w0
          = (Ok (fst (Coordinator.convert_series [] (Models.data_series response))), w1))
  /\ (forall response w1 base w2,
        Api.get_current_day (Coordinator.api_client self) w = (Ok response, w1) ->
        Coordinator._process_response response w1 = (Ok base, w2) ->
        exists h w3,
          Coordinator._async_update_data self w = (Ok (Coordinator.set_history base h), w3)
          /\ Coordinator.timestamp (Coordinator.set_history base h) = Coordinator.timestamp base
          /\ Coordinator.raw_response (Coordinator.set_history base h) = response
          /\ Coordinator.sources (Coordinator.set_history base h) = Coordinator.sources base
          /\ Coordinator.aggregated (Coordinator.set_history base h)
             = Coordinator._calculate_aggregated (Coordinator.sources base)
          /\ Coordinator.categories (Coordinator.set_history base h)
             = Coordinator._calculate_categories (Coordinator.sources base)
          /\ Coordinator.forecasts (Coordinator.set_history base h) = []).
Proof.
  split; [|split; [|split]].
  - intros range w0.
    destruct (fetch_historical_data_total self range w0) as (h & w' & H & _). eauto.
  - intros e w0 w1 H. unfold Coordinator._fetch_historical_data. cbn.
    unfold try_except, bind. rewrite H. reflexivity.
  - intros response w0 w1 H. unfold Coordinator._fetch_historical_data. cbn.
    unfold try_except at 1, bind. rewrite H.
    destruct (Coordinator.convert_series [] (Models.data_series response)) as [h [e|]];
      reflexivity.
  - intros response w1 base w2 Hday Hproc.
    assert (Hbase : Coordinator.raw_response base = response
                    /\ Coordinator.aggregated base
                       = Coordinator._calculate_aggregated (Coordinator.sources base)
                    /\ Coordinator.categories base
                       = Coordinator._calculate_categories (Coordinator.sources base)
                    /\ Coordinator.forecasts base = []
                    /\ Coordinator.history base = []).
    { unfold Coordinator._process_response in Hproc. rewrite bind_datetime_now in Hproc.
      unfold bind, lift, ret in Hproc.
      destruct (Coordinator.add_sources [] (Models.data_series response)); [|discriminate].
      injection Hproc as <- _. cbn. auto. }
    destruct Hbase as (Hraw & Hagg & Hcat & Hfor & Hhist).
    unfold Coordinator._async_update_data, try_except.
    unfold bind at 1. rewrite Hday. unfold bind at 1. rewrite Hproc.
    set (range := get_default (Coordinator.entry_data self) Const.CONF_HISTORICAL_RANGE
                    Const.HISTORICAL_RANGE_NONE).
    destruct (negb (String.eqb range Const.HISTORICAL_RANGE_NONE)).
    + destruct (fetch_historical_data_total self range w2) as (h & w3 & H & _).
      unfold bind. rewrite H. exists h, w3. cbn. auto 10.
    + exists (Coordinator.history base), w2. rewrite set_history_same. cbn. auto 10.
Qed.

Lemma C10_historical_fetch_witness :
  (exists h w', @Coordinator._fetch_historical_data wire_validator ascii_utc
                  (Example1.coordinator "week") "week" Example1.serving_once = (Ok h, w'))
  /\ (exists h w3,
        @Coordinator._async_update_data wire_validator ascii_utc (Example1.coordinator "week")
          Example1.serving_once
        = (Ok (Coordinator.set_history Example1.base h), w3)).
Proof.
  destruct (@C10_historical_fetch_never_raises wire_validator ascii_utc
              (Example1.coordinator "week") Example1.serving_once)
    as (Htotal & _ & _ & Hrefresh).
  split; [apply Htotal|].
  destruct (Hrefresh Example1.solar_response (Example1.after_day Example1.serving_once)
              Example1.base
              (Example1.after_process Example1.serving_once))
    as (h & w3 & H & _); [vm_compute; reflexivity | vm_compute; reflexivity |].
  exists h, w3. exact H.
Defined.

(** ** C1: the history attached to the snapshot *)

(** C1, what the code does: whatever the range and the network, the
    historical fetch returns a history in which every list is empty, because
    the comprehension unpacks each element of [series.data] into a pair and
    fails on the first one. With the range set to "day" and the API serving
    one series with the values 1, null, 2, the refresh succeeds and publishes
    an empty history, where the claim describes the history that maps "solar"
    to the two points of the series. *)
Theorem C1_history_holds_no_point :
  (forall (V : Validator) (R : Runtime)
          (self : Coordinator.EnergyChartsDataUpdateCoordinator)
          (range : string) (w : world),
     exists h w',
       Coordinator._fetch_historical_data self range w = (Ok h, w')
       /\ forall k pts, In (k, pts) h -> pts = [])
  /\ match @Coordinator._async_update_data wire_validator ascii_utc
             (Example1.coordinator "day") Example1.serving with
     | (Ok d, _) =>
         Coordinator.raw_response d = Example1.solar_response
         /\ Coordinator.history d = []
         /\ @Reference.history_as_claimed ascii_utc (Coordinator.raw_response d)
            = [("solar", [(1700000000000%Z, 1%float); (1700001800000%Z, 2%float)])]
     | (Raise _, _) => False
     end.
Proof.
  split.
  - intros V R self range w.
    destruct (fetch_historical_data_total self range w) as (h & w' & H & Hnp & _).
    exists h, w'. split; [exact H | exact Hnp].
  - vm_compute. repeat split.
Qed.

(** With the range "none" the history of the snapshot is the empty one that
    [_process_response] put there. *)
Lemma history_empty_without_range {V : Validator} {R : Runtime}
  (self : Coordinator.EnergyChartsDataUpdateCoordinator) (w w' : world)
  (d : Coordinator.structured_data) :
  get_default (Coordinator.entry_data self) Const.CONF_HISTORICAL_RANGE
    Const.HISTORICAL_RANGE_NONE = "none" ->
  Coordinator._async_update_data self w = (Ok d, w') ->
  Coordinator.history d = [].
Proof.
  intros Hrange. unfold Coordinator._async_update_data, try_except.
  unfold bind at 1.
  destruct (Api.get_current_day (Coordinator.api_client self) w) as [[response|e] w1];
    [|discriminate].
  unfold bind at 1. unfold Coordinator._process_response at 1. rewrite bind_datetime_now.
  unfold bind at 1. unfold lift at 1.
  destruct (Coordinator.add_sources [] (Models.data_series response)); [|discriminate].
  unfold ret at 1. rewrite Hrange. cbn [String.eqb Ascii.eqb Bool.eqb negb
    Const.HISTORICAL_RANGE_NONE]. unfold ret. intros [= <- _]. reflexivity.
Qed.

(** * Further properties of the code *)

(** ** Dictionaries *)

Lemma get_set_same {A : Type} (d : dict A) (k : string) (v : A) :
  get (set d k v) k = Some v.
Proof.
  induction d as [|[k0 v0] r IH]; cbn.
  - rewrite String.eqb_refl. reflexivity.
  - destruct (String.eqb k0 k) eqn:E; cbn; rewrite E; [reflexivity | exact IH].
Qed.

Lemma get_set_other {A : Type} (d : dict A) (k k' : string) (v : A) :
  k <> k' -> get (set d k v) k' = get d k'.
Proof.
  intros Hne. induction d as [|[k0 v0] r IH]; cbn.
  - destruct (String.eqb k k') eqn:E; [apply String.eqb_eq in E; contradiction | reflexivity].
  - destruct (String.eqb k0 k) eqn:E; cbn.
    + apply String.eqb_eq in E. subst k0.
      destruct (String.eqb k k') eqn:E'; [apply String.eqb_eq in E'; contradiction|].
      reflexivity.
    + destruct (String.eqb k0 k'); [reflexivity | exact IH].
Qed.

Lemma get_In {A : Type} (d : dict A) (k : string) (v : A) :
  get d k = Some v -> In (k, v) d.
Proof.
  induction d as [|[k0 v0] r IH]; cbn; [discriminate|].
  destruct (String.eqb k0 k) eqn:E.
  - apply String.eqb_eq in E. intros [= ->]. left. congruence.
  - intros H. right. auto.
Qed.

Lemma keys_set {A : Type} (d : dict A) (k : string) (v : A) :
  keys (set d k v) = if has_key d k then keys d else (keys d ++ [k])%list.
Proof.
  unfold has_key, keys. induction d as [|[k0 v0] r IH]; cbn; [reflexivity|].
  destruct (String.eqb k0 k) eqn:E; cbn; [reflexivity|].
  rewrite IH. destruct (get r k); reflexivity.
Qed.

Lemma has_key_In {A : Type} (d : dict A) (k : string) :
  has_key d k = false -> ~ In k (keys d).
Proof.
  unfold has_key, keys. induction d as [|[k0 v0] r IH]; cbn; [tauto|].
  destruct (String.eqb k0 k) eqn:E; [discriminate|].
  intros H [Hk|Hin]; [subst; rewrite String.eqb_refl in E; discriminate | exact (IH H Hin)].
Qed.

Lemma NoDup_keys_set {A : Type} (d : dict A) (k : string) (v : A) :
  NoDup (keys d) -> NoDup (keys (set d k v)).
Proof.
  intros Hnd. rewrite keys_set. destruct (has_key d k) eqn:E; [exact Hnd|].
  apply NoDup_app; [exact Hnd | repeat constructor; intros [] | ].
  intros x Hx [<-|[]]. exact (has_key_In _ _ E Hx).
Qed.

(** ** models.py: the latest value and its timestamp *)

Lemma first_not_none_spec (l : list (option float)) :
  match Models.first_not_none l with
  | Some v => exists pre post, l = (pre ++ Some v :: post)%list /\ Forall (eq None) pre
  | None => Forall (eq None) l
  end.
Proof.
  induction l as [|[x|] r IH]; cbn.
  - constructor.
  - exists [], r. split; [reflexivity | constructor].
  - destruct (Models.first_not_none r) as [v|].
    + destruct IH as (pre & post & -> & Hpre).
      exists (None :: pre), post. split; [reflexivity | constructor; auto].
    + constructor; auto.
Qed.

(** X1. [latest_value] is the last entry of [data] that is not [None]:
    everything after it is [None]; it is [None] exactly when every entry is. *)
Theorem latest_value_is_last_present (s : Models.EnergyDataSeries) :
  match Models.latest_value s with
  | Some v =>
      exists before later,
        Models.data s = (before ++ Some v :: later)%list /\ Forall (eq None) later
  | None => Forall (eq None) (Models.data s)
  end.
Proof.
  unfold Models.latest_value.
  pose proof (first_not_none_spec (rev (Models.data s))) as H.
  destruct (Models.first_not_none (rev (Models.data s))) as [v|].
  - destruct H as (pre & post & Hrev & Hpre).
    exists (rev post), (rev pre). split.
    + rewrite <- (rev_involutive (Models.data s)), Hrev, rev_app_distr. cbn.
      rewrite <- app_assoc. reflexivity.
    + apply Forall_rev. exact Hpre.
  - rewrite <- (rev_involutive (Models.data s)). apply Forall_rev. exact H.
Qed.

Lemma data_split_at_latest (s : Models.EnergyDataSeries) (v : float) :
  Models.latest_value s = Some v ->
  exists before later,
    Models.data s = (before ++ Some v :: later)%list /\ Forall (eq None) later.
Proof.
  unfold Models.latest_value. intros E.
  pose proof (first_not_none_spec (rev (Models.data s))) as H. rewrite E in H.
  destruct H as (pre & post & Hrev & Hpre).
  exists (rev post), (rev pre). split; [|apply Forall_rev; exact Hpre].
  rewrite <- (rev_involutive (Models.data s)), Hrev, rev_app_distr. cbn.
  rewrite <- app_assoc. reflexivity.
Qed.

Lemma data_all_none (s : Models.EnergyDataSeries) :
  Models.latest_value s = None -> Forall (eq None) (Models.data s).
Proof.
  unfold Models.latest_value. intros E.
  pose proof (first_not_none_spec (rev (Models.data s))) as H. rewrite E in H.
  rewrite <- (rev_involutive (Models.data s)). apply Forall_rev. exact H.
Qed.

Lemma fromtimestamp_ms_ok {R : Runtime} (ts : Z) (t : instant) :
  fromtimestamp_ms ts = Ok t -> t = ts.
Proof.
  unfold fromtimestamp_ms. destruct (fromtimestamp_error ts); [discriminate|].
  intros [= <-]. reflexivity.
Qed.

(** The scan stops at the last index below [n] that has a value and a
    timestamp, with the conversion of that timestamp; without such an index
    it finds nothing. *)
Lemma scan_timestamp_spec {R : Runtime} (d : list (option float)) (ts : list Z) (n : nat) :
  (Models.scan_timestamp d ts n = Ok None
   /\ forall j v', (j < n)%nat -> nth_error d j = Some (Some v') -> nth_error ts j = None)
  \/ exists i v t0,
       (i < n)%nat /\ nth_error d i = Some (Some v) /\ nth_error ts i = Some t0
       /\ Models.scan_timestamp d ts n
          = (let? timestamp := fromtimestamp_ms t0 in Ok (Some timestamp))%result
       /\ forall j v', (i < j < n)%nat -> nth_error d j = Some (Some v') ->
                       nth_error ts j = None.
Proof.
  induction n as [|n IH]; cbn [Models.scan_timestamp].
  - left. split; [reflexivity|]. intros j v' Hj. lia.
  - assert (Hskip : (nth_error d n = None \/ nth_error d n = Some None
                     \/ nth_error ts n = None) ->
                    (Models.scan_timestamp d ts n = Ok None
                     /\ forall j v', (j < S n)%nat -> nth_error d j = Some (Some v') ->
                                     nth_error ts j = None)
                    \/ exists i v t0,
                         (i < S n)%nat /\ nth_error d i = Some (Some v)
                         /\ nth_error ts i = Some t0
                         /\ Models.scan_timestamp d ts n
                            = (let? timestamp := fromtimestamp_ms t0 in
                               Ok (Some timestamp))%result
                         /\ forall j v', (i < j < S n)%nat ->
                                         nth_error d j = Some (Some v') ->
                                         nth_error ts j = None).
    { intros Hn.
      assert (Hat : forall v', nth_error d n = Some (Some v') -> nth_error ts n = None).
      { intros v' Hd. destruct Hn as [Hn|[Hn|Hn]]; congruence. }
      destruct IH as [(Hscan & Hnone)|(i & v & t0 & Hi & Hd & Ht & Hscan & Hlater)].
      - left. split; [exact Hscan|]. intros j v' Hj Hdj.
        destruct (Nat.eq_dec j n) as [->|Hne]; [eauto|]. apply (Hnone j v'); [lia | exact Hdj].
      - right. exists i, v, t0. repeat split; auto.
        intros j v' Hj Hdj.
        destruct (Nat.eq_dec j n) as [->|Hne]; [eauto|]. apply (Hlater j v'); [lia | exact Hdj]. }
    destruct (nth_error d n) as [[v|]|] eqn:Ed; [|apply Hskip; auto|apply Hskip; auto].
    destruct (nth_error ts n) as [t0|] eqn:Et; [|apply Hskip; auto].
    right. exists n, v, t0. repeat split; auto. intros j v' Hj. lia.
Qed.

Lemma latest_timestamp_scan {R : Runtime} (s : Models.EnergyDataSeries) :
  Models.latest_timestamp s
  = Models.scan_timestamp (Models.data s) (Models.timestamps s) (length (Models.data s)).
Proof.
  unfold Models.latest_timestamp.
  destruct (Models.timestamps s) as [|t ts] eqn:Et; destruct (Models.data s) as [|x d] eqn:Ed;
    try reflexivity.
  destruct (scan_timestamp_spec (x :: d) [] (length (x :: d)))
    as [(-> & _)|(i & v & t0 & _ & _ & Ht & _)]; [reflexivity|].
  destruct i; discriminate.
Qed.

(** The two ways [latest_timestamp] ends: no index has both a value and a
    timestamp, or the timestamp at the last such index is converted. *)
Lemma latest_timestamp_cases {R : Runtime} (s : Models.EnergyDataSeries) :
  (Models.latest_timestamp s = Ok None
   /\ (forall j v', nth_error (Models.data s) j = Some (Some v') ->
                    nth_error (Models.timestamps s) j = None)
   /\ (length (Models.timestamps s) = length (Models.data s) ->
       Models.latest_value s = None))
  \/ exists i v t0,
       nth_error (Models.data s) i = Some (Some v)
       /\ nth_error (Models.timestamps s) i = Some t0
       /\ Models.latest_timestamp s
          = (let? timestamp := fromtimestamp_ms t0 in Ok (Some timestamp))%result
       /\ (forall j v', (i < j)%nat -> nth_error (Models.data s) j = Some (Some v') ->
                        nth_error (Models.timestamps s) j = None)
       /\ (length (Models.timestamps s) = length (Models.data s) ->
           Models.latest_value s = Some v).
Proof.
  rewrite latest_timestamp_scan.
  assert (Hin : forall j x, nth_error (Models.data s) j = Some x ->
                            (j < length (Models.data s))%nat).
  { intros j x Hj. apply nth_error_Some. congruence. }
  destruct (scan_timestamp_spec (Models.data s) (Models.timestamps s)
              (length (Models.data s)))
    as [(Hscan & H)|(i & v & t0 & Hi & Hd & Ht & Hscan & Hlater)].
  - left. split; [exact Hscan|]. split.
    + intros j v' Hdj. apply (H j v'); eauto.
    + intros Hlen. destruct (Models.latest_value s) as [u|] eqn:Elv; [|reflexivity].
      exfalso. destruct (data_split_at_latest s u Elv) as (before & later & Hdata & _).
      assert (Hu : nth_error (Models.data s) (length before) = Some (Some u)).
      { rewrite Hdata, nth_error_app2, Nat.sub_diag by lia. reflexivity. }
      specialize (H _ _ (Hin _ _ Hu) Hu). apply nth_error_None in H.
      specialize (Hin _ _ Hu). lia.
  - right. exists i, v, t0. repeat split; auto.
    + intros j v' Hj Hdj. apply (Hlater j v'); [|exact Hdj]. split; [exact Hj | eauto].
    + intros Hlen. destruct (Models.latest_value s) as [u|] eqn:Elv.
      * destruct (data_split_at_latest s u Elv) as (before & later & Hdata & Hnone).
        assert (Hu : nth_error (Models.data s) (length before) = Some (Some u)).
        { rewrite Hdata, nth_error_app2, Nat.sub_diag by lia. reflexivity. }
        destruct (Nat.lt_trichotomy i (length before)) as [Hlt|[Heq|Hgt]].
        -- specialize (Hlater (length before) u ltac:(split; eauto) Hu).
           apply nth_error_None in Hlater. specialize (Hin _ _ Hu). lia.
        -- subst i. congruence.
        -- exfalso. rewrite Hdata in Hd.
           rewrite nth_error_app2 in Hd by lia.
           destruct (i - length before)%nat as [|m] eqn:Em; [lia|]. cbn in Hd.
           apply nth_error_In in Hd. rewrite Forall_forall in Hnone.
           specialize (Hnone _ Hd). discriminate.
      * exfalso. pose proof (data_all_none s Elv) as Hv. rewrite Forall_forall in Hv.
        apply nth_error_In in Hd. specialize (Hv _ Hd). discriminate.
Qed.

(** X2. [latest_timestamp] converts the timestamp at the last index that
    holds a value and lies within the time axis (no later index has both a
    value and a timestamp): it returns the [datetime] of that timestamp, or
    raises what [datetime.fromtimestamp] raises on it; it returns [None] when
    there is no such index. When the two sequences have the same length the
    index is that of [latest_value], and [None] is returned exactly when
    there is no value. *)
Theorem latest_timestamp_is_of_last_present {R : Runtime} (s : Models.EnergyDataSeries) :
  match Models.latest_timestamp s with
  | Ok (Some t) =>
      exists i v t0,
        nth_error (Models.data s) i = Some (Some v)
        /\ nth_error (Models.timestamps s) i = Some t0
        /\ fromtimestamp_ms t0 = Ok t
        /\ (forall j v', (i < j)%nat -> nth_error (Models.data s) j = Some (Some v') ->
                         nth_error (Models.timestamps s) j = None)
        /\ (length (Models.timestamps s) = length (Models.data s) ->
            Models.latest_value s = Some v)
  | Ok None =>
      (forall j v', nth_error (Models.data s) j = Some (Some v') ->
                    nth_error (Models.timestamps s) j = None)
      /\ (length (Models.timestamps s) = length (Models.data s) ->
          Models.latest_value s = None)
  | Raise e =>
      exists i v t0,
        nth_error (Models.data s) i = Some (Some v)
        /\ nth_error (Models.timestamps s) i = Some t0
        /\ fromtimestamp_ms t0 = Raise e
        /\ (forall j v', (i < j)%nat -> nth_error (Models.data s) j = Some (Some v') ->
                         nth_error (Models.timestamps s) j = None)
        /\ (length (Models.timestamps s) = length (Models.data s) ->
            Models.latest_value s = Some v)
  end.
Proof.
  destruct (latest_timestamp_cases s)
    as [(-> & H)|(i & v & t0 & Hd & Ht & -> & Hlater & Hlen)]; [exact H|].
  destruct (fromtimestamp_ms t0) as [t|e] eqn:E; cbn [rbind];
    exists i, v, t0; auto.
Qed.

Lemma latest_timestamp_witness :
  (exists v, Models.latest_value Example1.solar_series = Some v)
  /\ (exists v, Models.latest_value far_series = Some v).
Proof.
  split.
  - pose proof (@latest_timestamp_is_of_last_present ascii_utc Example1.solar_series) as H.
    assert (E : @Models.latest_timestamp ascii_utc Example1.solar_series
                = Ok (Some 1700001800000%Z)) by reflexivity.
    rewrite E in H. destruct H as (i & v & t0 & _ & _ & _ & _ & Hlen).
    exists v. apply Hlen. reflexivity.
  - pose proof (@latest_timestamp_is_of_last_present ascii_utc far_series) as H.
    assert (E : @Models.latest_timestamp ascii_utc far_series = Raise ValueError)
      by reflexivity.
    rewrite E in H. destruct H as (i & v & t0 & _ & _ & _ & _ & Hlen).
    exists v. apply Hlen. reflexivity.
Defined.

(** ** models.py: data points *)

Lemma data_points_from_past_axis {R : Runtime} (ts : list Z) (d : list (option float)) :
  forall i, nth_error ts i = None -> Models.data_points_from ts i d = Ok [].
Proof.
  induction d as [|x r IH]; intros i Hi; [reflexivity|].
  cbn [Models.data_points_from]. rewrite Hi.
  assert (Hnext : nth_error ts (S i) = None).
  { apply nth_error_None. apply nth_error_None in Hi. lia. }
  destruct x; apply IH; exact Hnext.
Qed.

Lemma skipn_nth_error {A : Type} (l : list A) :
  forall i, match nth_error l i with
            | Some x => skipn i l = x :: skipn (S i) l
            | None => skipn i l = []
            end.
Proof.
  induction l as [|a r IH]; intros [|i]; cbn; try reflexivity.
  specialize (IH i). destruct (nth_error r i); exact IH.
Qed.

(** The loop converts, in order, the pairs whose value is present. *)
Lemma data_points_from_pairs {R : Runtime} (ts : list Z) (d : list (option float)) :
  forall i,
    Models.data_points_from ts i d = traverse convert_pair (Reference.pairs (skipn i ts) d).
Proof.
  induction d as [|x r IH]; intros i.
  - unfold Reference.pairs. rewrite combine_nil. reflexivity.
  - cbn [Models.data_points_from].
    pose proof (skipn_nth_error ts i) as Hs.
    destruct (nth_error ts i) as [t|] eqn:Et.
    + rewrite Hs. unfold Reference.pairs. cbn [combine flat_map snd fst].
      fold (Reference.pairs (skipn (S i) ts) r).
      destruct x as [v|]; cbn [app]; [|apply IH].
      cbn [traverse]. unfold convert_pair at 1. cbn [fst snd].
      rewrite IH. destruct (fromtimestamp_ms t); cbn [rbind]; [|reflexivity].
      destruct (traverse convert_pair _); reflexivity.
    + rewrite Hs. unfold Reference.pairs. cbn [combine flat_map traverse].
      assert (Hnext : nth_error ts (S i) = None).
      { apply nth_error_None. apply nth_error_None in Et. lia. }
      destruct x; apply data_points_from_past_axis; exact Hnext.
Qed.

(** A traversal returns the images of all elements, or raises what the
    first element that fails raises. *)
Lemma traverse_cases {A B : Type} (f : A -> result B) (l : list A) :
  match traverse f l with
  | Ok l' => Forall2 (fun x y => f x = Ok y) l l'
  | Raise e =>
      exists before x later,
        l = (before ++ x :: later)%list
        /\ Forall (fun b => exists y, f b = Ok y) before
        /\ f x = Raise e
  end.
Proof.
  induction l as [|x r IH]; cbn [traverse]; [constructor|].
  destruct (f x) as [y|e] eqn:Ex.
  - destruct (traverse f r) as [ys|e].
    + constructor; assumption.
    + destruct IH as (before & x0 & later & -> & Hb & Hx).
      exists (x :: before), x0, later. repeat split; eauto.
  - exists [], x, r. repeat split; auto.
Qed.

Lemma pairs_length (ts : list Z) (d : list (option float)) :
  (length (Reference.pairs ts d) <= length ts)%nat
  /\ (length (Reference.pairs ts d) <= length d)%nat.
Proof.
  assert (Hlen : forall l : list (Z * option float),
             (length (flat_map (fun p : Z * option float =>
                        match snd p with
                        | Some v => [(fst p, v)]
                        | None => []
                        end) l) <= length l)%nat).
  { induction l as [|[t [v|]] r IH]; cbn; lia. }
  unfold Reference.pairs.
  pose proof (Hlen (combine ts d)) as H. rewrite length_combine in H.
  split; (eapply Nat.le_trans; [exact H | lia]).
Qed.

(** X3. [get_data_points] goes through the pairs of [zip(timestamps, data)]
    whose value is present, in order, an entry beyond the shorter of the two
    sequences giving no pair. It returns these pairs, each timestamp
    converted, when every conversion succeeds, so at most as many points as
    either sequence is long; and it raises what [datetime.fromtimestamp]
    raises on the first pair whose timestamp it refuses. *)
Theorem get_data_points_is_zip {R : Runtime} (s : Models.EnergyDataSeries) :
  Models.get_data_points s = traverse convert_pair (Reference.points s)
  /\ match Models.get_data_points s with
     | Ok pts =>
         pts = Reference.points s
         /\ (forall t v, In (t, v) (Reference.points s) -> fromtimestamp_ms t = Ok t)
         /\ (length pts <= length (Models.timestamps s))%nat
         /\ (length pts <= length (Models.data s))%nat
     | Raise e =>
         exists before t v later,
           Reference.points s = (before ++ (t, v) :: later)%list
           /\ (forall t' v', In (t', v') before -> fromtimestamp_ms t' = Ok t')
           /\ fromtimestamp_ms t = Raise e
     end.
Proof.
  assert (E : Models.get_data_points s = traverse convert_pair (Reference.points s)).
  { unfold Models.get_data_points. rewrite data_points_from_pairs. reflexivity. }
  split; [exact E|]. rewrite E. clear E.
  assert (Hconv : forall p y, convert_pair p = Ok y -> y = p /\ fromtimestamp_ms (fst p) = Ok (fst p)).
  { intros [t v] y. unfold convert_pair. cbn [fst snd].
    destruct (fromtimestamp_ms t) as [t'|e] eqn:Et; cbn [rbind]; [|discriminate].
    intros [= <-]. apply fromtimestamp_ms_ok in Et as Heq. subst t'. auto. }
  pose proof (traverse_cases convert_pair (Reference.points s)) as H.
  destruct (traverse convert_pair (Reference.points s)) as [pts|e].
  - assert (Hsame : pts = Reference.points s
                    /\ forall t v, In (t, v) (Reference.points s) -> fromtimestamp_ms t = Ok t).
    { induction H as [|p y l l' Hp _ IH]; [split; [reflexivity | intros t v []]|].
      destruct (Hconv _ _ Hp) as (-> & Hok). destruct IH as (-> & Hall).
      split; [reflexivity|]. intros t v [->|Hin]; [exact Hok | eauto]. }
    destruct Hsame as (-> & Hall). split; [reflexivity|]. split; [exact Hall|].
    apply pairs_length.
  - destruct H as (before & [t v] & later & Heq & Hb & Hx).
    exists before, t, v, later. split; [exact Heq|]. split.
    + intros t' v' Hin. rewrite Forall_forall in Hb.
      destruct (Hb _ Hin) as (y & Hy). apply (Hconv _ _ Hy).
    + unfold convert_pair in Hx. cbn [fst snd] in Hx.
      destruct (fromtimestamp_ms t); cbn [rbind] in Hx; [discriminate | congruence].
Qed.

Lemma get_data_points_witness :
  fromtimestamp_ms (R := ascii_utc) 1700001800000 = Ok 1700001800000%Z.
Proof.
  destruct (@get_data_points_is_zip ascii_utc Example1.solar_series) as (_ & H).
  assert (E : @Models.get_data_points ascii_utc Example1.solar_series
              = Ok [(1700000000000%Z, 1%float); (1700001800000%Z, 2%float)])
    by reflexivity.
  rewrite E in H. destruct H as (_ & Hall & _).
  apply (Hall 1700001800000%Z 2%float). right. left. reflexivity.
Defined.

(** ** models.py: objects the normalizer skips *)

Lemma parse_item_metadata {V : Validator} (timestamps_ : json)
  (fields : list (string * json)) :
  is_metadata fields = true ->
  Models.parse_item timestamps_ (JDict fields) = Ok None.
Proof.
  unfold is_metadata, Models.parse_item. cbn [PyObj.contains rbind].
  destruct (has_key fields "name"); cbn; [|reflexivity].
  destruct (has_key fields "data"); cbn; [discriminate | reflexivity].
Qed.

Lemma parse_items_skip {V : Validator} (timestamps_ : json)
  (fields : list (string * json)) (before later : list json) :
  is_metadata fields = true ->
  Models.parse_items timestamps_ (before ++ JDict fields :: later)
  = Models.parse_items timestamps_ (before ++ later).
Proof.
  intros Hm. induction before as [|item rest IH]; cbn [app Models.parse_items].
  - rewrite (parse_item_metadata _ _ Hm). cbn.
    destruct (Models.parse_items timestamps_ later); reflexivity.
  - rewrite IH. reflexivity.
Qed.

(** X4. An object without a ["name"] or without a ["data"] field, anywhere
    after the first object of the response, is skipped: the result of the
    normalizer, series or exception, is the one for the response without that
    object, whatever the other objects are. *)
Theorem from_api_response_skips_metadata {V : Validator} (first : json)
  (before later : list json) (fields : list (string * json)) :
  is_metadata fields = true ->
  Models.from_api_response (first :: before ++ JDict fields :: later)
  = Models.from_api_response (first :: before ++ later).
Proof.
  intros Hm. unfold Models.from_api_response.
  destruct (PyObj.get first "xAxisValues" (JList [])) as [timestamps_|e]; [|reflexivity].
  cbn [rbind].
  rewrite (parse_items_skip timestamps_ fields (first :: before) later Hm).
  reflexivity.
Qed.

Lemma from_api_response_skips_metadata_witness :
  @Models.from_api_response wire_validator
    (short_axis_response ++ [JDict [("name", JStr "legend")]])
  = Ok {| Models.data_series := [short_axis_series] |}.
Proof.
  etransitivity.
  - apply (@from_api_response_skips_metadata wire_validator
             (hd JNull short_axis_response) [] [] [("name", JStr "legend")]).
    reflexivity.
  - vm_compute. reflexivity.
Defined.

(** ** models.py: looking a series up *)

(** X5. [get_series_by_key] finds a series exactly for the keys listed by
    [get_series_keys]; the series found is one of the response and has the
    key asked for, and every series of the response is reachable through its
    own key up to another series with the same key standing before it. *)
Theorem get_series_by_key_finds_listed_keys {R : Runtime}
  (r : Models.EnergyChartsResponse) (k : string) :
  (Models.get_series_by_key r k = None <-> ~ In k (Models.get_series_keys r))
  /\ (forall s, Models.get_series_by_key r k = Some s ->
                In s (Models.data_series r) /\ Models.key s = k)
  /\ (forall s, In s (Models.data_series r) ->
                exists s', Models.get_series_by_key r (Models.key s) = Some s'
                           /\ Models.key s' = Models.key s).
Proof.
  unfold Models.get_series_by_key, Models.get_series_keys.
  split; [|split].
  - split.
    + intros Hnone Hin. apply in_map_iff in Hin as (s & Hk & Hs).
      pose proof (find_none _ _ Hnone s Hs) as H. cbn in H.
      rewrite Hk, String.eqb_refl in H. discriminate.
    + intros Hnot. destruct (find _ _) as [s|] eqn:E; [|reflexivity].
      apply find_some in E as [Hin Hk]. apply String.eqb_eq in Hk.
      exfalso. apply Hnot. apply in_map_iff. eauto.
  - intros s E. apply find_some in E as [Hin Hk]. apply String.eqb_eq in Hk. auto.
  - intros s Hin. destruct (find _ _) as [s'|] eqn:E.
    + exists s'. split; [reflexivity|]. apply find_some in E as [_ Hk].
      apply String.eqb_eq in Hk. exact Hk.
    + pose proof (find_none _ _ E s Hin) as H. cbn in H.
      rewrite String.eqb_refl in H. discriminate.
Qed.

Lemma get_series_by_key_witness :
  exists s', @Models.get_series_by_key ascii_utc Example1.solar_response "solar" = Some s'
             /\ @Models.key ascii_utc s' = "solar".
Proof.
  destruct (@get_series_by_key_finds_listed_keys ascii_utc Example1.solar_response "solar")
    as (_ & _ & H).
  apply (H Example1.solar_series). left. reflexivity.
Defined.

(** ** models.py: the key of an ASCII name is already lowercase *)

Lemma lower_char_not_upper (c : ascii) : PyStr.is_upper (PyStr.lower_char c) = false.
Proof. destruct c as [[] [] [] [] [] [] [] []]; reflexivity. Qed.

Lemma lower_char_fixed (c : ascii) : PyStr.is_upper c = false -> PyStr.lower_char c = c.
Proof. unfold PyStr.lower_char. intros ->. reflexivity. Qed.

Lemma lower_char_ascii (c : ascii) :
  (nat_of_ascii c <? 128)%nat = true -> (nat_of_ascii (PyStr.lower_char c) <? 128)%nat = true.
Proof. destruct c as [[] [] [] [] [] [] [] []]; intros H; first [exact H | reflexivity]. Qed.

Lemma isascii_all_chars (s : string) :
  PyStr.isascii s = Reference.all_chars (fun c => (nat_of_ascii c <? 128)%nat) s.
Proof.
  induction s as [|c r IH]; [reflexivity|].
  cbn [PyStr.isascii Reference.all_chars]. rewrite IH. reflexivity.
Qed.

Lemma lower_ascii_no_upper (s : string) :
  Reference.all_chars (fun c => negb (PyStr.is_upper c)) (PyStr.lower_ascii s) = true.
Proof.
  induction s as [|c r IH]; [reflexivity|].
  cbn. rewrite lower_char_not_upper, IH. reflexivity.
Qed.

Lemma lower_ascii_fixed (s : string) :
  Reference.all_chars (fun c => negb (PyStr.is_upper c)) s = true -> PyStr.lower_ascii s = s.
Proof.
  induction s as [|c r IH]; [reflexivity|].
  cbn. intros H. apply andb_prop in H as [Hc Hr].
  apply negb_true_iff in Hc. rewrite (lower_char_fixed c Hc), (IH Hr). reflexivity.
Qed.

Lemma lower_ascii_isascii (s : string) :
  PyStr.isascii s = true -> PyStr.isascii (PyStr.lower_ascii s) = true.
Proof.
  induction s as [|c r IH]; [reflexivity|].
  cbn [PyStr.isascii PyStr.lower_ascii]. intros H. apply andb_prop in H as [Hc Hr].
  rewrite (lower_char_ascii c Hc), (IH Hr). reflexivity.
Qed.

(** Lowering ASCII text twice is lowering it once, in every runtime. *)
Lemma str_lower_idempotent_ascii {R : Runtime} (s : string) :
  PyStr.isascii s = true -> str_lower (str_lower s) = str_lower s.
Proof.
  intros H. rewrite (str_lower_ascii s H).
  rewrite (str_lower_ascii _ (lower_ascii_isascii s H)).
  apply lower_ascii_fixed, lower_ascii_no_upper.
Qed.

Lemma all_chars_replace_char_keep (p : ascii -> bool) (old : ascii) (new s : string) :
  Reference.all_chars p new = true ->
  Reference.all_chars p s = true ->
  Reference.all_chars p (PyStr.replace_char old new s) = true.
Proof.
  intros Hnew Hs. apply all_chars_replace_char; [exact Hnew|].
  revert Hs. apply all_chars_weaken. intros c ->. reflexivity.
Qed.

(** The rewriting of the key keeps a property of characters that the
    lowercased name has and the underscore has. *)
Lemma key_all_chars {R : Runtime} (p : ascii -> bool) (s : Models.EnergyDataSeries) :
  p "_"%char = true ->
  Reference.all_chars p (str_lower (Models.name_en s)) = true ->
  Reference.all_chars p (Models.key s) = true.
Proof.
  intros Hus H. unfold Models.key. cbv zeta. rewrite collapse_underscores_squeeze.
  unfold PyStr.strip_us.
  apply all_chars_rstrip_us, all_chars_lstrip_us, all_chars_squeeze_us.
  unfold Models.replace_special.
  assert (Hu : Reference.all_chars p "_" = true) by (cbn; rewrite Hus; reflexivity).
  repeat (apply all_chars_replace_char_keep; [first [exact Hu | reflexivity]|]).
  exact H.
Qed.

Lemma key_no_separator {R : Runtime} (s : Models.EnergyDataSeries) :
  Reference.all_chars (fun c => negb (Reference.is_separator c)) (Models.key s) = true.
Proof.
  unfold Models.key. cbv zeta. rewrite collapse_underscores_squeeze.
  unfold PyStr.strip_us.
  apply all_chars_rstrip_us, all_chars_lstrip_us, all_chars_squeeze_us.
  apply replace_special_no_separator.
Qed.

(** The key of an ASCII name is ASCII and holds no capital letter, so
    lowering it changes nothing. *)
Lemma key_lower_fixed {R : Runtime} (s : Models.EnergyDataSeries) :
  PyStr.isascii (Models.name_en s) = true ->
  str_lower (Models.key s) = Models.key s.
Proof.
  intros H. pose proof (str_lower_ascii _ H) as Hl.
  assert (Ha : PyStr.isascii (Models.key s) = true).
  { rewrite isascii_all_chars. apply key_all_chars; [reflexivity|].
    rewrite Hl, <- isascii_all_chars. apply lower_ascii_isascii. exact H. }
  rewrite (str_lower_ascii _ Ha). apply lower_ascii_fixed.
  apply key_all_chars; [reflexivity|]. rewrite Hl. apply lower_ascii_no_upper.
Qed.

Lemma key_not_with_separator {R : Runtime} (s : Models.EnergyDataSeries) (k : string) :
  Reference.all_chars (fun c => negb (Reference.is_separator c)) k = false ->
  Models.key s <> k.
Proof. intros Hk E. rewrite <- E, key_no_separator in Hk. discriminate. Qed.

(** X6. The key of a series with an ASCII English name is already lowercase,
    so the [series.key.lower()] of the coordinator is the key itself; and
    the key of any series holds none of the characters ["-"] and ["/"], so
    it is none of the three entries of the category table written with
    them. *)
Theorem key_is_lowercase_and_plain {R : Runtime} (s : Models.EnergyDataSeries) :
  (PyStr.isascii (Models.name_en s) = true -> str_lower (Models.key s) = Models.key s)
  /\ Models.key s <> "hydro_run-of-river"
  /\ Models.key s <> "fossil_brown_coal/lignite"
  /\ Models.key s <> "fossil_coal-derived_gas".
Proof.
  split; [apply key_lower_fixed|].
  repeat split; apply key_not_with_separator; reflexivity.
Qed.

Lemma key_is_lowercase_witness :
  @str_lower ascii_utc (@Models.key ascii_utc load_series) = @Models.key ascii_utc load_series.
Proof.
  destruct (@key_is_lowercase_and_plain ascii_utc load_series) as (H & _).
  apply H. reflexivity.
Defined.

(** X7. [get_series_by_name] compares the names lowercased: a series found
    is one of the response whose name in the language, lowercased, is the
    lowercased query, and none is found only when no series of the response
    has such a name. For an ASCII query the case does not matter: the
    lowercased query finds the same series. *)
Theorem get_series_by_name_ignores_case {R : Runtime} (r : Models.EnergyChartsResponse)
  (name_ language : string) :
  (PyStr.isascii name_ = true ->
   Models.get_series_by_name r (str_lower name_) language
     = Models.get_series_by_name r name_ language)
  /\ (forall s, Models.get_series_by_name r name_ language = Some s ->
                In s (Models.data_series r)
                /\ str_lower (get_default (Models.name s) language "")
                   = str_lower name_)
  /\ (Models.get_series_by_name r name_ language = None ->
      forall s, In s (Models.data_series r) ->
                str_lower (get_default (Models.name s) language "") <> str_lower name_).
Proof.
  unfold Models.get_series_by_name. split; [|split].
  - intros H. rewrite (str_lower_idempotent_ascii _ H). reflexivity.
  - intros s E. apply find_some in E as [Hin Hk]. apply String.eqb_eq in Hk. auto.
  - intros E s Hin Heq. pose proof (find_none _ _ E s Hin) as H. cbn in H.
    rewrite Heq, String.eqb_refl in H. discriminate.
Qed.

Lemma get_series_by_name_witness :
  @Models.get_series_by_name ascii_utc Example1.solar_response (@str_lower ascii_utc "SOLAR") "en"
  = @Models.get_series_by_name ascii_utc Example1.solar_response "SOLAR" "en"
  /\ In Example1.solar_series (Models.data_series Example1.solar_response)
  /\ @str_lower ascii_utc (get_default (Models.name Example1.solar_series) "en" "")
     = @str_lower ascii_utc "SOLAR".
Proof.
  destruct (@get_series_by_name_ignores_case ascii_utc Example1.solar_response "SOLAR" "en")
    as (Hcase & H & _).
  split; [apply Hcase; reflexivity|].
  apply H. reflexivity.
Defined.

(** ** coordinator.py: the sources of a snapshot *)

Lemma add_source_cases {R : Runtime} (sources_ : dict SourceData.t)
  (series : Models.EnergyDataSeries) :
  Coordinator.add_source sources_ series
  = if is_forecast series then Ok sources_
    else (let? latest_timestamp := Models.latest_timestamp series in
          Ok (set sources_ (str_lower (Models.key series))
                (source_of series latest_timestamp)))%result.
Proof. reflexivity. Qed.

Lemma find_app {A : Type} (f : A -> bool) (l1 l2 : list A) :
  find f (l1 ++ l2) = match find f l1 with
                      | Some x => Some x
                      | None => find f l2
                      end.
Proof.
  induction l1 as [|a r IH]; cbn; [reflexivity|]. destruct (f a); [reflexivity | exact IH].
Qed.

(** Looking a key up in the sources built from a list of series: the entry
    is that of the last series stored under the key. *)
Lemma get_add_sources {R : Runtime} (k : string) (l : list Models.EnergyDataSeries) :
  forall acc d,
    Coordinator.add_sources acc l = Ok d ->
    match find (fun series =>
                  String.eqb (str_lower (Models.key series)) k
                  && negb (is_forecast series)) (rev l) with
    | Some series =>
        exists latest_timestamp,
          Models.latest_timestamp series = Ok latest_timestamp
          /\ get d k = Some (source_of series latest_timestamp)
    | None => get d k = get acc k
    end.
Proof.
  induction l as [|series rest IH]; intros acc d H.
  - cbn in *. injection H as <-. reflexivity.
  - cbn [Coordinator.add_sources] in H. invert_rbind H.
    cbn [rev]. rewrite find_app. specialize (IH _ _ H).
    destruct (find _ (rev rest)) as [found|]; [exact IH|].
    rewrite IH. clear IH H. cbn [find].
    rewrite add_source_cases in Ha.
    destruct (is_forecast series); cbn [negb andb].
    + rewrite andb_false_r. injection Ha as <-. reflexivity.
    + rewrite andb_true_r. invert_rbind Ha. injection Ha as <-.
      destruct (String.eqb (str_lower (Models.key series)) k) eqn:E.
      * apply String.eqb_eq in E. subst k. eexists. split; [eassumption|].
        apply get_set_same.
      * apply get_set_other. intros Heq. rewrite Heq, String.eqb_refl in E. discriminate.
Qed.

(** The loop succeeds when the latest timestamp of every series it stores
    converts, and raises what the first conversion that fails raises. *)
Lemma add_sources_cases {R : Runtime} (l : list Models.EnergyDataSeries) :
  forall acc,
    match Coordinator.add_sources acc l with
    | Ok _ =>
        forall series, In series l -> is_forecast series = false ->
                       exists latest_timestamp,
                         Models.latest_timestamp series = Ok latest_timestamp
    | Raise e =>
        exists series,
          In series l /\ is_forecast series = false
          /\ Models.latest_timestamp series = Raise e
    end.
Proof.
  induction l as [|series rest IH]; intros acc; cbn [Coordinator.add_sources].
  - intros series [].
  - rewrite add_source_cases.
    destruct (is_forecast series) eqn:Ef; cbn [rbind].
    + specialize (IH acc). destruct (Coordinator.add_sources acc rest) as [d|e].
      * intros s [<-|Hin] Hs; [congruence | eauto].
      * destruct IH as (s & Hin & Hs & He). exists s. cbn [In]. auto.
    + destruct (Models.latest_timestamp series) as [ts|e] eqn:Et; cbn [rbind].
      * specialize (IH (set acc (str_lower (Models.key series)) (source_of series ts))).
        destruct (Coordinator.add_sources _ rest) as [d|e].
        -- intros s [<-|Hin] Hs; eauto.
        -- destruct IH as (s & Hin & Hs & He). exists s. cbn [In]. auto.
      * exists series. cbn [In]. auto.
Qed.

Lemma add_sources_succeeds {R : Runtime} (l : list Models.EnergyDataSeries)
  (acc : dict SourceData.t) :
  (forall series, In series l -> is_forecast series = false ->
                  exists latest_timestamp,
                    Models.latest_timestamp series = Ok latest_timestamp) ->
  exists d, Coordinator.add_sources acc l = Ok d.
Proof.
  intros H. pose proof (add_sources_cases l acc) as Hc.
  destruct (Coordinator.add_sources acc l) as [d|e]; [eauto|].
  destruct Hc as (s & Hin & Hs & He). destruct (H s Hin Hs) as (ts & Hts). congruence.
Qed.

Lemma add_sources_invariant {R : Runtime} (P : string -> SourceData.t -> Prop)
  (l : list Models.EnergyDataSeries) :
  (forall series latest_timestamp,
     In series l -> is_forecast series = false ->
     Models.latest_timestamp series = Ok latest_timestamp ->
     P (str_lower (Models.key series)) (source_of series latest_timestamp)) ->
  forall acc d,
    Coordinator.add_sources acc l = Ok d ->
    NoDup (keys acc) -> (forall k src, In (k, src) acc -> P k src) ->
    NoDup (keys d) /\ forall k src, In (k, src) d -> P k src.
Proof.
  induction l as [|series rest IH]; intros Hl acc d H Hnd Hacc.
  - cbn in H. injection H as <-. auto.
  - cbn [Coordinator.add_sources] in H. invert_rbind H.
    rewrite add_source_cases in Ha.
    apply (IH ltac:(intros s ts Hin; apply Hl; right; exact Hin) a d H).
    + destruct (is_forecast series); [injection Ha as <-; exact Hnd|].
      invert_rbind Ha. injection Ha as <-. apply NoDup_keys_set. exact Hnd.
    + destruct (is_forecast series) eqn:Ef; [injection Ha as <-; exact Hacc|].
      invert_rbind Ha. injection Ha as <-.
      intros k src Hin. apply In_set in Hin as [[= -> ->]|Hin]; [|auto].
      apply Hl; [left; reflexivity | exact Ef | assumption].
Qed.

(** What a conversion raises is one of the three exceptions of
    [datetime.fromtimestamp]. *)
Lemma fromtimestamp_ms_raises {R : Runtime} (ts : Z) (e : exn) :
  fromtimestamp_ms ts = Raise e -> e = ValueError \/ e = OverflowError \/ e = OSError.
Proof.
  unfold fromtimestamp_ms. destruct (fromtimestamp_error ts) as [[]|]; intros [= <-]; auto.
Qed.

Lemma latest_timestamp_raises {R : Runtime} (s : Models.EnergyDataSeries) (e : exn) :
  Models.latest_timestamp s = Raise e -> e = ValueError \/ e = OverflowError \/ e = OSError.
Proof.
  destruct (latest_timestamp_cases s) as [(-> & _)|(i & v & t0 & _ & _ & -> & _)];
    [discriminate|].
  destruct (fromtimestamp_ms t0) as [t|e0] eqn:E; cbn [rbind]; [discriminate|].
  intros [= <-]. exact (fromtimestamp_ms_raises _ _ E).
Qed.

(** [_process_response] reads the clock once, then builds the sources; it
    returns the snapshot of these sources or raises what the loop raised. *)
Lemma process_response_run {R : Runtime} (response : Models.EnergyChartsResponse)
  (w : world) :
  Coordinator._process_response response w
  = match Coordinator.add_sources [] (Models.data_series response) with
    | Ok sources_ =>
        (Ok {| Coordinator.timestamp := clock w (nows w);
               Coordinator.raw_response := response;
               Coordinator.sources := sources_;
               Coordinator.aggregated := Coordinator._calculate_aggregated sources_;
               Coordinator.categories := Coordinator._calculate_categories sources_;
               Coordinator.history := [];
               Coordinator.forecasts := [] |}, after_now w)
    | Raise e => (Raise e, after_now w)
    end.
Proof.
  unfold Coordinator._process_response. rewrite bind_datetime_now.
  unfold bind, lift, ret, after_now.
  destruct (Coordinator.add_sources [] (Models.data_series response)); reflexivity.
Qed.

Lemma process_response_ok {R : Runtime} (response : Models.EnergyChartsResponse)
  (w w' : world) (d : Coordinator.structured_data) :
  Coordinator._process_response response w = (Ok d, w') ->
  Coordinator.add_sources [] (Models.data_series response) = Ok (Coordinator.sources d)
  /\ Coordinator.raw_response d = response
  /\ Coordinator.categories d = Coordinator._calculate_categories (Coordinator.sources d)
  /\ Coordinator.aggregated d = Coordinator._calculate_aggregated (Coordinator.sources d)
  /\ w' = after_now w.
Proof.
  rewrite process_response_run.
  destruct (Coordinator.add_sources [] (Models.data_series response)) as [sources_|e];
    [|discriminate].
  intros [= <- <-]. cbn. auto.
Qed.

Lemma process_response_raises {R : Runtime} (response : Models.EnergyChartsResponse)
  (w w' : world) (e : exn) :
  Coordinator._process_response response w = (Raise e, w') ->
  w' = after_now w
  /\ exists series,
       In series (Models.data_series response) /\ is_forecast series = false
       /\ Models.latest_timestamp series = Raise e.
Proof.
  rewrite process_response_run.
  pose proof (add_sources_cases (Models.data_series response) []) as H.
  destruct (Coordinator.add_sources [] (Models.data_series response)) as [sources_|e0];
    [discriminate|].
  intros [= <- <-]. auto.
Qed.

(** X8. [_process_response] returns a snapshot exactly when the latest
    timestamp of every series that is not a forecast converts, and otherwise
    raises what [datetime.fromtimestamp] raised on one of them. In the
    sources of a snapshot the keys are distinct, no key bears a forecast
    marker ([_planned], [forecast]), and each entry records its own key, the
    unit MW, the category of the table for that key ("other" when the table
    lacks it) and the latest value, latest timestamp, names and color of a
    series of the response whose lowercased key is this key. *)
Theorem process_response_sources {R : Runtime} (response : Models.EnergyChartsResponse)
  (w : world) :
  (forall d w',
     Coordinator._process_response response w = (Ok d, w') ->
     Coordinator.raw_response d = response
     /\ NoDup (keys (Coordinator.sources d))
     /\ forall k src, In (k, src) (Coordinator.sources d) ->
          SourceData.key src = k
          /\ SourceData.unit_ src = "MW"
          /\ SourceData.category src = get_default Const.SOURCE_CATEGORIES k "other"
          /\ PyStr.contains "_planned" k = false
          /\ PyStr.contains "forecast" k = false
          /\ exists series,
               In series (Models.data_series response)
               /\ str_lower (Models.key series) = k
               /\ SourceData.value src = Models.latest_value series
               /\ Models.latest_timestamp series = Ok (SourceData.timestamp src)
               /\ SourceData.name_en src = Models.name_en series
               /\ SourceData.name_de src = Models.name_de series
               /\ SourceData.color src = Models.color series)
  /\ ((forall series, In series (Models.data_series response) ->
                      is_forecast series = false ->
                      exists latest_timestamp,
                        Models.latest_timestamp series = Ok latest_timestamp) ->
      exists d w', Coordinator._process_response response w = (Ok d, w'))
  /\ (forall e w',
        Coordinator._process_response response w = (Raise e, w') ->
        (e = ValueError \/ e = OverflowError \/ e = OSError)
        /\ exists series,
             In series (Models.data_series response) /\ is_forecast series = false
             /\ Models.latest_timestamp series = Raise e).
Proof.
  split; [|split].
  - intros d w' H. apply process_response_ok in H as (Hsrc & Hraw & _).
    split; [exact Hraw|].
    apply (add_sources_invariant
             (fun k src =>
                SourceData.key src = k
                /\ SourceData.unit_ src = "MW"
                /\ SourceData.category src = get_default Const.SOURCE_CATEGORIES k "other"
                /\ PyStr.contains "_planned" k = false
                /\ PyStr.contains "forecast" k = false
                /\ exists series,
                     In series (Models.data_series response)
                     /\ str_lower (Models.key series) = k
                     /\ SourceData.value src = Models.latest_value series
                     /\ Models.latest_timestamp series = Ok (SourceData.timestamp src)
                     /\ SourceData.name_en src = Models.name_en series
                     /\ SourceData.name_de src = Models.name_de series
                     /\ SourceData.color src = Models.color series)
             (Models.data_series response)) with (acc := []).
    + intros series ts Hin Hf Hts. unfold is_forecast in Hf. cbv zeta in Hf.
      apply orb_false_elim in Hf as [Hp Hfc].
      repeat split; try assumption.
      exists series. repeat split; assumption.
    + exact Hsrc.
    + constructor.
    + intros k src [].
  - intros H. rewrite process_response_run.
    destruct (add_sources_succeeds (Models.data_series response) [] H) as (d & ->).
    eauto.
  - intros e w' H. apply process_response_raises in H as (_ & series & Hin & Hf & He).
    split; [exact (latest_timestamp_raises _ _ He) | eauto].
Qed.

Lemma process_response_sources_witness :
  (exists d w',
     @Coordinator._process_response ascii_utc Example3.response Example1.serving = (Ok d, w')
     /\ exists src, get (Coordinator.sources d) "fossil_gas" = Some src
                    /\ SourceData.category src = "fossil"
                    /\ SourceData.unit_ src = "MW")
  /\ (exists series,
        In series (Models.data_series far_response)
        /\ @Models.latest_timestamp ascii_utc series = Raise ValueError).
Proof.
  destruct (@process_response_sources ascii_utc Example3.response Example1.serving)
    as (Hall & Hok & _).
  destruct (@process_response_sources ascii_utc far_response Example1.serving)
    as (_ & _ & Hraise).
  split.
  - destruct Hok as (d & w' & H).
    { intros series [<-|[<-|[<-|[]]]] _; eexists; reflexivity. }
    exists d, w'. split; [exact H|].
    destruct (Hall d w' H) as (_ & _ & Hsrc).
    assert (Hd : Coordinator.sources d = Example3.sources).
    { rewrite process_response_run in H. vm_compute in H. injection H as <- _.
      vm_compute. reflexivity. }
    destruct (get (Coordinator.sources d) "fossil_gas") as [src|] eqn:E.
    + exists src. split; [reflexivity|].
      destruct (Hsrc "fossil_gas" src (get_In _ _ _ E)) as (_ & Hu & Hc & _).
      split; [rewrite Hc; reflexivity | exact Hu].
    + rewrite Hd in E. vm_compute in E. discriminate E.
  - destruct (Hraise ValueError (after_now Example1.serving)) as (_ & series & Hin & _ & He);
      [vm_compute; reflexivity|].
    exists series. split; assumption.
Defined.

(** X9. What a source sensor shows: in a snapshot returned by
    [_process_response], the native value for a key is the latest value,
    rounded to two decimals, of the last series of the response stored under
    that key (forecasts are not stored); it is absent when there is no such
    series or when that series has no value. *)
Theorem native_value_is_rounded_latest {R : Runtime}
  (response : Models.EnergyChartsResponse) (w w' : world)
  (d : Coordinator.structured_data) (k : string) :
  Coordinator._process_response response w = (Ok d, w') ->
  Sensor.native_value d k
  = match shown_series response k with
    | Some series => option_map PyFloat.round2 (Models.latest_value series)
    | None => None
    end.
Proof.
  intros H. apply process_response_ok in H as (Hsrc & _).
  pose proof (get_add_sources k _ _ _ Hsrc) as Hget.
  unfold Sensor.native_value, shown_series.
  destruct (find _ _) as [series|].
  - destruct Hget as (ts & _ & ->). reflexivity.
  - rewrite Hget. reflexivity.
Qed.

Lemma native_value_witness :
  Sensor.native_value Example1.base "solar" = Some 2%float.
Proof.
  rewrite (@native_value_is_rounded_latest ascii_utc Example1.solar_response
             (Example1.after_day Example1.serving)
             (Example1.after_process Example1.serving) Example1.base "solar").
  - vm_compute. reflexivity.
  - vm_compute. reflexivity.
Defined.

Lemma sum_members_skip (sources_ : dict SourceData.t) (k : string) (rest : list string) :
  get sources_ k = None ->
  Coordinator.sum_members sources_ (k :: rest) = Coordinator.sum_members sources_ rest.
Proof.
  intros H. unfold Coordinator.sum_members. cbn [fold_left].
  unfold Coordinator.add_member at 2. rewrite H. reflexivity.
Qed.

Lemma add_sources_plain_keys {R : Runtime} (l : list Models.EnergyDataSeries)
  (d : dict SourceData.t) (k : string) :
  Coordinator.add_sources [] l = Ok d ->
  (forall series, In series l -> str_lower (Models.key series) <> k) ->
  get d k = None.
Proof.
  intros H Hk. pose proof (get_add_sources k _ _ _ H) as Hget.
  destruct (find _ _) as [series|] eqn:E; [|exact Hget].
  apply find_some in E as [Hin E]. apply andb_prop in E as [E _].
  apply String.eqb_eq in E. exfalso. apply in_rev in Hin. exact (Hk series Hin E).
Qed.

(** X10. Three entries of the tables are out of reach for the names the API
    serves: in a snapshot of a response whose English names are ASCII no
    source stands under ["hydro_run-of-river"], ["fossil_brown_coal/lignite"]
    or ["fossil_coal-derived_gas"], because a key never holds ["-"] or
    ["/"]. So the hydro total only adds the reservoir and pumped-storage
    sources; and a series named "Hydro Run-of-River", stored under
    [hydro_run_of_river], is categorised "other" and enters neither the
    renewable total nor the hydro total. *)
Theorem table_keys_with_separators_unreachable {R : Runtime}
  (response : Models.EnergyChartsResponse) (w : world) :
  (forall d w',
     (forall series, In series (Models.data_series response) ->
                     PyStr.isascii (Models.name_en series) = true) ->
     Coordinator._process_response response w = (Ok d, w') ->
     get (Coordinator.sources d) "hydro_run-of-river" = None
     /\ get (Coordinator.sources d) "fossil_brown_coal/lignite" = None
     /\ get (Coordinator.sources d) "fossil_coal-derived_gas" = None
     /\ get (Coordinator.categories d) "hydro_total"
        = Some (PyFloat.round2
                  (Coordinator.sum_members (Coordinator.sources d)
                     ["hydro_water_reservoir"; "hydro_pumped_storage"])))
  /\ (forall d w',
        Coordinator._process_response run_of_river_response w = (Ok d, w') ->
        option_map SourceData.category (get (Coordinator.sources d) "hydro_run_of_river")
          = Some "other"
        /\ get (Coordinator.aggregated d) "total_production" = Some 7%float
        /\ get (Coordinator.aggregated d) "total_renewable" = Some 0%float
        /\ get (Coordinator.categories d) "hydro_total" = Some 0%float).
Proof.
  split.
  - intros d w' Hascii H. apply process_response_ok in H as (Hsrc & _ & Hcat & _).
    assert (Hplain : forall k,
               Reference.all_chars (fun c => negb (Reference.is_separator c)) k = false ->
               get (Coordinator.sources d) k = None).
    { intros k Hk. apply (add_sources_plain_keys _ _ _ Hsrc).
      intros series Hin. rewrite (key_lower_fixed _ (Hascii _ Hin)).
      apply key_not_with_separator. exact Hk. }
    assert (H1 : get (Coordinator.sources d) "hydro_run-of-river" = None)
      by (apply Hplain; reflexivity).
    split; [exact H1|].
    split; [apply Hplain; reflexivity|].
    split; [apply Hplain; reflexivity|].
    rewrite Hcat. unfold Coordinator._calculate_categories. cbv zeta.
    rewrite (sum_members_skip _ "hydro_run-of-river" _ H1). reflexivity.
  - intros d w' H. apply process_response_ok in H as (Hsrc & _ & Hcat & Hagg & _).
    assert (Hkey : Models.key (Example3.series "Hydro Run-of-River" [Some 7%float])
                   = "hydro_run_of_river").
    { rewrite key_ascii_name by reflexivity. vm_compute. reflexivity. }
    assert (Hlow : str_lower "hydro_run_of_river" = "hydro_run_of_river")
      by (rewrite str_lower_ascii by reflexivity; reflexivity).
    assert (Hd : Coordinator.sources d
                 = [("hydro_run_of_river",
                     {| SourceData.value := Some 7%float;
                        SourceData.unit_ := "MW";
                        SourceData.timestamp := None;
                        SourceData.name_en := "Hydro Run-of-River";
                        SourceData.name_de := "Unbekannt";
                        SourceData.color := "#000000";
                        SourceData.category := "other";
                        SourceData.key := "hydro_run_of_river" |})]).
    { revert Hsrc. unfold run_of_river_response. cbn [Models.data_series Coordinator.add_sources].
      unfold Coordinator.add_source. cbv zeta. rewrite Hkey, Hlow.
      cbn. intros [= <-]. reflexivity. }
    rewrite Hagg, Hcat, Hd. vm_compute. repeat split.
Qed.

Lemma table_keys_witness :
  exists d w',
    @Coordinator._process_response ascii_utc run_of_river_response Example1.serving
      = (Ok d, w')
    /\ get (Coordinator.sources d) "hydro_run-of-river" = None
    /\ get (Coordinator.categories d) "hydro_total" = Some 0%float.
Proof.
  destruct (@table_keys_with_separators_unreachable ascii_utc run_of_river_response
              Example1.serving) as (Hgen & Hex).
  destruct (@Coordinator._process_response ascii_utc run_of_river_response Example1.serving)
    as [[d|e] w'] eqn:E; [|vm_compute in E; discriminate E].
  exists d, w'. split; [reflexivity|].
  destruct (Hgen d w') as (H1 & _); [intros series [<-|[]]; reflexivity | reflexivity |].
  destruct (Hex d w' eq_refl) as (_ & _ & _ & H4).
  split; assumption.
Defined.

(** ** coordinator.py: what the totals depend on *)

Lemma sum_members_ext (s1 s2 : dict SourceData.t) (members : list string) :
  (forall k, In k members -> get s1 k = get s2 k) ->
  Coordinator.sum_members s1 members = Coordinator.sum_members s2 members.
Proof.
  unfold Coordinator.sum_members. generalize 0%float as total.
  induction members as [|k rest IH]; intros total H; [reflexivity|].
  cbn [fold_left].
  assert (Hk : Coordinator.add_member s1 total k = Coordinator.add_member s2 total k).
  { unfold Coordinator.add_member. rewrite (H k (or_introl eq_refl)). reflexivity. }
  rewrite Hk. apply IH. intros k' Hin. apply H. right. exact Hin.
Qed.

(** X11. The category totals read the member sources only: two source
    mappings that agree on the member keys of the four groups have the same
    category totals, so adding, removing or changing any other source leaves
    them unchanged. *)
Theorem categories_depend_on_members_only (s1 s2 : dict SourceData.t) :
  (forall k, In k category_members -> get s1 k = get s2 k) ->
  Coordinator._calculate_categories s1 = Coordinator._calculate_categories s2
  /\ forall k d, ~ In k category_members ->
       Coordinator._calculate_categories (set s1 k d) = Coordinator._calculate_categories s2.
Proof.
  intros H.
  assert (Hgen : forall a b : dict SourceData.t,
             (forall k, In k category_members -> get a k = get b k) ->
             Coordinator._calculate_categories a = Coordinator._calculate_categories b).
  { intros a b Hab. unfold Coordinator._calculate_categories. cbv zeta.
    rewrite (sum_members_ext a b ["photovoltaic"; "solar"]),
            (sum_members_ext a b ["wind_onshore"; "wind_offshore"]),
            (sum_members_ext a b ["hydro_run-of-river"; "hydro_water_reservoir";
                                  "hydro_pumped_storage"]),
            (sum_members_ext a b Const.FOSSIL_SOURCES);
      [reflexivity | | | |];
      intros k Hk; apply Hab; unfold category_members; cbn in *; tauto. }
  split; [apply Hgen; exact H|].
  intros k d Hk. apply Hgen. intros k' Hin.
  rewrite get_set_other; [apply H; exact Hin|]. intros ->. contradiction.
Qed.

Lemma categories_depend_on_members_only_witness :
  Coordinator._calculate_categories Example3.sources
  = Coordinator._calculate_categories
      (Example3.sources ++ [Sums.source (Some 3%float) "other" "load"])%list.
Proof.
  refine (proj1 (categories_depend_on_members_only Example3.sources
                   (Example3.sources ++ [Sums.source (Some 3%float) "other" "load"])%list
                   _)).
  intros k Hk. unfold category_members, Const.FOSSIL_SOURCES in Hk.
  cbn [app In] in Hk.
  repeat (destruct Hk as [<-|Hk]; [vm_compute; reflexivity|]). destruct Hk.
Defined.

Lemma accumulate_none (acc : Coordinator.totals) (item : string * SourceData.t) :
  SourceData.value (snd item) = None -> Coordinator.accumulate acc item = acc.
Proof. unfold Coordinator.accumulate. intros ->. reflexivity. Qed.

(** X12. A source without a value takes no part in the aggregated totals:
    the result is the one of the mapping with those sources removed. *)
Theorem aggregated_ignores_absent_values (sources_ : dict SourceData.t) :
  Coordinator._calculate_aggregated
    (filter (fun item : string * SourceData.t =>
               match SourceData.value (snd item) with
               | Some _ => true
               | None => false
               end) sources_)
  = Coordinator._calculate_aggregated sources_.
Proof.
  assert (H : forall acc,
             fold_left Coordinator.accumulate
               (filter (fun item : string * SourceData.t =>
                          match SourceData.value (snd item) with
                          | Some _ => true
                          | None => false
                          end) sources_) acc
             = fold_left Coordinator.accumulate sources_ acc).
  { induction sources_ as [|item rest IH]; intros acc; [reflexivity|].
    cbn [filter fold_left].
    destruct (SourceData.value (snd item)) eqn:E; cbn [fold_left]; [apply IH|].
    rewrite (accumulate_none acc item E). apply IH. }
  unfold Coordinator._calculate_aggregated, Coordinator.accumulate_all.
  rewrite H. reflexivity.
Qed.

(** ** api.py: how a request ends *)

Lemma classify_records (o : http_outcome) (e : exn) :
  Api.classify o = Api.Records e -> recordable e.
Proof.
  unfold recordable. destruct o as [| | |status body]; cbn; try (intros [= <-]; tauto).
  destruct (status =? 404)%Z; [discriminate|].
  destruct (400 <=? status)%Z; [intros [= <-]; tauto|].
  destruct body; intros [= <-]; tauto.
Qed.

Lemma classify_returns (o : http_outcome) (data : list json) :
  Api.classify o = Api.Returns data ->
  exists status, o = Responds status (JList data) /\ status <> 404%Z /\ (status < 400)%Z.
Proof.
  destruct o as [| | |status body]; cbn; try discriminate.
  destruct (status =? 404)%Z eqn:E4; [discriminate|].
  destruct (400 <=? status)%Z eqn:E; [discriminate|].
  destruct body; try discriminate. intros [= <-].
  exists status. apply Z.eqb_neq in E4. apply Z.leb_gt in E. auto.
Qed.

Lemma classify_propagates (o : http_outcome) (e : exn) :
  Api.classify o = Api.Propagates e ->
  e = EnergyChartsNotFoundError /\ exists body, o = Responds 404 body.
Proof.
  destruct o as [| | |status body]; cbn; try discriminate.
  destruct (status =? 404)%Z eqn:E4.
  - apply Z.eqb_eq in E4. subst status. intros [= <-]. eauto.
  - destruct (400 <=? status)%Z; [discriminate|]. destruct body; discriminate.
Qed.

Lemma float_of_pow2 (a : nat) :
  (a < 1024)%nat -> exists p, PyFloat.float_of_int (2 ^ Z.of_nat a) = Some p.
Proof.
  intros Ha.
  assert (H : forallb (fun n => match PyFloat.float_of_int (2 ^ Z.of_nat n) with
                                | Some _ => true
                                | None => false
                                end) (seq 0 1024) = true) by (vm_compute; reflexivity).
  rewrite forallb_forall in H. specialize (H a ltac:(apply in_seq; lia)).
  destruct (PyFloat.float_of_int (2 ^ Z.of_nat a)) as [p|]; [eauto | discriminate].
Qed.

Lemma wait_time_ok (b : float) (attempt : Z) :
  (0 <= attempt < 1024)%Z -> exists t, Api.wait_time b attempt = Ok t.
Proof.
  intros Ha. unfold Api.wait_time.
  destruct (float_of_pow2 (Z.to_nat attempt) ltac:(lia)) as (p & Hp).
  rewrite Z2Nat.id in Hp by lia. rewrite Hp. cbn. eauto.
Qed.

Lemma after_gets (w : world) (n : nat) (evs : list event) :
  gets (after w n evs) = (n + gets w)%nat /\ http (after w n evs) = http w.
Proof. split; reflexivity. Qed.

(** When every attempt records a failure, the loop uses all its rounds. *)
Lemma attempts_exhaust (url : string) (retries : Z) (b : float) :
  (retries <= 1025)%Z ->
  forall (k : nat) (attempt : Z) (last : option exn) (w : world),
    (Z.of_nat (S k) + attempt = retries)%Z -> (0 <= attempt)%Z ->
    (forall i, (i <= k)%nat ->
               exists e, Api.classify (http w (i + gets w)%nat url) = Api.Records e) ->
    exists e evs,
      Api.attempts url retries b (S k) attempt last w = (Raise e, after w (S k) evs)
      /\ Api.classify (http w (k + gets w)%nat url) = Api.Records e
      /\ length (filter is_sleep evs) = k
      /\ length evs = (2 * k + 1)%nat.
Proof.
  intros Hmax. induction k as [|k IH]; intros attempt last w Hinv Ha Hfail.
  - destruct (Hfail 0%nat (le_n _)) as (e & He). cbn [Nat.add] in He.
    rewrite attempts_step. cbv zeta. rewrite He.
    replace (attempt <? retries - 1)%Z with false by (symmetry; apply Z.ltb_ge; lia).
    cbn [Api.attempts]. unfold raise.
    eexists. eexists. split; [reflexivity|]. cbn. auto.
  - destruct (Hfail 0%nat ltac:(lia)) as (e0 & He0). cbn [Nat.add] in He0.
    rewrite attempts_step. cbv zeta. rewrite He0.
    replace (attempt <? retries - 1)%Z with true by (symmetry; apply Z.ltb_lt; lia).
    destruct (wait_time_ok b attempt ltac:(lia)) as (t & Ht). rewrite Ht.
    set (g := Get url (Const.API_TIMEOUT * (attempt + 1))).
    destruct (IH (attempt + 1)%Z (Some e0) (after w 1 [g; Sleep t]) ltac:(lia) ltac:(lia))
      as (e & evs & Hrun & Hlast & Hsl & Hlen).
    { intros i Hi. destruct (Hfail (S i) ltac:(lia)) as (e & He). exists e.
      cbn [http gets after]. replace (i + (1 + gets w))%nat with (S i + gets w)%nat by lia.
      exact He. }
    exists e, ([g; Sleep t] ++ evs)%list. rewrite Hrun, after_after.
    replace (S k + 1)%nat with (S (S k)) by lia.
    split; [reflexivity|]. split; [|split].
    + cbn [http gets after] in Hlast.
      replace (k + (1 + gets w))%nat with (S k + gets w)%nat in Hlast by lia. exact Hlast.
    + cbn [app filter is_sleep g length]. lia.
    + cbn [app length]. lia.
Qed.

(** X13. When every one of the [retries] attempts (1 to 1025 of them) ends in
    a failure that is recorded, the request raises the failure of the last
    attempt, after exactly [retries] requests and [retries - 1] sleeps. With
    no attempt allowed ([retries <= 0]) it raises the connection failure
    without issuing a request. *)
Theorem make_request_exhausted (self : Api.EnergyChartsApiClient) (endpoint : string)
  (retries : Z) (b : float) (w : world) :
  ((1 <= retries <= 1025)%Z ->
   (forall i, (i < Z.to_nat retries)%nat ->
              exists e, Api.classify (http w (i + gets w)%nat (url_of self endpoint))
                        = Api.Records e) ->
   exists e evs,
     Api._make_request self endpoint retries b w
       = (Raise e, after w (Z.to_nat retries) evs)
     /\ Api.classify (http w (Z.to_nat retries - 1 + gets w)%nat (url_of self endpoint))
        = Api.Records e
     /\ recordable e
     /\ length (filter is_sleep evs) = (Z.to_nat retries - 1)%nat
     /\ length evs = (2 * Z.to_nat retries - 1)%nat)
  /\ ((retries <= 0)%Z ->
      Api._make_request self endpoint retries b w = (Raise EnergyChartsConnectionError, w)).
Proof.
  unfold Api._make_request. fold (url_of self endpoint). split.
  - intros Hr Hfail.
    destruct (Z.to_nat retries) as [|k] eqn:Ek; [lia|].
    destruct (attempts_exhaust (url_of self endpoint) retries b ltac:(lia) k 0%Z None w
                ltac:(lia) ltac:(lia)) as (e & evs & Hrun & Hlast & Hsl & Hlen).
    { intros i Hi. apply Hfail. lia. }
    exists e, evs. replace (S k - 1)%nat with k by lia.
    split; [exact Hrun|]. split; [exact Hlast|].
    split; [exact (classify_records _ _ Hlast)|]. split; [exact Hsl | lia].
  - intros Hr. replace (Z.to_nat retries) with 0%nat by lia. reflexivity.
Qed.

Lemma make_request_exhausted_witness :
  exists e evs,
    Api._make_request Example2.client "week_2026_45.json" 3 1%float
      {| http := fun _ _ => RaisesTimeout;
         clock := fun _ => Example1.today; gets := 0; nows := 0; trace := [] |}
    = (Raise e,
       after {| http := fun _ _ => RaisesTimeout;
                clock := fun _ => Example1.today; gets := 0; nows := 0; trace := [] |}
         3 evs)
    /\ recordable e.
Proof.
  destruct (make_request_exhausted Example2.client "week_2026_45.json" 3 1%float
              {| http := fun _ _ => RaisesTimeout;
                 clock := fun _ => Example1.today; gets := 0; nows := 0; trace := [] |})
    as (H & _).
  destruct H as (e & evs & Hrun & _ & Hrec & _); [lia | |].
  - intros i _. exists EnergyChartsTimeoutError. reflexivity.
  - exists e, evs. split; [exact Hrun | exact Hrec].
Defined.

(** What the result of the retry loop says about the last request. *)
Lemma attempts_outcome (url : string) (retries : Z) (b : float) :
  forall (k : nat) (attempt : Z) (last : option exn) (w : world),
    (0 <= attempt)%Z ->
    (forall e, last = Some e -> recordable e) ->
    exists r n evs,
      Api.attempts url retries b k attempt last w = (r, after w n evs)
      /\ (n <= k)%nat
      /\ match r with
         | Ok data =>
             exists m status,
               n = S m /\ http w (m + gets w)%nat url = Responds status (JList data)
               /\ status <> 404%Z /\ (status < 400)%Z
         | Raise e =>
             (e = EnergyChartsNotFoundError
              /\ exists m body, n = S m /\ http w (m + gets w)%nat url = Responds 404 body)
             \/ (e = OverflowError /\ (1026 <= retries)%Z)
             \/ (recordable e /\ n = k)
         end.
Proof.
  induction k as [|k IH]; intros attempt last w Ha Hlast.
  - cbn [Api.attempts]. destruct last as [e|].
    + exists (Raise e), 0%nat, []. rewrite after_0_nil. split; [reflexivity|].
      split; [lia|]. right. right. split; [apply Hlast; reflexivity | reflexivity].
    + exists (Raise EnergyChartsConnectionError), 0%nat, []. rewrite after_0_nil.
      split; [reflexivity|]. split; [lia|]. right. right.
      split; [left; reflexivity | reflexivity].
  - rewrite attempts_step. cbv zeta.
    set (g := Get url (Const.API_TIMEOUT * (attempt + 1))).
    destruct (Api.classify (http w (gets w) url)) as [data|e|e] eqn:Hc.
    + apply classify_returns in Hc as (status & Ho & H4 & Hs).
      exists (Ok data), 1%nat, [g]. split; [reflexivity|]. split; [lia|].
      exists 0%nat, status. cbn [Nat.add]. auto.
    + apply classify_propagates in Hc as (-> & body & Ho).
      exists (Raise EnergyChartsNotFoundError), 1%nat, [g]. split; [reflexivity|].
      split; [lia|]. left. split; [reflexivity|]. exists 0%nat, body. cbn [Nat.add]. auto.
    + pose proof (classify_records _ _ Hc) as Hrec.
      assert (Hnext : forall w1 evs1,
                 gets w1 = S (gets w) -> http w1 = http w ->
                 (forall r n evs,
                    Api.attempts url retries b k (attempt + 1) (Some e) w1
                      = (r, after w1 n evs) -> after w1 n evs = after w (n + 1) (evs1 ++ evs)) ->
                 exists r n evs,
                   Api.attempts url retries b k (attempt + 1) (Some e) w1
                     = (r, after w n evs)
                   /\ (n <= S k)%nat
                   /\ match r with
                      | Ok data =>
                          exists m status,
                            n = S m
                            /\ http w (m + gets w)%nat url = Responds status (JList data)
                            /\ status <> 404%Z /\ (status < 400)%Z
                      | Raise e' =>
                          (e' = EnergyChartsNotFoundError
                           /\ exists m body,
                                n = S m /\ http w (m + gets w)%nat url = Responds 404 body)
                          \/ (e' = OverflowError /\ (1026 <= retries)%Z)
                          \/ (recordable e' /\ n = S k)
                      end).
      { intros w1 evs1 Hg Hh Hafter.
        destruct (IH (attempt + 1)%Z (Some e) w1 ltac:(lia)) as (r & n & evs & Hrun & Hn & Hr).
        { intros e' [= <-]. exact Hrec. }
        exists r, (n + 1)%nat, (evs1 ++ evs)%list.
        rewrite Hrun, (Hafter r n evs Hrun). split; [reflexivity|]. split; [lia|].
        rewrite Hg, Hh in Hr.
        destruct r as [data|e'].
        - destruct Hr as (m & status & -> & Ho & H4 & Hs).
          exists (S m), status. split; [lia|].
          replace (S m + gets w)%nat with (m + S (gets w))%nat by lia. auto.
        - destruct Hr as [(-> & m & body & -> & Ho)|[Hov|(Hre & ->)]].
          + left. split; [reflexivity|]. exists (S m), body. split; [lia|].
            replace (S m + gets w)%nat with (m + S (gets w))%nat by lia. exact Ho.
          + right. left. exact Hov.
          + right. right. split; [exact Hre | lia]. }
      destruct (attempt <? retries - 1)%Z eqn:Hlt.
      * destruct (Api.wait_time b attempt) as [t|e'] eqn:Hw.
        -- apply (Hnext (after w 1 [g; Sleep t]) [g; Sleep t]); try reflexivity.
           intros r n evs _. apply after_after.
        -- exists (Raise e'), 1%nat, [g]. split; [reflexivity|]. split; [lia|].
           right. left. apply Z.ltb_lt in Hlt.
           destruct (Z_lt_ge_dec attempt 1024) as [Hsmall|Hbig].
           ++ destruct (wait_time_ok b attempt ltac:(lia)) as (t & Ht). congruence.
           ++ unfold Api.wait_time in Hw.
              destruct (PyFloat.float_of_int (2 ^ attempt)); cbn in Hw; [discriminate|].
              injection Hw as <-. split; [reflexivity | lia].
      * apply (Hnext (after w 1 [g]) [g]); try reflexivity.
        intros r n evs _. apply after_after.
Qed.

(** X14. Where the result of a request comes from: a body returned is the
    list the last request was answered with, under a status below 400; the
    not-found failure means that the last request was answered 404; any other
    exception is one of the connection, timeout and data failures, raised
    after all [retries] attempts were used — apart from the overflow of the
    backoff computation, which takes at least 1026 attempts. At most
    [retries] requests are issued. *)
Theorem make_request_result_provenance (self : Api.EnergyChartsApiClient)
  (endpoint : string) (retries : Z) (b : float) (w : world) :
  exists r n evs,
    Api._make_request self endpoint retries b w = (r, after w n evs)
    /\ (n <= Z.to_nat retries)%nat
    /\ match r with
       | Ok data =>
           exists m status,
             n = S m
             /\ http w (m + gets w)%nat (url_of self endpoint) = Responds status (JList data)
             /\ status <> 404%Z /\ (status < 400)%Z
       | Raise e =>
           (e = EnergyChartsNotFoundError
            /\ exists m body,
                 n = S m
                 /\ http w (m + gets w)%nat (url_of self endpoint) = Responds 404 body)
           \/ (e = OverflowError /\ (1026 <= retries)%Z)
           \/ (recordable e /\ n = Z.to_nat retries)
       end.
Proof.
  unfold Api._make_request. fold (url_of self endpoint).
  apply attempts_outcome; [lia | discriminate].
Qed.

(** ** api.py and coordinator.py: what an operation costs *)

Lemma within_refl (w : world) : within 0 0 w w.
Proof.
  repeat split; try lia. exists []. rewrite app_nil_r. split; [reflexivity | cbn; lia].
Qed.

Lemma within_weaken (g s g' s' : nat) (w w' : world) :
  (g <= g')%nat -> (s <= s')%nat -> within g s w w' -> within g' s' w w'.
Proof.
  intros Hg Hs (Hh & Hc & Hn & evs & Ht & Hl).
  repeat split; try assumption; try lia. exists evs. split; [exact Ht | lia].
Qed.

Lemma within_trans (g1 s1 g2 s2 : nat) (w1 w2 w3 : world) :
  within g1 s1 w1 w2 -> within g2 s2 w2 w3 -> within (g1 + g2) (s1 + s2) w1 w3.
Proof.
  intros (Hh & Hc & Hn & evs & Ht & Hl) (Hh' & Hc' & Hn' & evs' & Ht' & Hl').
  repeat split; try congruence; try lia.
  exists (evs ++ evs')%list. rewrite Ht', Ht, <- app_assoc. split; [reflexivity|].
  rewrite filter_app, length_app. lia.
Qed.

Lemma within_after (g s n : nat) (w : world) (evs : list event) :
  (n <= g)%nat -> (length (filter is_sleep evs) <= s)%nat -> within g s w (after w n evs).
Proof.
  intros Hn Hs. repeat split; cbn; try lia. exists evs. auto.
Qed.

Lemma within_bind {A B : Type} (g1 s1 g2 s2 : nat) (m : M A) (k : A -> M B) (w : world) :
  within g1 s1 w (snd (m w)) ->
  (forall a w1, within g2 s2 w1 (snd (k a w1))) ->
  within (g1 + g2) (s1 + s2) w (snd (bind m k w)).
Proof.
  intros Hm Hk. unfold bind. destruct (m w) as [[a|e] w1]; cbn [snd] in *.
  - eapply within_trans; [exact Hm | apply Hk].
  - eapply within_weaken; [| |exact Hm]; lia.
Qed.

Lemma within_try_except {A : Type} (g1 s1 g2 s2 : nat) (m : M A) (h : exn -> M A)
  (w : world) :
  within g1 s1 w (snd (m w)) ->
  (forall e w1, within g2 s2 w1 (snd (h e w1))) ->
  within (g1 + g2) (s1 + s2) w (snd (try_except m h w)).
Proof.
  intros Hm Hh. unfold try_except. destruct (m w) as [[a|e] w1]; cbn [snd] in *.
  - eapply within_weaken; [| |exact Hm]; lia.
  - eapply within_trans; [exact Hm | apply Hh].
Qed.

Lemma within_now (w : world) : within 0 0 w (snd (datetime_now w)).
Proof.
  repeat split; cbn; try lia. exists []. rewrite app_nil_r. split; [reflexivity | cbn; lia].
Qed.

Lemma make_request_default_within (self : Api.EnergyChartsApiClient) (endpoint : string)
  (w : world) :
  within 3 2 w (snd (Api._make_request self endpoint Api.default_retries
                       Api.default_backoff_factor w)).
Proof.
  unfold Api._make_request.
  destruct (attempts_trace (Api._base_url self ++ "/" ++ Api._country self ++ "/" ++ endpoint)
              Api.default_retries Api.default_backoff_factor
              (Z.to_nat Api.default_retries) 0 None w eq_refl)
    as (n & evs & Hsnd & Hn & _ & Hshape).
  rewrite Hsnd. change (Z.to_nat Api.default_retries) with 3%nat in *.
  cbn iota in Hshape. apply within_after; [exact Hn | tauto].
Qed.

Section Budget.
Context {V : Validator}.

Lemma fetch_within (self : Api.EnergyChartsApiClient) (w : world) :
  within 3 2 w (snd (Api.get_current_day self w))
  /\ within 3 2 w (snd (Api.get_current_week self w))
  /\ within 3 2 w (snd (Api.get_current_month self w)).
Proof.
  assert (H : forall endpoint : datetime -> string,
             within 3 2 w
               (snd (bind datetime_now
                       (fun now =>
                          bind (Api._make_request self (endpoint now) Api.default_retries
                                  Api.default_backoff_factor)
                            (fun data => lift (Models.from_api_response data))) w))).
  { intros endpoint.
    apply (within_bind 0 0 3 2); [apply within_now|]. intros now w1.
    apply (within_bind 3 2 0 0); [apply make_request_default_within|].
    intros data w2. apply within_refl. }
  split; [|split].
  - unfold Api.get_current_day.
    specialize (H (fun now =>
                   let '(y, wk, _) := PyDatetime.isocalendar now in
                   "week_" ++ PyStr.str_of_int y ++ "_" ++ PyStr.format_02d wk ++ ".json")).
    unfold bind in *. cbn in *.
    destruct (PyDatetime.isocalendar (clock w (nows w))) as [[y wk] wd]. exact H.
  - unfold Api.get_current_week.
    specialize (H (fun now =>
                   let '(y, wk, _) := PyDatetime.isocalendar now in
                   "week_" ++ PyStr.str_of_int y ++ "_" ++ PyStr.format_02d wk ++ ".json")).
    unfold bind in *. cbn in *.
    destruct (PyDatetime.isocalendar (clock w (nows w))) as [[y wk] wd]. exact H.
  - exact (H (fun now => "month_" ++ PyStr.str_of_int (year now) ++ "_"
                           ++ PyStr.format_02d (month now) ++ ".json")).
Qed.

End Budget.

Section RefreshProperties.
Context {V : Validator} {R : Runtime}.

Lemma fetch_historical_within (self : Coordinator.EnergyChartsDataUpdateCoordinator)
  (range : string) (w : world) :
  within 3 2 w (snd (Coordinator._fetch_historical_data self range w)).
Proof.
  unfold Coordinator._fetch_historical_data. cbv zeta.
  assert (Hrun : forall get_response : M Models.EnergyChartsResponse,
             within 3 2 w (snd (get_response w)) ->
             within 3 2 w
               (snd (try_except
                       (bind get_response (fun response =>
                          match Coordinator.convert_series []
                                  (Models.data_series response) with
                          | (h, None) => ret h
                          | (h, Some e) => try_except (raise e) (fun _ => ret h)
                          end))
                       (fun _ => ret []) w))).
  { intros get_response Hget.
    apply (within_try_except 3 2 0 0); [|intros e w1; apply within_refl].
    apply (within_bind 3 2 0 0); [exact Hget|].
    intros response w1.
    destruct (Coordinator.convert_series [] (Models.data_series response)) as [h [e|]];
      apply within_refl. }
  destruct (fetch_within (Coordinator.api_client self) w) as (Hd & Hw & Hm).
  destruct (String.eqb range "day"); [apply Hrun; exact Hd|].
  destruct (String.eqb range "week"); [apply Hrun; exact Hw|].
  destruct (String.eqb range "month"); [apply Hrun; exact Hm|].
  eapply within_weaken; [| |apply within_refl]; lia.
Qed.

(** X15. A refresh costs at most six requests and four backoff sleeps, three
    and two for each of its two fetches; each fetch of the client, the
    connection test and the historical fetch cost at most three requests and
    two sleeps. *)
Theorem refresh_request_budget (self : Coordinator.EnergyChartsDataUpdateCoordinator)
  (range : string) (w : world) :
  within 6 4 w (snd (Coordinator._async_update_data self w))
  /\ within 3 2 w (snd (Coordinator._fetch_historical_data self range w))
  /\ within 3 2 w (snd (Api.get_current_day (Coordinator.api_client self) w))
  /\ within 3 2 w (snd (Api.get_current_week (Coordinator.api_client self) w))
  /\ within 3 2 w (snd (Api.get_current_month (Coordinator.api_client self) w))
  /\ within 3 2 w (snd (Api.test_connection (Coordinator.api_client self) w)).
Proof.
  destruct (fetch_within (Coordinator.api_client self) w) as (Hd & Hw & Hm).
  split; [|split; [apply fetch_historical_within|
                   split; [exact Hd|split; [exact Hw|split; [exact Hm|]]]]].
  - unfold Coordinator._async_update_data.
    apply (within_try_except 6 4 0 0); [|intros e w1; apply within_refl].
    apply (within_bind 3 2 3 2); [exact Hd|]. intros response w1.
    apply (within_bind 0 0 3 2).
    + unfold Coordinator._process_response.
      apply (within_bind 0 0 0 0); [apply within_now|]. intros now w2.
      apply (within_bind 0 0 0 0); [apply within_refl|]. intros sources_ w3.
      apply within_refl.
    + intros structured w2.
      destruct (negb _).
      * apply (within_bind 3 2 0 0); [apply fetch_historical_within|].
        intros h w3. apply within_refl.
      * eapply within_weaken; [| |apply within_refl]; lia.
  - unfold Api.test_connection.
    apply (within_try_except 3 2 0 0); [|intros e w1; apply within_refl].
    apply (within_bind 3 2 0 0); [exact Hd|]. intros r w1. apply within_refl.
Qed.

(** X16. The connection test never raises. It answers [True] exactly when
    the day-window fetch returns a response, and then one of its at most three
    requests, sent to the week file of the clock reading, was answered with a
    list under a status below 400 that the normalizer accepted; any failure
    of the fetch, the not-found failure and a refused body included, is
    answered [False]. The world is left as the fetch left it. *)
Theorem test_connection_reduces_failure (self : Api.EnergyChartsApiClient) (w : world) :
  exists answer,
    Api.test_connection self w = (Ok answer, snd (Api.get_current_day self w))
    /\ (answer = true <-> exists r, fst (Api.get_current_day self w) = Ok r)
    /\ (answer = true ->
        exists m status data r,
          (m < 3)%nat
          /\ http w (m + gets w)%nat
               (url_of self (week_endpoint (clock w (nows w))))
             = Responds status (JList data)
          /\ (status < 400)%Z
          /\ Models.from_api_response data = Ok r).
Proof.
  unfold Api.test_connection, try_except. unfold bind at 1.
  destruct (Api.get_current_day self w) as [[r|e] w'] eqn:Hday; cbn [fst snd].
  - exists true. unfold ret. split; [reflexivity|]. split; [split; eauto|].
    intros _. revert Hday. unfold Api.get_current_day. rewrite bind_datetime_now.
    unfold week_endpoint.
    destruct (PyDatetime.isocalendar (clock w (nows w))) as [[iso_year iso_week] wd].
    set (endpoint := "week_" ++ PyStr.str_of_int iso_year ++ "_"
                       ++ PyStr.format_02d iso_week ++ ".json").
    set (w1 := {| http := http w; clock := clock w; gets := gets w;
                  nows := S (nows w); trace := trace w |}).
    unfold Api._make_request. fold (url_of self endpoint).
    destruct (attempts_outcome (url_of self endpoint) Api.default_retries
                Api.default_backoff_factor (Z.to_nat Api.default_retries) 0 None w1
                ltac:(lia) ltac:(discriminate)) as (res & n & evs & Hrun & Hn & Hres).
    unfold bind. rewrite Hrun. destruct res as [data|e]; [|discriminate].
    unfold lift. intros [= Hparse _].
    destruct Hres as (m & status & -> & Ho & _ & Hs).
    exists m, status, data, r. change (Z.to_nat Api.default_retries) with 3%nat in Hn.
    split; [lia|]. auto.
  - exists false. unfold ret. split; [reflexivity|].
    split; [split; [discriminate | intros (r & [=])] | discriminate].
Qed.

(** X17. A refresh raises nothing but the update failure. When the
    day-window fetch raises, the refresh raises the update failure whose
    message names the kind of the failure: connection, timeout, data, and
    "unexpected" for anything else, the not-found failure included; no
    snapshot is built and no historical fetch is attempted then. When the
    fetch returns a response but [_process_response] raises on it (a latest
    timestamp that [datetime.fromtimestamp] refuses), the refresh raises the
    "unexpected" update failure, again without a historical fetch. When
    [_process_response] returns a snapshot, the refresh returns it, with at
    most its history replaced. *)
Theorem refresh_raises_update_failed_only
  (self : Coordinator.EnergyChartsDataUpdateCoordinator) (w : world) :
  match Api.get_current_day (Coordinator.api_client self) w with
  | (Raise e, w1) =>
      Coordinator._async_update_data self w
      = (Raise (UpdateFailed
                  match e with
                  | EnergyChartsConnectionError => "Connection error"
                  | EnergyChartsTimeoutError => "Timeout error"
                  | EnergyChartsDataError => "Data error"
                  | _ => "Unexpected error"
                  end), w1)
  | (Ok response, w1) =>
      match Coordinator._process_response response w1 with
      | (Raise e, w2) =>
          Coordinator._async_update_data self w
          = (Raise (UpdateFailed "Unexpected error"), w2)
      | (Ok base, w2) =>
          exists h w',
            Coordinator._async_update_data self w = (Ok (Coordinator.set_history base h), w')
            /\ Coordinator.raw_response (Coordinator.set_history base h) = response
      end
  end
  /\ forall e w', Coordinator._async_update_data self w = (Raise e, w') ->
                  exists message, e = UpdateFailed message.
Proof.
  assert (Hmain :
    match Api.get_current_day (Coordinator.api_client self) w with
    | (Raise e, w1) =>
        Coordinator._async_update_data self w
        = (Raise (UpdateFailed
                    match e with
                    | EnergyChartsConnectionError => "Connection error"
                    | EnergyChartsTimeoutError => "Timeout error"
                    | EnergyChartsDataError => "Data error"
                    | _ => "Unexpected error"
                    end), w1)
    | (Ok response, w1) =>
        match Coordinator._process_response response w1 with
        | (Raise e, w2) =>
            Coordinator._async_update_data self w
            = (Raise (UpdateFailed "Unexpected error"), w2)
        | (Ok base, w2) =>
            exists h w',
              Coordinator._async_update_data self w
                = (Ok (Coordinator.set_history base h), w')
              /\ Coordinator.raw_response (Coordinator.set_history base h) = response
        end
    end).
  { destruct (Api.get_current_day (Coordinator.api_client self) w) as [[response|e] w1]
      eqn:Hday.
    - destruct (Coordinator._process_response response w1) as [[base|e] w2] eqn:Hproc.
      + unfold Coordinator._async_update_data, try_except.
        unfold bind at 1. rewrite Hday. unfold bind at 1. rewrite Hproc.
        apply process_response_ok in Hproc as (_ & Hraw & _).
        destruct (negb _).
        * match goal with |- context [Coordinator._fetch_historical_data self ?r] =>
            destruct (fetch_historical_data_total self r w2) as (h & w3 & H & _) end.
          unfold bind. rewrite H. exists h, w3. split; [reflexivity | exact Hraw].
        * exists (Coordinator.history base), w2. rewrite set_history_same.
          split; [reflexivity | exact Hraw].
      + unfold Coordinator._async_update_data, try_except.
        unfold bind at 1. rewrite Hday. unfold bind at 1. rewrite Hproc.
        apply process_response_raises in Hproc as (_ & series & _ & _ & He).
        unfold raise.
        destruct (latest_timestamp_raises _ _ He) as [->|[->| ->]]; reflexivity.
    - unfold Coordinator._async_update_data, try_except. unfold bind at 1. rewrite Hday.
      unfold raise. destruct e; reflexivity. }
  split; [exact Hmain|].
  intros e w' Hraise.
  destruct (Api.get_current_day (Coordinator.api_client self) w) as [[response|e0] w1].
  - destruct (Coordinator._process_response response w1) as [[base|e1] w2].
    + destruct Hmain as (h & w3 & H & _). congruence.
    + rewrite Hmain in Hraise. injection Hraise as <- _. eauto.
  - rewrite Hmain in Hraise. injection Hraise as <- _. eauto.
Qed.

End RefreshProperties.

Lemma test_connection_witness :
  exists m status data r,
    (m < 3)%nat
    /\ http Example1.serving (m + gets Example1.serving)%nat
         (url_of (@Api.new_client ascii_utc "de") (week_endpoint (clock Example1.serving 0)))
       = Responds status (JList data)
    /\ (status < 400)%Z
    /\ @Models.from_api_response wire_validator data = Ok r.
Proof.
  destruct (@test_connection_reduces_failure wire_validator (@Api.new_client ascii_utc "de")
              Example1.serving) as (answer & _ & Hiff & Htrue).
  apply Htrue. apply Hiff. eexists. vm_compute. reflexivity.
Defined.

Lemma refresh_raises_update_failed_witness :
  (exists message,
     fst (@Coordinator._async_update_data wire_validator ascii_utc
            (Example1.coordinator "day") Example2.missing)
     = Raise (UpdateFailed message))
  /\ (exists message,
        fst (@Coordinator._async_update_data wire_validator ascii_utc
               (Example1.coordinator "day") Example1.serving_far)
        = Raise (UpdateFailed message)).
Proof.
  split.
  - destruct (@refresh_raises_update_failed_only wire_validator ascii_utc
                (Example1.coordinator "day") Example2.missing) as (_ & H).
    destruct (@Coordinator._async_update_data wire_validator ascii_utc
                (Example1.coordinator "day") Example2.missing) as [[d|e] w'] eqn:E;
      [vm_compute in E; discriminate E|].
    destruct (H e w' eq_refl) as (message & ->). exists message. reflexivity.
  - destruct (@refresh_raises_update_failed_only wire_validator ascii_utc
                (Example1.coordinator "day") Example1.serving_far) as (_ & H).
    destruct (@Coordinator._async_update_data wire_validator ascii_utc
                (Example1.coordinator "day") Example1.serving_far) as [[d|e] w'] eqn:E;
      [vm_compute in E; discriminate E|].
    destruct (H e w' eq_refl) as (message & ->). exists message. reflexivity.
Defined.

(** ** api.py: where the month fetches go *)

Lemma make_request_default_trace (self : Api.EnergyChartsApiClient) (endpoint : string)
  (w : world) :
  exists evs,
    trace (snd (Api._make_request self endpoint Api.default_retries
                  Api.default_backoff_factor w))
      = (trace w ++ Get (url_of self endpoint) 30 :: evs)%list
    /\ forall url t, In (Get url t) evs -> url = url_of self endpoint.
Proof.
  unfold Api._make_request. fold (url_of self endpoint).
  set (url := url_of self endpoint).
  change (Z.to_nat Api.default_retries) with 3%nat.
  rewrite attempts_step. cbv zeta.
  change (Const.API_TIMEOUT * (0 + 1))%Z with 30%Z.
  assert (Hdone : exists evs : list event,
             trace (after w 1 [Get url 30]) = (trace w ++ Get url 30 :: evs)%list
             /\ forall u t, In (Get u t) evs -> u = url).
  { exists []. split; [reflexivity | intros u t []]. }
  destruct (Api.classify (http w (gets w) url)) as [data|e|e]; try exact Hdone.
  change (0 <? Api.default_retries - 1)%Z with true. cbv iota.
  rewrite wait_time_0.
  set (ev0 := [Sleep (PrimFloat.mul Api.default_backoff_factor 1)]).
  destruct (attempts_trace url Api.default_retries Api.default_backoff_factor
              2 (0 + 1)%Z (Some e) (after w 1 (Get url 30 :: ev0)) eq_refl)
    as (n & evs & Hsnd & _ & Hev & _).
  rewrite Hsnd. exists (ev0 ++ evs)%list. split.
  - cbn. rewrite <- app_assoc. reflexivity.
  - intros u t Hin. apply in_app_or in Hin as [[[=]|[]]|Hin].
    destruct (Hev _ Hin) as [Hs|(t' & [= -> _])]; [discriminate | reflexivity].
Qed.

(** X18. The month fetches request [month_<year>_<month, two digits>.json]:
    [get_current_month] for the year and month of the clock reading,
    [get_specific_month] for the period given. The first request goes there
    with the base timeout of 30 seconds and every later request of the run
    goes to the same URL. March 2026 is [month_2026_03.json]. *)
Theorem month_fetches_request_month_file {V : Validator}
  (self : Api.EnergyChartsApiClient) (y m : Z) (w : world) :
  (exists evs,
     trace (snd (Api.get_current_month self w))
       = (trace w
          ++ Get (url_of self (month_endpoint (year (clock w (nows w)))
                                 (month (clock w (nows w))))) 30 :: evs)%list
     /\ forall url t, In (Get url t) evs ->
          url = url_of self (month_endpoint (year (clock w (nows w)))
                               (month (clock w (nows w)))))
  /\ (exists evs,
        trace (snd (Api.get_specific_month self y m w))
          = (trace w ++ Get (url_of self (month_endpoint y m)) 30 :: evs)%list
        /\ forall url t, In (Get url t) evs -> url = url_of self (month_endpoint y m))
  /\ month_endpoint 2026 3 = "month_2026_03.json".
Proof.
  split; [|split; [|vm_compute; reflexivity]].
  - unfold Api.get_current_month. rewrite bind_datetime_now. cbv zeta.
    fold (month_endpoint (year (clock w (nows w))) (month (clock w (nows w)))).
    set (w1 := {| http := http w; clock := clock w; gets := gets w;
                  nows := S (nows w); trace := trace w |}).
    destruct (make_request_default_trace self
                (month_endpoint (year (clock w (nows w))) (month (clock w (nows w)))) w1)
      as (evs & Htr & Hev).
    exists evs. unfold bind.
    destruct (Api._make_request self _ Api.default_retries Api.default_backoff_factor w1)
      as [[data|e] w2]; cbn in *; auto.
  - unfold Api.get_specific_month. fold (month_endpoint y m).
    destruct (make_request_default_trace self (month_endpoint y m) w) as (evs & Htr & Hev).
    exists evs. unfold bind.
    destruct (Api._make_request self _ Api.default_retries Api.default_backoff_factor w)
      as [[data|e] w2]; cbn in *; auto.
Qed.

(** ** sensor.py *)

Lemma traverse_value_positive (sources_ : dict SourceData.t) :
  match traverse (fun item : string * SourceData.t => Sensor.value_positive (snd item))
          sources_ with
  | Ok flags =>
      flags = map (fun item : string * SourceData.t =>
                     match SourceData.value (snd item) with
                     | Some v => PyFloat.gt0 v
                     | None => false
                     end) sources_
      /\ forall k d, In (k, d) sources_ -> SourceData.value d <> None
  | Raise e =>
      e = TypeError /\ exists k d, In (k, d) sources_ /\ SourceData.value d = None
  end.
Proof.
  induction sources_ as [|[k d] rest IH]; cbn [traverse map].
  - split; [reflexivity | intros k d []].
  - unfold Sensor.value_positive at 1. cbn [snd].
    destruct (SourceData.value d) as [v|] eqn:Ev.
    + destruct (traverse _ rest) as [flags|e].
      * destruct IH as (-> & Hall). split; [reflexivity|].
        intros k' d' [[= <- <-]|Hin]; [congruence | eauto].
      * destruct IH as (-> & k' & d' & Hin & Hnone). split; [reflexivity|].
        exists k', d'. split; [right; exact Hin | exact Hnone].
    + split; [reflexivity|]. exists k, d. split; [left; reflexivity | exact Ev].
Qed.

Lemma source_count_total (sources_ : dict SourceData.t) :
  match Sensor.source_count sources_ with
  | Ok _ => forall k d, In (k, d) sources_ -> SourceData.value d <> None
  | Raise e => e = TypeError /\ exists k d, In (k, d) sources_ /\ SourceData.value d = None
  end.
Proof.
  unfold Sensor.source_count.
  pose proof (traverse_value_positive sources_) as H.
  destruct (traverse _ sources_) as [flags|e]; cbn [rbind]; [|exact H].
  destruct H as (_ & Hall). exact Hall.
Qed.

(** X19. The [source_count] attribute of the total production sensor: when
    every source has a value it is the number of sources whose value is
    strictly positive; as soon as one source has no value (a series with no
    measurement yet) the computation raises [TypeError], because it compares
    [None] with a number. *)
Theorem source_count_needs_all_values (sources_ : dict SourceData.t) :
  match Sensor.source_count sources_ with
  | Ok n =>
      (forall k d, In (k, d) sources_ -> SourceData.value d <> None)
      /\ n = length (Sums.values_where Sums.is_positive sources_)
  | Raise e =>
      e = TypeError /\ exists k d, In (k, d) sources_ /\ SourceData.value d = None
  end.
Proof.
  unfold Sensor.source_count.
  pose proof (traverse_value_positive sources_) as H.
  destruct (traverse _ sources_) as [flags|e]; cbn [rbind]; [|exact H].
  destruct H as (-> & Hall). split; [exact Hall|].
  clear Hall. unfold Sums.values_where, Sums.is_positive.
  induction sources_ as [|[k d] rest IH]; [reflexivity|].
  cbn [map filter flat_map snd]. rewrite length_app, <- IH.
  destruct (SourceData.value d) as [v|]; [|reflexivity].
  destruct (PyFloat.gt0 v); reflexivity.
Qed.

(** X20. A series that has no measurement makes the total production sensor
    fail: in a snapshot returned by [_process_response], when the series
    stored under some key has no latest value, the native value for that key
    is absent and the [source_count] of the snapshot's sources raises
    [TypeError]. *)
Theorem source_count_raises_on_silent_series {R : Runtime}
  (response : Models.EnergyChartsResponse) (w w' : world)
  (d : Coordinator.structured_data) (k : string) (series : Models.EnergyDataSeries) :
  Coordinator._process_response response w = (Ok d, w') ->
  shown_series response k = Some series ->
  Models.latest_value series = None ->
  Sensor.native_value d k = None
  /\ Sensor.source_count (Coordinator.sources d) = Raise TypeError.
Proof.
  intros H Hshown Hnone. apply process_response_ok in H as (Hsrc & _).
  pose proof (get_add_sources k _ _ _ Hsrc) as Hget.
  unfold shown_series in Hshown. rewrite Hshown in Hget.
  destruct Hget as (ts & _ & Hget).
  split.
  - unfold Sensor.native_value. rewrite Hget. cbn. rewrite Hnone. reflexivity.
  - pose proof (source_count_total (Coordinator.sources d)) as Hc.
    destruct (Sensor.source_count (Coordinator.sources d)) as [n|e].
    + exfalso. apply (Hc k (source_of series ts)); [apply get_In; exact Hget | exact Hnone].
    + destruct Hc as (-> & _). reflexivity.
Qed.

Lemma source_count_raises_witness :
  exists d w',
    @Coordinator._process_response ascii_utc silent_response Example1.serving = (Ok d, w')
    /\ Sensor.native_value d "biomass" = None
    /\ Sensor.source_count (Coordinator.sources d) = Raise TypeError.
Proof.
  destruct (@Coordinator._process_response ascii_utc silent_response Example1.serving)
    as [[d|e] w'] eqn:E; [|vm_compute in E; discriminate E].
  exists d, w'. split; [reflexivity|].
  apply (@source_count_raises_on_silent_series ascii_utc silent_response Example1.serving w'
           d "biomass" (Example3.series "Biomass" [None; None]));
    [exact E | vm_compute; reflexivity | vm_compute; reflexivity].
Defined.

(** ** sensor.py: the icon of a source *)

Lemma startswith_app (p q s : string) :
  PyStr.startswith (p ++ q) s = true -> PyStr.startswith p s = true.
Proof.
  revert s. induction p as [|a p IH]; intros s; [reflexivity|].
  destruct s as [|c s]; cbn; [discriminate|].
  intros H. apply andb_prop in H as [Hc Hr]. rewrite Hc, (IH _ Hr). reflexivity.
Qed.

Lemma contains_app (p q s : string) :
  PyStr.contains (p ++ q) s = true -> PyStr.contains p s = true.
Proof.
  induction s as [|c s IH].
  - cbn. destruct (PyStr.startswith (p ++ q) "") eqn:E; [|discriminate].
    intros _. rewrite (startswith_app _ _ _ E). reflexivity.
  - cbn [PyStr.contains].
    destruct (PyStr.startswith (p ++ q) (String c s)) eqn:E.
    + intros _. rewrite (startswith_app _ _ _ E). reflexivity.
    + intros H. rewrite (IH H). destruct (PyStr.startswith p (String c s)); reflexivity.
Qed.

Lemma startswith_refl (s : string) : PyStr.startswith s s = true.
Proof. induction s as [|c s IH]; cbn; [reflexivity|]. rewrite Ascii.eqb_refl. exact IH. Qed.

Lemma contains_refl (s : string) : PyStr.contains s s = true.
Proof. destruct s; cbn [PyStr.contains]; rewrite startswith_refl; reflexivity. Qed.

Lemma get_none_without_occurrence {A : Type} (d : dict A) (k : string) :
  find (fun t => PyStr.contains t k) (keys d) = None -> get d k = None.
Proof.
  unfold keys. induction d as [|[t v] r IH]; cbn; [reflexivity|].
  destruct (PyStr.contains t k) eqn:E; [discriminate|].
  destruct (String.eqb t k) eqn:Et; [|exact IH].
  apply String.eqb_eq in Et. subst t. rewrite contains_refl in E. discriminate.
Qed.

Lemma icon_cases (k : string) :
  Sensor.icon k
  = match find (fun t => PyStr.contains t k) (keys Const.SOURCE_ICONS) with
    | Some t => get_default Const.SOURCE_ICONS t "mdi:flash"
    | None => "mdi:flash"
    end.
Proof.
  unfold Sensor.icon. cbv zeta.
  destruct (find _ _) as [t|] eqn:E; [reflexivity|].
  unfold get_default. rewrite (get_none_without_occurrence _ _ E). reflexivity.
Qed.

Ltac icon_step t k :=
  destruct (PyStr.contains t k) eqn:?; [try (cbv; discriminate) | ].

(** X21. The icon of a source is that of the first key of the icon table
    that occurs in the source key, and the lightning icon when none does.
    Because ["hydro"] stands before ["hydro_pumped_storage"] in the table and
    occurs in it, the water-pump icon of the table is never chosen: a pumped
    storage source gets the plain water icon. *)
Theorem icon_is_first_table_match (k : string) :
  Sensor.icon k
    = match find (fun t => PyStr.contains t k) (keys Const.SOURCE_ICONS) with
      | Some t => get_default Const.SOURCE_ICONS t "mdi:flash"
      | None => "mdi:flash"
      end
  /\ Sensor.icon k <> "mdi:water-pump"
  /\ Sensor.icon "hydro_pumped_storage" = "mdi:water".
Proof.
  split; [apply icon_cases|]. split; [|vm_compute; reflexivity].
  rewrite icon_cases.
  assert (Hh : forall q, PyStr.contains "hydro" k = false ->
                         PyStr.contains ("hydro" ++ q) k = false).
  { intros q Hf. destruct (PyStr.contains ("hydro" ++ q) k) eqn:E; [|reflexivity].
    apply contains_app in E. congruence. }
  unfold keys, Const.SOURCE_ICONS. cbn [map fst find].
  icon_step "solar" k. icon_step "photovoltaic" k. icon_step "wind_onshore" k.
  icon_step "wind_offshore" k. icon_step "hydro" k.
  pose proof (Hh "_run-of-river" eq_refl) as H1.
  pose proof (Hh "_water_reservoir" eq_refl) as H2.
  pose proof (Hh "_pumped_storage" eq_refl) as H3.
  cbn [append] in H1, H2, H3. rewrite H1, H2, H3.
  icon_step "biomass" k. icon_step "nuclear" k. icon_step "fossil_gas" k.
  icon_step "fossil_coal" k. icon_step "fossil_hard_coal" k.
  icon_step "fossil_brown_coal_lignite" k. icon_step "fossil_brown_coal/lignite" k.
  icon_step "fossil_oil" k. icon_step "storage" k. icon_step "battery" k.
  icon_step "battery_storage" k. icon_step "trade" k. icon_step "geothermal" k.
  discriminate.
Qed.

(** ** api.py: the attempt that ends a request *)

Lemma attempts_until (url : string) (retries : Z) (b : float) :
  (retries <= 1025)%Z ->
  forall (j k : nat) (attempt : Z) (last : option exn) (w : world),
    (Z.of_nat k + attempt = retries)%Z -> (0 <= attempt)%Z -> (j < k)%nat ->
    (forall i, (i < j)%nat ->
               exists e, Api.classify (http w (i + gets w)%nat url) = Api.Records e) ->
    exists evs,
      length (filter is_sleep evs) = j
      /\ length evs = (2 * j + 1)%nat
      /\ match Api.classify (http w (j + gets w)%nat url) with
         | Api.Returns data =>
             Api.attempts url retries b k attempt last w = (Ok data, after w (S j) evs)
         | Api.Propagates e =>
             Api.attempts url retries b k attempt last w = (Raise e, after w (S j) evs)
         | Api.Records _ => True
         end.
Proof.
  intros Hmax. induction j as [|j IH]; intros k attempt last w Hinv Ha Hj Hfail.
  - destruct k as [|k]; [lia|]. cbn [Nat.add].
    exists [Get url (Const.API_TIMEOUT * (attempt + 1))].
    split; [reflexivity|]. split; [reflexivity|].
    rewrite attempts_step. cbv zeta.
    destruct (Api.classify (http w (gets w) url)); auto.
  - destruct k as [|k]; [lia|].
    destruct (Hfail 0%nat ltac:(lia)) as (e0 & He0). cbn [Nat.add] in He0.
    set (g := Get url (Const.API_TIMEOUT * (attempt + 1))).
    destruct (wait_time_ok b attempt ltac:(lia)) as (t & Ht).
    destruct (IH k (attempt + 1)%Z (Some e0) (after w 1 [g; Sleep t])
                ltac:(lia) ltac:(lia) ltac:(lia)) as (evs & Hsl & Hlen & Hrun).
    { intros i Hi. destruct (Hfail (S i) ltac:(lia)) as (e & He). exists e.
      cbn [http gets after]. replace (i + (1 + gets w))%nat with (S i + gets w)%nat by lia.
      exact He. }
    exists ([g; Sleep t] ++ evs)%list.
    split; [cbn [app filter is_sleep g length]; lia|].
    split; [cbn [app length]; lia|].
    cbn [http gets after] in Hrun.
    replace (j + (1 + gets w))%nat with (S j + gets w)%nat in Hrun by lia.
    rewrite attempts_step. cbv zeta. rewrite He0.
    replace (attempt <? retries - 1)%Z with true by (symmetry; apply Z.ltb_lt; lia).
    rewrite Ht. fold g.
    destruct (Api.classify (http w (S j + gets w)%nat url)); auto;
      rewrite Hrun, after_after; replace (S j + 1)%nat with (S (S j)) by lia; reflexivity.
Qed.

(** X22. Whatever the number of failed attempts before it, the first attempt
    that is answered decides the request (up to 1025 attempts allowed): after
    [j] recorded failures, a 404 on attempt [j + 1] raises the not-found
    failure and a list body under a status below 400 is returned, in both
    cases after exactly [j + 1] requests and [j] sleeps; the failures
    recorded before leave no trace in the result. *)
Theorem make_request_first_answer_decides (self : Api.EnergyChartsApiClient)
  (endpoint : string) (retries : Z) (b : float) (w : world) (j : nat) :
  (retries <= 1025)%Z -> (j < Z.to_nat retries)%nat ->
  (forall i, (i < j)%nat ->
             exists e, Api.classify (http w (i + gets w)%nat (url_of self endpoint))
                       = Api.Records e) ->
  (forall body,
     http w (j + gets w)%nat (url_of self endpoint) = Responds 404 body ->
     exists evs,
       Api._make_request self endpoint retries b w
         = (Raise EnergyChartsNotFoundError, after w (S j) evs)
       /\ length (filter is_sleep evs) = j)
  /\ (forall status data,
        http w (j + gets w)%nat (url_of self endpoint) = Responds status (JList data) ->
        (status < 400)%Z ->
        exists evs,
          Api._make_request self endpoint retries b w = (Ok data, after w (S j) evs)
          /\ length (filter is_sleep evs) = j).
Proof.
  intros Hmax Hj Hfail.
  destruct (attempts_until (url_of self endpoint) retries b Hmax j (Z.to_nat retries) 0 None w
              ltac:(lia) ltac:(lia) Hj Hfail) as (evs & Hsl & _ & Hrun).
  unfold Api._make_request. fold (url_of self endpoint). split.
  - intros body Ho. rewrite Ho in Hrun. cbn in Hrun. eauto.
  - intros status data Ho Hs. rewrite Ho in Hrun. cbn in Hrun.
    replace (status =? 404)%Z with false in Hrun by (symmetry; apply Z.eqb_neq; lia).
    replace (400 <=? status)%Z with false in Hrun by (symmetry; apply Z.leb_gt; lia).
    eauto.
Qed.

Lemma make_request_first_answer_witness :
  exists evs,
    Api._make_request Example2.client "week_2026_45.json" 3 1%float Example2.flaky
      = (Ok [], after Example2.flaky 3 evs)
    /\ length (filter is_sleep evs) = 2%nat.
Proof.
  destruct (make_request_first_answer_decides Example2.client "week_2026_45.json" 3 1%float
              Example2.flaky 2 ltac:(lia) ltac:(cbn; lia)) as (_ & H).
  - intros i Hi. exists EnergyChartsTimeoutError.
    destruct i as [|[|i]]; [reflexivity | reflexivity | lia].
  - apply (H 200%Z []); [reflexivity | lia].
Defined.

(** ** models.py: one malformed object fails the whole response *)

Lemma parse_items_raise {V : Validator} (timestamps_ : json) (items : list json)
  (item : json) (e : exn) :
  In item items -> Models.parse_item timestamps_ item = Raise e ->
  exists e', Models.parse_items timestamps_ items = Raise e'.
Proof.
  induction items as [|first rest IH]; intros Hin Hraise; [destruct Hin|].
  cbn [Models.parse_items].
  destruct Hin as [->|Hin].
  - rewrite Hraise. cbn. eauto.
  - destruct (Models.parse_item timestamps_ first) as [parsed|e0]; cbn; [|eauto].
    destruct (IH Hin Hraise) as (e' & ->). cbn. eauto.
Qed.

(** X23. The normalizer has no partial result: when the handling of any one
    object of the response raises (a name sequence whose first element is
    not a mapping of strings, a data field that is not a list, an object that
    is a number), the whole response is refused with an exception and no
    series is produced. *)
Theorem from_api_response_all_or_nothing {V : Validator} (response_data : list json)
  (timestamps_ : json) (item : json) (e : exn) :
  PyObj.get (hd JNull response_data) "xAxisValues" (JList []) = Ok timestamps_ ->
  In item response_data ->
  Models.parse_item timestamps_ item = Raise e ->
  exists e', Models.from_api_response response_data = Raise e'.
Proof.
  intros Hts Hin Hraise. unfold Models.from_api_response.
  destruct response_data as [|first rest]; [destruct Hin|].
  cbn [hd] in Hts. rewrite Hts. cbn [rbind].
  destruct (parse_items_raise timestamps_ (first :: rest) item e Hin Hraise) as (e' & ->).
  cbn. eauto.
Qed.

Lemma from_api_response_all_or_nothing_witness :
  exists e', @Models.from_api_response wire_validator numbered_name_response = Raise e'.
Proof.
  apply (@from_api_response_all_or_nothing wire_validator numbered_name_response
           (JList [JInt 1700000000000])
           (JDict [("name", JList [JInt 5]); ("data", JList [JFloat 3])]) ValidationError).
  - reflexivity.
  - right. left. reflexivity.
  - reflexivity.
Defined.
